(** * A 6TiSCH mote: shallow embedding of [SimEngine/Mote.py]

    The development follows the Python class [Mote] of the TSCH
    slot-bonding simulator.  Dictionaries keyed by a neighbour are finite
    maps ([gmap]) keyed by the neighbour's id; the schedule, whose iteration
    order is observable, is an association list in iteration order; Python
    floats are idealised as exact rationals ([Q]); a raised exception is an
    explicit outcome of the function that raises it. *)

From stdpp Require Import gmap strings list sorting.
From Stdlib Require Import ZArith QArith Qround Lia.

Open Scope Z_scope.

(** ** Outcomes of a call: a returned value or a raised exception *)

Inductive exn :=
| AssertionError | KeyError | TypeError | ValueError | ZeroDivisionError
| AttributeError.

Inductive outcome (A : Type) :=
| Ok (a : A)
| Raise (e : exn).
Arguments Ok {A} a.
Arguments Raise {A} e.

#[global] Instance outcome_ret : MRet outcome := fun _ a => Ok a.
#[global] Instance outcome_bind : MBind outcome := fun _ _ f x =>
  match x with
  | Ok a => f a
  | Raise e => Raise e
  end.

(** [d[k]] on a dictionary: [KeyError] when the key is missing. *)
Definition getitem {A} (o : option A) : outcome A :=
  match o with
  | Some a => Ok a
  | None => Raise KeyError
  end.

(** ** Constants of the module *)

Definition NUM_SUFFICIENT_TX : Z := 10.
Definition MSF_DEFAULT_SIXTOP_TIMEOUT : Z := 15.
Definition MSF_6PTIMEOUT_SEC_FACTOR : Z := 5.
Definition MSF_MAX_OLD_PARENT_REMOVAL : Z := 1.
Definition RPL_MIN_HOP_RANK_INCREASE : Z := 256.
Definition TSCH_QUEUE_SIZE : nat := 10.
Definition TSCH_MAXTXRETRIES : Z := 4.

Inductive Dir := DIR_TX | DIR_RX | DIR_TXRX_SHARED.

Inductive PktType :=
| APP_TYPE_DATA | APP_TYPE_ACK | APP_TYPE_JOIN | APP_TYPE_FRAG
| RPL_TYPE_DIO | RPL_TYPE_DAO | TSCH_TYPE_EB
| IANA_6TOP_TYPE_REQUEST | IANA_6TOP_TYPE_RESPONSE
| IANA_6TOP_TYPE_CONFIRMATION.

Inductive SixState :=
| SIX_STATE_IDLE
| SIX_STATE_SENDING_REQUEST
| SIX_STATE_WAIT_ADDREQUEST_SENDDONE
| SIX_STATE_WAIT_DELETEREQUEST_SENDDONE
| SIX_STATE_WAIT_RELOCATEREQUEST_SENDDONE
| SIX_STATE_WAIT_COUNTREQUEST_SENDDONE
| SIX_STATE_WAIT_LISTREQUEST_SENDDONE
| SIX_STATE_WAIT_CLEARREQUEST_SENDDONE
| SIX_STATE_WAIT_ADDRESPONSE
| SIX_STATE_WAIT_DELETERESPONSE
| SIX_STATE_WAIT_RELOCATERESPONSE
| SIX_STATE_WAIT_COUNTRESPONSE
| SIX_STATE_WAIT_LISTRESPONSE
| SIX_STATE_WAIT_CLEARRESPONSE
| SIX_STATE_REQUEST_ADD_RECEIVED
| SIX_STATE_WAIT_ADD_RESPONSE_SENDDONE
| SIX_STATE_REQUEST_DELETE_RECEIVED
| SIX_STATE_WAIT_DELETE_RESPONSE_SENDDONE.

(** 6P commands and return codes are the integers of the source. *)
Definition IANA_6TOP_CMD_ADD : Z := 1.
Definition IANA_6TOP_CMD_DELETE : Z := 2.
Definition IANA_6TOP_RC_SUCCESS : Z := 0.
Definition IANA_6TOP_RC_RESET : Z := 3.
Definition IANA_6TOP_RC_BUSY : Z := 7.
Definition IANA_6TOP_RC_NORES : Z := 8.

#[global] Instance Dir_eq_dec : EqDecision Dir.
Proof. solve_decision. Defined.
#[global] Instance PktType_eq_dec : EqDecision PktType.
Proof. solve_decision. Defined.
#[global] Instance SixState_eq_dec : EqDecision SixState.
Proof. solve_decision. Defined.

(** ** Peers, cells, packets *)

(** The [neighbor] of a cell is a mote, or the list of all neighbours for a
    broadcast (minimal) cell; [_isBroadcast] tests for the list. *)
Inductive Peer :=
| Unicast (n : nat)
| Broadcast (ns : list nat).

#[global] Instance Peer_eq_dec : EqDecision Peer.
Proof. solve_decision. Defined.

Definition _isBroadcast (p : Peer) : bool :=
  match p with
  | Broadcast _ => true
  | Unicast _ => false
  end.

(** A destination address: a mote or [BROADCAST_ADDRESS]. *)
Inductive Addr :=
| AddrMote (n : nat)
| BROADCAST_ADDRESS.

#[global] Instance Addr_eq_dec : EqDecision Addr.
Proof. solve_decision. Defined.

(** The entries of a schedule cell that the mote logic reads or writes
    (the [debug_*] entries, [numRx], the collision indicators and the
    modulation label are bookkeeping for the statistics output). *)
Record Cell := mkCell {
  cell_ch : Z;
  cell_dir : Dir;
  cell_neighbor : Peer;
  cell_numTx : Z;
  cell_numTxAck : Z;
  cell_history : list Z;
  cell_parentTs : option Z
}.

Definition CellTuple : Type := Z * Z * Dir.

Record Packet := mkPacket {
  pkt_asn : Z;
  pkt_type : PktType;
  pkt_code : Z;
  pkt_payload : list Z;
  pkt_cells : list CellTuple;
  pkt_retriesLeft : Z;
  pkt_dstIp : Addr;
  pkt_sourceRoute : list (list nat);
  pkt_nextHop : option (list (option nat))
}.

#[global] Instance Packet_eq_dec : EqDecision Packet.
Proof. solve_decision. Defined.

(** ** 6top transaction state *)

Record SixtopTimer := mkTimer {
  timer_tag : nat * nat;
  timer_asn : Z
}.

(** One half-context ([tx] or [rx]) of [sixtopStates[n]]; the [timer] key is
    present only while a timeout is armed. *)
Record SixtopHalf := mkHalf {
  six_state : SixState;
  six_blockedCells : list CellTuple;
  six_seqNum : Z;
  six_timeout : option Z;
  six_timer : option SixtopTimer
}.

Record SixtopEntry := mkEntry {
  six_tx : option SixtopHalf;
  six_rx : option SixtopHalf
}.

(** ** Settings and the mote *)

Record Settings := mkSettings {
  sf : string;
  backoffMinExp : Z;
  backoffMaxExp : Z;
  slotframeLength : Z;
  slotDuration : Q;
  minCellsMSF : Z;
  individualModulations : Z;
  sixtopRemoveRandomCell : bool
}.

Record Mote := mkMote {
  id : nat;
  settings : Settings;
  dagRoot : bool;
  dagRootAddress : option nat;
  preferredParent : option nat;
  oldPreferredParent : option nat;
  PDR : gmap nat Q;
  modulationSlots : nat -> nat;
  schedule : list (Z * Cell);
  txQueue : list Packet;
  pktToSend : option nat;
  motestats : string -> Z;
  sixtopStates : gmap nat SixtopEntry;
  numCellsToNeighbors : gmap nat Z;
  numCellsFromNeighbors : gmap nat Z;
  rplPrefParentChurnToAndASN : option nat * option Z;
  rplPrefParentASNDiffs : list Z;
  currentOldPrefParentRemoval : Z;
  oldPrefParentRemoval : Z;
  timeCorrectedSlot : option Z;
  backoffBroadcast : Z;
  backoffBroadcastExponent : Z;
  backoffPerNeigh : gmap nat Z;
  backoffExponentPerNeigh : gmap nat Z;
  waitingFor : option Dir
}.

(** Assignment to one attribute of the mote: every other attribute is kept. *)

Definition set_oldPreferredParent v (m : Mote) : Mote :=
  mkMote (id m) (settings m) (dagRoot m) (dagRootAddress m) (preferredParent m)
    v (PDR m) (modulationSlots m) (schedule m) (txQueue m) (pktToSend m)
    (motestats m) (sixtopStates m) (numCellsToNeighbors m)
    (numCellsFromNeighbors m) (rplPrefParentChurnToAndASN m)
    (rplPrefParentASNDiffs m) (currentOldPrefParentRemoval m)
    (oldPrefParentRemoval m) (timeCorrectedSlot m) (backoffBroadcast m)
    (backoffBroadcastExponent m) (backoffPerNeigh m)
    (backoffExponentPerNeigh m) (waitingFor m).

Definition set_schedule v (m : Mote) : Mote :=
  mkMote (id m) (settings m) (dagRoot m) (dagRootAddress m) (preferredParent m)
    (oldPreferredParent m) (PDR m) (modulationSlots m) v (txQueue m)
    (pktToSend m) (motestats m) (sixtopStates m) (numCellsToNeighbors m)
    (numCellsFromNeighbors m) (rplPrefParentChurnToAndASN m)
    (rplPrefParentASNDiffs m) (currentOldPrefParentRemoval m)
    (oldPrefParentRemoval m) (timeCorrectedSlot m) (backoffBroadcast m)
    (backoffBroadcastExponent m) (backoffPerNeigh m)
    (backoffExponentPerNeigh m) (waitingFor m).

Definition set_txQueue v (m : Mote) : Mote :=
  mkMote (id m) (settings m) (dagRoot m) (dagRootAddress m) (preferredParent m)
    (oldPreferredParent m) (PDR m) (modulationSlots m) (schedule m) v
    (pktToSend m) (motestats m) (sixtopStates m) (numCellsToNeighbors m)
    (numCellsFromNeighbors m) (rplPrefParentChurnToAndASN m)
    (rplPrefParentASNDiffs m) (currentOldPrefParentRemoval m)
    (oldPrefParentRemoval m) (timeCorrectedSlot m) (backoffBroadcast m)
    (backoffBroadcastExponent m) (backoffPerNeigh m)
    (backoffExponentPerNeigh m) (waitingFor m).

Definition set_motestats v (m : Mote) : Mote :=
  mkMote (id m) (settings m) (dagRoot m) (dagRootAddress m) (preferredParent m)
    (oldPreferredParent m) (PDR m) (modulationSlots m) (schedule m)
    (txQueue m) (pktToSend m) v (sixtopStates m) (numCellsToNeighbors m)
    (numCellsFromNeighbors m) (rplPrefParentChurnToAndASN m)
    (rplPrefParentASNDiffs m) (currentOldPrefParentRemoval m)
    (oldPrefParentRemoval m) (timeCorrectedSlot m) (backoffBroadcast m)
    (backoffBroadcastExponent m) (backoffPerNeigh m)
    (backoffExponentPerNeigh m) (waitingFor m).

Definition set_sixtopStates v (m : Mote) : Mote :=
  mkMote (id m) (settings m) (dagRoot m) (dagRootAddress m) (preferredParent m)
    (oldPreferredParent m) (PDR m) (modulationSlots m) (schedule m)
    (txQueue m) (pktToSend m) (motestats m) v (numCellsToNeighbors m)
    (numCellsFromNeighbors m) (rplPrefParentChurnToAndASN m)
    (rplPrefParentASNDiffs m) (currentOldPrefParentRemoval m)
    (oldPrefParentRemoval m) (timeCorrectedSlot m) (backoffBroadcast m)
    (backoffBroadcastExponent m) (backoffPerNeigh m)
    (backoffExponentPerNeigh m) (waitingFor m).

Definition set_numCellsToNeighbors v (m : Mote) : Mote :=
  mkMote (id m) (settings m) (dagRoot m) (dagRootAddress m) (preferredParent m)
    (oldPreferredParent m) (PDR m) (modulationSlots m) (schedule m)
    (txQueue m) (pktToSend m) (motestats m) (sixtopStates m) v
    (numCellsFromNeighbors m) (rplPrefParentChurnToAndASN m)
    (rplPrefParentASNDiffs m) (currentOldPrefParentRemoval m)
    (oldPrefParentRemoval m) (timeCorrectedSlot m) (backoffBroadcast m)
    (backoffBroadcastExponent m) (backoffPerNeigh m)
    (backoffExponentPerNeigh m) (waitingFor m).

Definition set_numCellsFromNeighbors v (m : Mote) : Mote :=
  mkMote (id m) (settings m) (dagRoot m) (dagRootAddress m) (preferredParent m)
    (oldPreferredParent m) (PDR m) (modulationSlots m) (schedule m)
    (txQueue m) (pktToSend m) (motestats m) (sixtopStates m)
    (numCellsToNeighbors m) v (rplPrefParentChurnToAndASN m)
    (rplPrefParentASNDiffs m) (currentOldPrefParentRemoval m)
    (oldPrefParentRemoval m) (timeCorrectedSlot m) (backoffBroadcast m)
    (backoffBroadcastExponent m) (backoffPerNeigh m)
    (backoffExponentPerNeigh m) (waitingFor m).

Definition set_rplPrefParentChurnToAndASN v (m : Mote) : Mote :=
  mkMote (id m) (settings m) (dagRoot m) (dagRootAddress m) (preferredParent m)
    (oldPreferredParent m) (PDR m) (modulationSlots m) (schedule m)
    (txQueue m) (pktToSend m) (motestats m) (sixtopStates m)
    (numCellsToNeighbors m) (numCellsFromNeighbors m) v
    (rplPrefParentASNDiffs m) (currentOldPrefParentRemoval m)
    (oldPrefParentRemoval m) (timeCorrectedSlot m) (backoffBroadcast m)
    (backoffBroadcastExponent m) (backoffPerNeigh m)
    (backoffExponentPerNeigh m) (waitingFor m).

Definition set_rplPrefParentASNDiffs v (m : Mote) : Mote :=
  mkMote (id m) (settings m) (dagRoot m) (dagRootAddress m) (preferredParent m)
    (oldPreferredParent m) (PDR m) (modulationSlots m) (schedule m)
    (txQueue m) (pktToSend m) (motestats m) (sixtopStates m)
    (numCellsToNeighbors m) (numCellsFromNeighbors m)
    (rplPrefParentChurnToAndASN m) v (currentOldPrefParentRemoval m)
    (oldPrefParentRemoval m) (timeCorrectedSlot m) (backoffBroadcast m)
    (backoffBroadcastExponent m) (backoffPerNeigh m)
    (backoffExponentPerNeigh m) (waitingFor m).

Definition set_currentOldPrefParentRemoval v (m : Mote) : Mote :=
  mkMote (id m) (settings m) (dagRoot m) (dagRootAddress m) (preferredParent m)
    (oldPreferredParent m) (PDR m) (modulationSlots m) (schedule m)
    (txQueue m) (pktToSend m) (motestats m) (sixtopStates m)
    (numCellsToNeighbors m) (numCellsFromNeighbors m)
    (rplPrefParentChurnToAndASN m) (rplPrefParentASNDiffs m) v
    (oldPrefParentRemoval m) (timeCorrectedSlot m) (backoffBroadcast m)
    (backoffBroadcastExponent m) (backoffPerNeigh m)
    (backoffExponentPerNeigh m) (waitingFor m).

Definition set_oldPrefParentRemoval v (m : Mote) : Mote :=
  mkMote (id m) (settings m) (dagRoot m) (dagRootAddress m) (preferredParent m)
    (oldPreferredParent m) (PDR m) (modulationSlots m) (schedule m)
    (txQueue m) (pktToSend m) (motestats m) (sixtopStates m)
    (numCellsToNeighbors m) (numCellsFromNeighbors m)
    (rplPrefParentChurnToAndASN m) (rplPrefParentASNDiffs m)
    (currentOldPrefParentRemoval m) v (timeCorrectedSlot m)
    (backoffBroadcast m) (backoffBroadcastExponent m) (backoffPerNeigh m)
    (backoffExponentPerNeigh m) (waitingFor m).

Definition set_timeCorrectedSlot v (m : Mote) : Mote :=
  mkMote (id m) (settings m) (dagRoot m) (dagRootAddress m) (preferredParent m)
    (oldPreferredParent m) (PDR m) (modulationSlots m) (schedule m)
    (txQueue m) (pktToSend m) (motestats m) (sixtopStates m)
    (numCellsToNeighbors m) (numCellsFromNeighbors m)
    (rplPrefParentChurnToAndASN m) (rplPrefParentASNDiffs m)
    (currentOldPrefParentRemoval m) (oldPrefParentRemoval m) v
    (backoffBroadcast m) (backoffBroadcastExponent m) (backoffPerNeigh m)
    (backoffExponentPerNeigh m) (waitingFor m).

Definition set_backoffBroadcast v (m : Mote) : Mote :=
  mkMote (id m) (settings m) (dagRoot m) (dagRootAddress m) (preferredParent m)
    (oldPreferredParent m) (PDR m) (modulationSlots m) (schedule m)
    (txQueue m) (pktToSend m) (motestats m) (sixtopStates m)
    (numCellsToNeighbors m) (numCellsFromNeighbors m)
    (rplPrefParentChurnToAndASN m) (rplPrefParentASNDiffs m)
    (currentOldPrefParentRemoval m) (oldPrefParentRemoval m)
    (timeCorrectedSlot m) v (backoffBroadcastExponent m)
    (backoffPerNeigh m) (backoffExponentPerNeigh m) (waitingFor m).

Definition set_backoffBroadcastExponent v (m : Mote) : Mote :=
  mkMote (id m) (settings m) (dagRoot m) (dagRootAddress m) (preferredParent m)
    (oldPreferredParent m) (PDR m) (modulationSlots m) (schedule m)
    (txQueue m) (pktToSend m) (motestats m) (sixtopStates m)
    (numCellsToNeighbors m) (numCellsFromNeighbors m)
    (rplPrefParentChurnToAndASN m) (rplPrefParentASNDiffs m)
    (currentOldPrefParentRemoval m) (oldPrefParentRemoval m)
    (timeCorrectedSlot m) (backoffBroadcast m) v (backoffPerNeigh m)
    (backoffExponentPerNeigh m) (waitingFor m).

Definition set_backoffPerNeigh v (m : Mote) : Mote :=
  mkMote (id m) (settings m) (dagRoot m) (dagRootAddress m) (preferredParent m)
    (oldPreferredParent m) (PDR m) (modulationSlots m) (schedule m)
    (txQueue m) (pktToSend m) (motestats m) (sixtopStates m)
    (numCellsToNeighbors m) (numCellsFromNeighbors m)
    (rplPrefParentChurnToAndASN m) (rplPrefParentASNDiffs m)
    (currentOldPrefParentRemoval m) (oldPrefParentRemoval m)
    (timeCorrectedSlot m) (backoffBroadcast m)
    (backoffBroadcastExponent m) v (backoffExponentPerNeigh m)
    (waitingFor m).

Definition set_backoffExponentPerNeigh v (m : Mote) : Mote :=
  mkMote (id m) (settings m) (dagRoot m) (dagRootAddress m) (preferredParent m)
    (oldPreferredParent m) (PDR m) (modulationSlots m) (schedule m)
    (txQueue m) (pktToSend m) (motestats m) (sixtopStates m)
    (numCellsToNeighbors m) (numCellsFromNeighbors m)
    (rplPrefParentChurnToAndASN m) (rplPrefParentASNDiffs m)
    (currentOldPrefParentRemoval m) (oldPrefParentRemoval m)
    (timeCorrectedSlot m) (backoffBroadcast m)
    (backoffBroadcastExponent m) (backoffPerNeigh m) v (waitingFor m).

Definition set_waitingFor v (m : Mote) : Mote :=
  mkMote (id m) (settings m) (dagRoot m) (dagRootAddress m) (preferredParent m)
    (oldPreferredParent m) (PDR m) (modulationSlots m) (schedule m)
    (txQueue m) (pktToSend m) (motestats m) (sixtopStates m)
    (numCellsToNeighbors m) (numCellsFromNeighbors m)
    (rplPrefParentChurnToAndASN m) (rplPrefParentASNDiffs m)
    (currentOldPrefParentRemoval m) (oldPrefParentRemoval m)
    (timeCorrectedSlot m) (backoffBroadcast m)
    (backoffBroadcastExponent m) (backoffPerNeigh m)
    (backoffExponentPerNeigh m) v.

(** ** Wireless: link and cell delivery ratios *)

(** [self.PDR[neighbor]]: a broadcast peer is a list, which cannot be a
    dictionary key. *)
Definition getPDR (m : Mote) (neighbor : Peer) : outcome Q :=
  match neighbor with
  | Unicast n => getitem (PDR m !! n)
  | Broadcast _ => Raise TypeError
  end.

(** The guard [assert cell['neighbor'] is not type(list)] compares with the
    class [type] and always holds. *)
Definition getCellPDR (m : Mote) (cell : Cell) : outcome Q :=
  if cell_numTx cell <? NUM_SUFFICIENT_TX
  then getPDR m (cell_neighbor cell)
  else Ok (inject_Z (cell_numTxAck cell) / inject_Z (cell_numTx cell))%Q.

(** The test shared by the loops over the schedule:
    [(cell['neighbor'] == neighbor and cell['dir'] == DIR_TX) or
     (cell['dir'] == DIR_TXRX_SHARED and cell['neighbor'] == neighbor)]. *)
Definition is_tx_or_shared_to (neighbor : nat) (cell : Cell) : bool :=
  bool_decide (cell_neighbor cell = Unicast neighbor ∧ cell_dir cell = DIR_TX)
  || bool_decide (cell_dir cell = DIR_TXRX_SHARED
                  ∧ cell_neighbor cell = Unicast neighbor).

(** [sum(l)] adds from the left, starting at 0. *)
Definition Qsum (l : list Q) : Q := foldl Qplus 0%Q l.

(** [int(x)] on a float truncates towards zero. *)
Definition Qtrunc (q : Q) : Z := Z.quot (Qnum q) (Z.pos (Qden q)).

(** ** MSF: the 6P timeout towards a neighbour *)

(** The first loop of [_msf_get_sixtop_timeout]: the list [cellPDR]. *)
Fixpoint timeout_cellPDR (m : Mote) (neighbor : nat)
    (sched : list (Z * Cell)) : outcome (list Q) :=
  match sched with
  | [] => Ok []
  | (ts, cell) :: rest =>
    if is_tx_or_shared_to neighbor cell then
      p ← getCellPDR m cell;
      ps ← timeout_cellPDR m neighbor rest;
      mret (p :: ps)
    else timeout_cellPDR m neighbor rest
  end.

Definition _msf_get_sixtop_timeout (m : Mote) (neighbor : nat) : outcome Z :=
  cellPDR ← timeout_cellPDR m neighbor (schedule m);
  if (0 <? length cellPDR)%nat then
    let meanPDR := (Qsum cellPDR / inject_Z (Z.of_nat (length cellPDR)))%Q in
    if Qlt_le_dec meanPDR (1 # 100000) then Ok MSF_DEFAULT_SIXTOP_TIMEOUT
    else if Qle_bool meanPDR 1 then
      Ok (Qceiling
            ((inject_Z (slotframeLength (settings m)) * slotDuration (settings m)
              / inject_Z (Z.of_nat (length cellPDR)))
             * (1 / meanPDR) * inject_Z MSF_6PTIMEOUT_SEC_FACTOR)%Q)
    else Raise AssertionError
  else Ok MSF_DEFAULT_SIXTOP_TIMEOUT.

(** ** RPL: ETX estimate and rank increase *)

(** The loop of [_estimateETX] over the schedule, on the pair
    [(numTx, numTxAck)]. *)
Definition etx_step (neighbor : nat) (acc : Z * Z) (entry : Z * Cell) : Z * Z :=
  if is_tx_or_shared_to neighbor entry.2
  then (acc.1 + cell_numTx entry.2, acc.2 + cell_numTxAck entry.2)
  else acc.

(** [None] is the bare [return] taken when [numTxAck] is zero. *)
Definition _estimateETX (m : Mote) (neighbor : nat) : outcome (option Q) :=
  pdr ← getPDR m (Unicast neighbor);
  let numTx := NUM_SUFFICIENT_TX in
  let numTxAck := Qfloor (pdr * inject_Z numTx) in
  let acc := foldl (etx_step neighbor) (numTx, numTxAck) (schedule m) in
  if acc.2 =? 0 then Ok None
  else Ok (Some (inject_Z acc.1 / inject_Z acc.2)%Q).

Definition _rpl_calcRankIncrease (m : Mote) (neighbor : nat)
    : outcome (option Z) :=
  etx ← _estimateETX m neighbor;
  match etx with
  | None => Ok None
  | Some e =>
    if Qeq_bool e 0 then Ok None
    else Ok (Some (Qtrunc ((3 * e - 2) * inject_Z RPL_MIN_HOP_RANK_INCREASE)%Q))
  end.

(** ** Mote statistics *)

(** [motestats] is created by [_stats_resetMoteStats] with an entry for
    every counter of the mote, so [self.motestats[name] += 1] is an update of
    a total map from counter names to integers. *)
Definition _stats_incrementMoteStats (name : string) (m : Mote) : Mote :=
  set_motestats
    (fun k => if String.eqb k name then motestats m k + 1 else motestats m k) m.

(** ** Getters on the schedule *)

Definition cells_with_dir (d : Dir) (m : Mote) : list (Z * Z * Peer) :=
  omap (fun e : Z * Cell =>
          if decide (cell_dir e.2 = d)
          then Some (e.1, cell_ch e.2, cell_neighbor e.2) else None)
       (schedule m).

Definition getTxCells (m : Mote) : list (Z * Z * Peer) := cells_with_dir DIR_TX m.
Definition getSharedCells (m : Mote) : list (Z * Z * Peer) :=
  cells_with_dir DIR_TXRX_SHARED m.

(** Truth value of a list: non-empty. *)
Definition truthy {A} (l : list A) : bool :=
  match l with
  | [] => false
  | _ :: _ => true
  end.

(** ** RPL: next hop of a packet *)

Definition _myNeighbors (m : Mote) : list nat :=
  omap (fun e : nat * Q => if Qlt_le_dec 0 e.2 then Some e.1 else None)
       (map_to_list (PDR m)).

Definition set_nextHop (nh : option (list (option nat))) (p : Packet) : Packet :=
  mkPacket (pkt_asn p) (pkt_type p) (pkt_code p) (pkt_payload p) (pkt_cells p)
           (pkt_retriesLeft p) (pkt_dstIp p) (pkt_sourceRoute p) nh.

Definition set_sourceRoute (sr : list (list nat)) (p : Packet) : Packet :=
  mkPacket (pkt_asn p) (pkt_type p) (pkt_code p) (pkt_payload p) (pkt_cells p)
           (pkt_retriesLeft p) (pkt_dstIp p) sr (pkt_nextHop p).

Definition set_retriesLeft (r : Z) (p : Packet) : Packet :=
  mkPacket (pkt_asn p) (pkt_type p) (pkt_code p) (pkt_payload p) (pkt_cells p)
           r (pkt_dstIp p) (pkt_sourceRoute p) (pkt_nextHop p).

(** The loop [for nei in self._myNeighbors(): if [nei.id] == nextHopId:
    nextHop = [nei]]: the last match stays. *)
Definition sourceRoute_nextHop (neighbors : list nat) (nextHopId : list nat)
    : option (list (option nat)) :=
  foldl (fun acc nei => if decide ([nei] = nextHopId) then Some [Some nei] else acc)
        None neighbors.

(** Returns the truth value and the packet with its [nextHop] (and popped
    [sourceRoute]); the packet is left as it was on the early [return False]. *)
Definition _rpl_addNextHop (m : Mote) (packet : Packet) : outcome (bool * Packet) :=
  if decide (pkt_dstIp packet = AddrMote (id m)) then Raise AssertionError
  else if negb (bool_decide (is_Some (preferredParent m)) || dagRoot m)
  then Ok (false, packet)
  else
    let '(nextHop, packet) :=
      match pkt_dstIp packet with
      | BROADCAST_ADDRESS => (Some (Some <$> _myNeighbors m), packet)
      | AddrMote dst =>
        if bool_decide (pkt_type packet = IANA_6TOP_TYPE_REQUEST
                        ∨ pkt_type packet = IANA_6TOP_TYPE_RESPONSE)
        then (Some [Some dst], packet)
        else if decide (Some dst = dagRootAddress m)
        then (Some [preferredParent m], packet)
        else match last (pkt_sourceRoute packet) with
             | Some nextHopId =>
               (sourceRoute_nextHop (_myNeighbors m) nextHopId,
                set_sourceRoute (removelast (pkt_sourceRoute packet)) packet)
             | None =>
               if decide (dst ∈ _myNeighbors m)
               then (Some [Some dst], packet) else (None, packet)
             end
      end in
    Ok (match nextHop with Some l => truthy l | None => false end,
        set_nextHop nextHop packet).

(** ** TSCH: backoff resets and the transmit queue *)

Definition _tsch_resetBroadcastBackoff (m : Mote) : Mote :=
  set_backoffBroadcastExponent (2 - 1) (set_backoffBroadcast 0 m).

Definition _tsch_resetBackoffPerNeigh (neigh : nat) (m : Mote) : Mote :=
  set_backoffExponentPerNeigh
    (<[neigh := backoffMinExp (settings m) - 1]> (backoffExponentPerNeigh m))
    (set_backoffPerNeigh (<[neigh := 0]> (backoffPerNeigh m)) m).

(** The four types that may exceed the queue bound. *)
Definition is_extra_type (t : PktType) : bool :=
  bool_decide (t = APP_TYPE_JOIN) || bool_decide (t = RPL_TYPE_DAO)
  || bool_decide (t = IANA_6TOP_TYPE_REQUEST)
  || bool_decide (t = IANA_6TOP_TYPE_RESPONSE).

(** [for p in self.txQueue: if packet['type'] == p['type']: ... return]. *)
Fixpoint queue_has_type (t : PktType) (q : list Packet) : bool :=
  match q with
  | [] => false
  | p :: q' => if decide (t = pkt_type p) then true else queue_has_type t q'
  end.

Definition _tsch_enqueue (m : Mote) (packet : Packet) : outcome (bool * Mote) :=
  '(hasRoute, packet) ← _rpl_addNextHop m packet;
  if negb hasRoute then
    Ok (false, _stats_incrementMoteStats "droppedNoRoute" m)
  else if negb (truthy (getTxCells m) || truthy (getSharedCells m)) then
    let m := _stats_incrementMoteStats "droppedNoTxCells" m in
    if negb (String.eqb (sf (settings m)) "ilp") then Raise AssertionError
    else Ok (false, m)
  else if (TSCH_QUEUE_SIZE <=? length (txQueue m))%nat then
    if is_extra_type (pkt_type packet) then
      if queue_has_type (pkt_type packet) (txQueue m)
      then Ok (false, _stats_incrementMoteStats "droppedQueueFull" m)
      else Ok (true, set_txQueue (txQueue m ++ [packet]) m)
    else Ok (false, _stats_incrementMoteStats "droppedQueueFull" m)
  else Ok (true, set_txQueue (txQueue m ++ [packet]) m).

(** ** TSCH: adding and removing cells *)

Definition in_schedule (ts : Z) (sched : list (Z * Cell)) : bool :=
  bool_decide (ts ∈ sched.*1).

(** [_tsch_addCells]: every new cell starts with zeroed counters (the
    re-scheduling of the active-cell event is the engine's business). *)
Fixpoint _tsch_addCells (neighbor : Peer) (cellList : list CellTuple)
    (parentTs : option Z) (sched : list (Z * Cell)) : outcome (list (Z * Cell)) :=
  match cellList with
  | [] => Ok sched
  | (ts, ch, d) :: rest =>
    if in_schedule ts sched then Raise AssertionError
    else _tsch_addCells neighbor rest parentTs
           (sched ++ [(ts, mkCell ch d neighbor 0 0 [] parentTs)])
  end.

Fixpoint lookup_cell (ts : Z) (sched : list (Z * Cell)) : option Cell :=
  match sched with
  | [] => None
  | (ts', c) :: rest => if decide (ts' = ts) then Some c else lookup_cell ts rest
  end.

Fixpoint pop_cell (ts : Z) (sched : list (Z * Cell)) : list (Z * Cell) :=
  match sched with
  | [] => []
  | (ts', c) :: rest =>
    if decide (ts' = ts) then rest else (ts', c) :: pop_cell ts rest
  end.

Fixpoint _tsch_removeCells (neighbor : Peer) (tsList : list Z)
    (sched : list (Z * Cell)) : outcome (list (Z * Cell)) :=
  match tsList with
  | [] => Ok sched
  | ts :: rest =>
    match lookup_cell ts sched with
    | None => Raise AssertionError
    | Some c =>
      if decide (cell_neighbor c = neighbor)
      then _tsch_removeCells neighbor rest (pop_cell ts sched)
      else Raise AssertionError
    end
  end.

(** ** 6top: transaction state of the initiator *)

Definition set_tx (h : SixtopHalf) (e : SixtopEntry) : SixtopEntry :=
  mkEntry (Some h) (six_rx e).

(** [self.sixtopStates[n]['tx']]. *)
Definition tx_of (m : Mote) (n : nat) : outcome SixtopHalf :=
  e ← getitem (sixtopStates m !! n);
  getitem (six_tx e).

(** [...['tx']['state'] = SIX_STATE_IDLE; ...['tx']['blockedCells'] = []]. *)
Definition half_idle (h : SixtopHalf) : SixtopHalf :=
  mkHalf SIX_STATE_IDLE [] (six_seqNum h) (six_timeout h) (six_timer h).

(** [del ...['tx']['timer']; ...['tx']['seqNum'] += 1]. *)
Definition half_advance (h : SixtopHalf) : SixtopHalf :=
  mkHalf (six_state h) (six_blockedCells h) (six_seqNum h + 1) (six_timeout h) None.

Definition update_tx (f : SixtopHalf -> SixtopHalf) (n : nat) (m : Mote) : Mote :=
  set_sixtopStates
    (alter (fun e => match six_tx e with
                     | Some h => set_tx (f h) e
                     | None => e
                     end) n (sixtopStates m)) m.

(** *** The timeout callback *)

Definition timer_due (asn : Z) (e : SixtopEntry) : bool :=
  match six_tx e with
  | Some h =>
    match six_timer h with
    | Some t => bool_decide (timer_asn t = asn)
    | None => false
    end
  | None => false
  end.

(** State to IDLE, blocked cells emptied, timer deleted. *)
Definition abort_tx (e : SixtopEntry) : SixtopEntry :=
  match six_tx e with
  | Some h =>
    set_tx (mkHalf SIX_STATE_IDLE [] (six_seqNum h) (six_timeout h) None) e
  | None => e
  end.

(** The body of [for n in self.sixtopStates.keys()], on the dictionary and
    the flag [found]. *)
Definition timer_fired_step (asn : Z) (acc : gmap nat SixtopEntry * bool)
    (n : nat) : gmap nat SixtopEntry * bool :=
  match acc.1 !! n with
  | Some e => if timer_due asn e then (<[n := abort_tx e]> acc.1, true) else acc
  | None => acc
  end.

Definition _sixtop_timer_fired (asn : Z) (m : Mote) : outcome Mote :=
  let acc := foldl (timer_fired_step asn) (sixtopStates m, false)
                   (map_to_list (sixtopStates m)).*1 in
  if acc.2 then Ok (set_sixtopStates acc.1 m) else Raise AssertionError.

(** *** Receiving a 6P response *)

Inductive CellList :=
| CellTuples (l : list CellTuple)
| Timeslots (l : list Z).

(** [payload = [cellList, numCells, dir, seq]]. *)
Record Payload := mkPayload {
  payload_cellList : CellList;
  payload_numCells : Z;
  payload_dir : Dir;
  payload_seq : Z
}.

Definition flipDir (receivedDir : Dir) : Dir :=
  match receivedDir with
  | DIR_TX => DIR_RX
  | DIR_RX => DIR_TX
  | DIR_TXRX_SHARED => DIR_TXRX_SHARED
  end.

Definition is_response_code (code : Z) : bool :=
  bool_decide (code = IANA_6TOP_RC_SUCCESS) || bool_decide (code = IANA_6TOP_RC_NORES)
  || bool_decide (code = IANA_6TOP_RC_RESET).

(** [d[k] += n], after [if k not in d: d[k] = 0]. *)
Definition counter_add (k : nat) (n : Z) (d : gmap nat Z) : gmap nat Z :=
  <[k := default 0 (d !! k) + n]> d.

(** [d[k] -= n; assert d[k] >= 0]. *)
Definition counter_sub (k : nat) (n : Z) (d : gmap nat Z) : outcome (gmap nat Z) :=
  v ← getitem (d !! k);
  if 0 <=? v - n then Ok (<[k := v - n]> d) else Raise AssertionError.

Definition update_counters_add (newDir : Dir) (neighbor : nat) (n : Z) (m : Mote)
    : Mote :=
  match newDir with
  | DIR_TX => set_numCellsToNeighbors (counter_add neighbor n (numCellsToNeighbors m)) m
  | DIR_RX =>
    set_numCellsFromNeighbors (counter_add neighbor n (numCellsFromNeighbors m)) m
  | DIR_TXRX_SHARED =>
    set_numCellsFromNeighbors (counter_add neighbor n (numCellsFromNeighbors m))
      (set_numCellsToNeighbors (counter_add neighbor n (numCellsToNeighbors m)) m)
  end.

Definition update_counters_sub (newDir : Dir) (neighbor : nat) (n : Z) (m : Mote)
    : outcome Mote :=
  match newDir with
  | DIR_TX =>
    d ← counter_sub neighbor n (numCellsToNeighbors m);
    Ok (set_numCellsToNeighbors d m)
  | DIR_RX =>
    d ← counter_sub neighbor n (numCellsFromNeighbors m);
    Ok (set_numCellsFromNeighbors d m)
  | DIR_TXRX_SHARED =>
    d ← counter_sub neighbor n (numCellsToNeighbors m);
    d' ← counter_sub neighbor n (numCellsFromNeighbors m);
    Ok (set_numCellsFromNeighbors d' (set_numCellsToNeighbors d m))
  end.

(** The delay between the preferred-parent churn and the first cell to the
    new parent. *)
Definition record_parent_churn (asn : Z) (neighbor : nat) (m : Mote) : outcome Mote :=
  if bool_decide (Some neighbor = preferredParent m)
     && negb (bool_decide (Some neighbor = oldPreferredParent m))
     && bool_decide (default 0 (numCellsToNeighbors m !! neighbor) = 0)
  then
    match rplPrefParentChurnToAndASN m with
    | (Some to, churnAsn) =>
      if decide (neighbor = to) then
        Ok (set_rplPrefParentChurnToAndASN (None, None)
              (set_rplPrefParentASNDiffs
                 (rplPrefParentASNDiffs m ++ [asn - default 0 churnAsn]) m))
      else Raise AssertionError
    | (None, _) => Ok m
    end
  else Ok m.

(** The cells built from the received list: with individual modulations
    every received cell spans [modulationSlots] consecutive timeslots and
    the first received timeslot is the parent of all. *)
Definition expand_cells (slots : nat) (newDir : Dir) (l : list CellTuple)
    : list CellTuple :=
  l ≫= (fun c => (fun i : nat => (c.1.1 + Z.of_nat i, c.1.2, newDir)) <$> seq 0 slots).

Definition cellTuples (cl : CellList) : outcome (list CellTuple) :=
  match cl with
  | CellTuples l => Ok l
  | Timeslots [] => Ok []
  | Timeslots (_ :: _) => Raise TypeError
  end.

(** The list of a DELETE response holds bare timeslots. *)
Definition cellList_length (cl : CellList) : nat :=
  match cl with
  | CellTuples l => length l
  | Timeslots l => length l
  end.

Definition expand_timeslots (slots : nat) (l : list Z) : list Z :=
  l ≫= (fun ts => (fun i : nat => ts + Z.of_nat i) <$> seq 0 slots).

(** The timeslots handed to [_tsch_removeCells] by the DELETE branch. *)
Definition delete_timeslots (individual : bool) (slots : nat) (cl : CellList)
    : outcome (list Z) :=
  match cl with
  | Timeslots l => Ok (if individual then expand_timeslots slots l else l)
  | CellTuples [] => Ok []
  | CellTuples (_ :: _) =>
    if individual then
      match slots with
      | O => Ok []
      | S _ => Raise TypeError
      end
    else Raise AssertionError
  end.

(** The tail shared by both branches once the response is accepted without
    cells to handle: [RC_NORES], [RC_BUSY], [RC_RESET]. *)
Definition response_without_cells (code : Z) (smac : nat) (m : Mote)
    : outcome (option bool * Mote) :=
  if decide (code = IANA_6TOP_RC_NORES) then Ok (Some true, update_tx half_idle smac m)
  else if decide (code = IANA_6TOP_RC_BUSY)
  then Ok (Some true, update_tx half_idle smac m)
  else if decide (code = IANA_6TOP_RC_RESET)
  then Ok (Some true, update_tx half_idle smac m)
  else Raise AssertionError.

(** [_sixtop_receive_RESPONSE(type, code, smac, payload)] at ASN [asn].
    The return value is [True], [False] or nothing ([None]).  The convergence
    bookkeeping of the ADD branch ([isConverged] and the engine's
    termination delay) is not part of the mote state kept here. *)
Definition _sixtop_receive_RESPONSE (asn : Z) (code : Z) (smac : nat)
    (payload : Payload) (m : Mote) : outcome (option bool * Mote) :=
  tx ← tx_of m smac;
  if decide (six_state tx = SIX_STATE_WAIT_ADDRESPONSE) then
    if negb (is_response_code code) then Raise AssertionError else
    let m := _stats_incrementMoteStats "6topRxAddResp" m in
    let neighbor := smac in
    let receivedCellList := payload_cellList payload in
    let receivedDir := payload_dir payload in
    let seq := payload_seq payload in
    if negb (bool_decide (seq = six_seqNum tx)) then
      Ok (Some false, update_tx half_idle neighbor m)
    else
      timer ← getitem (six_timer tx);
      if decide (timer_asn timer = asn) then
        Ok (Some false, update_tx half_idle neighbor m)
      else
        let m := update_tx half_advance smac m in
        if decide (code = IANA_6TOP_RC_SUCCESS) then
          let newDir := flipDir receivedDir in
          m ← record_parent_churn asn neighbor m;
          received ← cellTuples receivedCellList;
          sched ←
            (if decide (individualModulations (settings m) = 1) then
               _tsch_addCells (Unicast neighbor)
                 (expand_cells (modulationSlots m neighbor) newDir received)
                 (head (received.*1.*1)) (schedule m)
             else
               _tsch_addCells (Unicast neighbor)
                 ((fun c : CellTuple => (c.1.1, c.1.2, newDir)) <$> received)
                 None (schedule m));
          let m := set_schedule sched m in
          let m := update_counters_add newDir neighbor
                     (Z.of_nat (length received)) m in
          Ok (Some true, update_tx half_idle neighbor m)
        else response_without_cells code neighbor m
  else if decide (six_state tx = SIX_STATE_WAIT_DELETERESPONSE) then
    if negb (is_response_code code) then Raise AssertionError else
    let m := _stats_incrementMoteStats "6topRxDelResp" m in
    let neighbor := smac in
    let receivedCellList := payload_cellList payload in
    let receivedDir := payload_dir payload in
    let seq := payload_seq payload in
    if negb (bool_decide (seq = six_seqNum tx)) then
      Ok (Some false, update_tx half_idle neighbor m)
    else
      timer ← getitem (six_timer tx);
      if decide (timer_asn timer = asn) then
        Ok (Some false, update_tx half_idle neighbor m)
      else
        let m := update_tx half_advance smac m in
        if decide (code = IANA_6TOP_RC_SUCCESS) then
          let newDir := flipDir receivedDir in
          if negb (cellList_length receivedCellList =? 1)%nat
          then Raise AssertionError else
          tsList ← delete_timeslots
                     (bool_decide (individualModulations (settings m) = 1))
                     (modulationSlots m neighbor) receivedCellList;
          sched ← _tsch_removeCells (Unicast neighbor) tsList (schedule m);
          let m := set_schedule sched m in
          m ← update_counters_sub newDir neighbor
                (Z.of_nat (cellList_length receivedCellList)) m;
          Ok (Some true, update_tx half_idle neighbor m)
        else response_without_cells code neighbor m
  else Ok (None, m).

(** ** 6top: choosing the cells of a DELETE request *)

(** An entry [(ts, numTxAck, numTx, cellPDR)] of [scheduleList]. *)
Record tscell := mkTscell {
  ts_of : Z;
  ts_numTxAck : Z;
  ts_numTx : Z;
  ts_pdr : Q
}.

(** The loop collecting the candidates: parent timeslots of the TX or
    SHARED cells to the neighbour. *)
Fixpoint removal_candidates (m : Mote) (neighbor : nat)
    (sched : list (Z * Cell)) : outcome (list tscell) :=
  match sched with
  | [] => Ok []
  | (ts, cell) :: rest =>
    if bool_decide (cell_parentTs cell = Some ts) && is_tx_or_shared_to neighbor cell
    then
      cellPDR ← getCellPDR m cell;
      l ← removal_candidates m neighbor rest;
      mret (mkTscell ts (cell_numTxAck cell) (cell_numTx cell) cellPDR :: l)
    else removal_candidates m neighbor rest
  end.

(** [sorted(l, key=...)]: a stable sort; [le x y] says that [x] may stand
    before [y].  An element is put in front of the first later element it may
    stand before, so equal keys keep the order of [l]. *)
Fixpoint sorted_insert {A} (le : A -> A -> bool) (x : A) (l : list A) : list A :=
  match l with
  | [] => [x]
  | y :: l' => if le x y then x :: l else y :: sorted_insert le x l'
  end.

Definition sorted {A} (le : A -> A -> bool) (l : list A) : list A :=
  foldr (sorted_insert le) [] l.

(** The dictionary [scheduleListByPDR], in insertion order:
    [if not pdr in d: d[pdr] = []; d[pdr] += [tscell]]. *)
Fixpoint group_add (t : tscell) (groups : list (Q * list tscell))
    : list (Q * list tscell) :=
  match groups with
  | [] => [(ts_pdr t, [t])]
  | (k, l) :: rest =>
    if Qeq_bool k (ts_pdr t) then (k, l ++ [t]) :: rest
    else (k, l) :: group_add t rest
  end.

Definition scheduleListByPDR (scheduleList : list tscell)
    : list (Q * list tscell) :=
  foldl (fun groups t => group_add t groups) [] scheduleList.

Fixpoint group_get (pdr : Q) (groups : list (Q * list tscell)) : list tscell :=
  match groups with
  | [] => []
  | (k, l) :: rest => if Qeq_bool k pdr then l else group_get pdr rest
  end.

Definition numTx_ascending (a b : tscell) : bool := ts_numTx a <=? ts_numTx b.
Definition numTx_descending (a b : tscell) : bool := ts_numTx b <=? ts_numTx a.

(** The worst-cell ordering of the candidates. *)
Definition worst_cell_order (theoPDR : Q) (scheduleList : list tscell)
    : list tscell :=
  let groups := scheduleListByPDR scheduleList in
  sorted Qle_bool groups.*1 ≫= (fun pdr =>
    if Qlt_le_dec pdr theoPDR
    then sorted numTx_descending (group_get pdr groups)
    else sorted numTx_ascending (group_get pdr groups)).

(** [_sixtop_removeCells] up to its last statement: the result is the list
    [tsList] handed to [_sixtop_cell_deletion_sender].  [shuffle] is the
    permutation drawn by [genMSF.shuffle]; the entries of [RSSI] and
    [modulation] for the neighbour are read and not used. *)
Definition _sixtop_removeCells (shuffle : list tscell -> list tscell)
    (m : Mote) (neighbor : nat) (numCellsToRemove : Z) : outcome (list Z) :=
  scheduleList ← removal_candidates m neighbor (schedule m);
  scheduleList ←
    (if sixtopRemoveRandomCell (settings m) then Ok (shuffle scheduleList)
     else
       theoPDR ← getPDR m (Unicast neighbor);
       Ok (worst_cell_order theoPDR scheduleList));
  if numCellsToRemove <? 0 then Raise AssertionError else
  let tsList := ts_of <$> take (Z.to_nat numCellsToRemove) scheduleList in
  if decide (Z.of_nat (length tsList) = numCellsToRemove) then Ok tsList
  else Raise AssertionError.

(** ** MSF: the parent-change action *)

(** What the action asks of the 6top layer and of the engine. *)
Inductive Action :=
| sixtop_cell_reservation_request
    (neighbor : nat) (numCells : Z) (dir : Dir) (timeout : Z)
| sixtop_cell_deletion_sender
    (neighbor : nat) (tsList : list Z) (dir : Dir) (timeout : Z)
| scheduleIn (delay : Z)
| removeEvent.

(** [self.numCellsToNeighbors.get(mote, dflt)], where [mote] may be [None],
    which is never a key. *)
Definition numCellsTo (m : Mote) (mote : option nat) (dflt : Z) : Z :=
  match mote with
  | Some n => default dflt (numCellsToNeighbors m !! n)
  | None => dflt
  end.

(** [_msf_action_parent_change] with 6P messaging
    ([settings.sixtopMessaging]): the two 6top calls then only enqueue a
    request, so [numCellsToNeighbors] is the same before and after them. *)
Definition _msf_action_parent_change (shuffle : list tscell -> list tscell)
    (m : Mote) : outcome (list Action * Mote) :=
  match preferredParent m with
  | None => Raise AssertionError
  | Some parent =>
    let celloptions := DIR_TXRX_SHARED in
    '(acts, m) ←
      (if decide (numCellsTo m (Some parent) 0 = 0) then
         timeout ← _msf_get_sixtop_timeout m parent;
         Ok ([sixtop_cell_reservation_request parent
                (numCellsTo m (oldPreferredParent m) (minCellsMSF (settings m)))
                celloptions timeout],
             set_currentOldPrefParentRemoval 0 m)
       else
         match oldPreferredParent m with
         | Some old =>
           if bool_decide (currentOldPrefParentRemoval m < MSF_MAX_OLD_PARENT_REMOVAL)
              && bool_decide (0 < numCellsTo m (Some old) 0)
              && bool_decide (0 < numCellsTo m (Some parent) 0)
           then
             timeout ← _msf_get_sixtop_timeout m old;
             let m := set_oldPrefParentRemoval (oldPrefParentRemoval m + 1) m in
             let m := set_currentOldPrefParentRemoval
                        (currentOldPrefParentRemoval m + 1) m in
             tsList ← _sixtop_removeCells shuffle m old (numCellsTo m (Some old) 0);
             Ok ([sixtop_cell_deletion_sender old tsList celloptions timeout], m)
           else Ok ([], m)
         | None => Ok ([], m)
         end);
    let acts :=
      acts ++ [scheduleIn (if decide (oldPreferredParent m = None) then 25 else 300)] in
    if (bool_decide (0 < numCellsTo m (Some parent) 0)
        && bool_decide (numCellsTo m (oldPreferredParent m) 0 = 0))
       || bool_decide (currentOldPrefParentRemoval m = MSF_MAX_OLD_PARENT_REMOVAL)
    then Ok (acts ++ [removeEvent],
             set_oldPreferredParent None (set_currentOldPrefParentRemoval 0 m))
    else Ok (acts, m)
  end.

(** ** Radio: end of a transmit slot *)

(** [self.schedule[ts][...] = ...] on the entry of key [ts]. *)
Fixpoint update_cell (ts : Z) (f : Cell -> Cell) (sched : list (Z * Cell))
    : list (Z * Cell) :=
  match sched with
  | [] => []
  | (ts', c) :: rest =>
    if decide (ts' = ts) then (ts', f c) :: rest
    else (ts', c) :: update_cell ts f rest
  end.

(** [cell['numTxAck'] += 1; cell['history'] += [1]]. *)
Definition cell_txAck (c : Cell) : Cell :=
  mkCell (cell_ch c) (cell_dir c) (cell_neighbor c) (cell_numTx c)
         (cell_numTxAck c + 1) (cell_history c ++ [1]) (cell_parentTs c).

(** [cell['history'] += [0]]. *)
Definition cell_txFail (c : Cell) : Cell :=
  mkCell (cell_ch c) (cell_dir c) (cell_neighbor c) (cell_numTx c)
         (cell_numTxAck c) (cell_history c ++ [0]) (cell_parentTs c).

(** [l.index(p)] and [l.remove(p)]: the first element equal to [p];
    [None] stands for the [ValueError] of a missing element. *)
Fixpoint list_index (p : Packet) (l : list Packet) : option nat :=
  match l with
  | [] => None
  | q :: l' => if decide (q = p) then Some O else S <$> list_index p l'
  end.

Fixpoint list_remove (p : Packet) (l : list Packet) : option (list Packet) :=
  match l with
  | [] => None
  | q :: l' => if decide (q = p) then Some l' else (q ::.) <$> list_remove p l'
  end.

Definition or_raise {A} (e : exn) (o : option A) : outcome A :=
  match o with
  | Some a => Ok a
  | None => Raise e
  end.

(** [cell['neighbor'] == self.preferredParent]. *)
Definition peer_is (p : Peer) (mote : option nat) : bool :=
  match p, mote with
  | Unicast n, Some k => bool_decide (n = k)
  | _, _ => false
  end.

(** [packet['dstIp'].id]: the broadcast address is an integer. *)
Definition dst_id (p : Packet) : outcome nat :=
  match pkt_dstIp p with
  | AddrMote n => Ok n
  | BROADCAST_ADDRESS => Raise AttributeError
  end.

(** The block shared by the ends of the ACK and NACK branches:
    "reset backoff in case of shared slot or in case of a tx slot when the
    queue is empty". *)
Definition txDone_resetBackoff (dir : Dir) (neighbor : Peer) (m : Mote) : Mote :=
  if bool_decide (dir = DIR_TXRX_SHARED)
     || (bool_decide (dir = DIR_TX) && negb (truthy (txQueue m)))
  then
    match neighbor with
    | Unicast n =>
      if decide (dir = DIR_TXRX_SHARED) then _tsch_resetBackoffPerNeigh n m
      else _tsch_resetBroadcastBackoff m
    | Broadcast _ => _tsch_resetBroadcastBackoff m
    end
  else m.

(** An acknowledged 6P request: the transaction waits for the response and
    its timeout is armed at [int(asn + timeout / slotDuration)] (the event
    itself is queued in the engine). *)
Definition txDone_armTimer (asn : Z) (pkt : Packet) (expected next : SixState)
    (m : Mote) : outcome Mote :=
  dst ← dst_id pkt;
  tx ← tx_of m dst;
  if negb (bool_decide (six_state tx = expected)) then Raise AssertionError else
  timeout ← getitem (six_timeout tx);
  if Qeq_bool (slotDuration (settings m)) 0 then Raise ZeroDivisionError else
  let fireASN :=
    Qtrunc (inject_Z asn + inject_Z timeout / slotDuration (settings m))%Q in
  Ok (update_tx (fun h => mkHalf next (six_blockedCells h) (six_seqNum h)
                            (six_timeout h) (Some (mkTimer (id m, dst) fireASN)))
                dst m).

Definition update_rx (f : SixtopHalf -> SixtopHalf) (n : nat) (m : Mote)
    : outcome Mote :=
  e ← getitem (sixtopStates m !! n);
  h ← getitem (six_rx e);
  Ok (set_sixtopStates (<[n := mkEntry (six_tx e) (Some (f h))]> (sixtopStates m)) m).

(** The retry bookkeeping shared by the NACK and the silent branches.  The
    packet being sent is the object at position [i0] of the queue and [pkt]
    its content; [index] and [remove] compare contents. *)
Definition txDone_retry (i0 : nat) (pkt : Packet) (m : Mote) : outcome Mote :=
  i ← or_raise ValueError (list_index pkt (txQueue m));
  qi ← or_raise ValueError (txQueue m !! i);
  let qi' := if 0 <? pkt_retriesLeft qi
             then set_retriesLeft (pkt_retriesLeft qi - 1) qi else qi in
  let m := set_txQueue (<[i := qi']> (txQueue m)) m in
  let pkt := if decide (i = i0) then qi' else pkt in
  if decide (pkt_retriesLeft qi' = 0) then
    let m := if decide (pkt_type pkt = APP_TYPE_DATA)
             then _stats_incrementMoteStats "droppedDataMacRetries" m else m in
    let m := _stats_incrementMoteStats "droppedMacRetries" m in
    q ← or_raise ValueError (list_remove pkt (txQueue m));
    let m := set_txQueue q m in
    if decide (pkt_type pkt = IANA_6TOP_TYPE_REQUEST) then
      dst ← dst_id pkt;
      _ ← tx_of m dst;
      Ok (update_tx half_idle dst m)
    else if decide (pkt_type pkt = IANA_6TOP_TYPE_RESPONSE) then
      dst ← dst_id pkt;
      update_rx half_idle dst m
    else Ok m
  else Ok m.

(** The argument [self.backoffPerNeigh[cell['neighbor']]] of the two debug
    messages of the NACK branch is evaluated whether or not it is logged. *)
Definition nack_log_argument (neighbor : Peer) (m : Mote) : outcome Z :=
  match neighbor with
  | Unicast n => getitem (backoffPerNeigh m !! n)
  | Broadcast _ => Raise TypeError
  end.

Section Radio.

(** [genEBDIO.randint], and the handler of an acknowledged 6P response,
    which installs or removes the negotiated cells on the responder and is
    kept abstract here. *)
Variable randint : Z -> Z -> Z.
Variable _sixtop_receive_RESPONSE_ACK : Packet -> Mote -> outcome Mote.

(** The silent branch: "increment backoffExponent and get new backoff
    value". *)
Definition txDone_backoff (cell : Cell) (m : Mote) : outcome Mote :=
  if decide (cell_dir cell = DIR_TXRX_SHARED) then
    match cell_neighbor cell with
    | Broadcast _ =>
      let m := if backoffBroadcastExponent m <? 4
               then set_backoffBroadcastExponent (backoffBroadcastExponent m + 1) m
               else m in
      Ok (set_backoffBroadcast
            (randint 0 (2 ^ backoffBroadcastExponent m - 1)) m)
    | Unicast n =>
      e ← getitem (backoffExponentPerNeigh m !! n);
      let e' := if e <? backoffMaxExp (settings m) then e + 1 else e in
      let m := set_backoffExponentPerNeigh
                 (<[n := e']> (backoffExponentPerNeigh m)) m in
      Ok (set_backoffPerNeigh
            (<[n := randint 0 (2 ^ e' - 1)]> (backoffPerNeigh m)) m)
    end
  else Ok m.

(** [radio_txDone(isACKed, isNACKed)] at ASN [asn].  The energy and
    charge counters, the queue-delay statistics and the debug entries of
    the cell are left out. *)
Definition radio_txDone (asn : Z) (isACKed isNACKed : bool) (m : Mote)
    : outcome Mote :=
  if decide (slotframeLength (settings m) = 0) then Raise ZeroDivisionError else
  let ts := asn `mod` slotframeLength (settings m) in
  cell ← or_raise AssertionError (lookup_cell ts (schedule m));
  if negb (bool_decide (cell_dir cell = DIR_TX)
           || bool_decide (cell_dir cell = DIR_TXRX_SHARED))
  then Raise AssertionError else
  if negb (bool_decide (waitingFor m = Some DIR_TX)) then Raise AssertionError else
  i0 ← or_raise TypeError (pktToSend m);
  pkt ← or_raise ValueError (txQueue m !! i0);
  m ←
    (if isACKed then
       let m := set_schedule (update_cell ts cell_txAck (schedule m)) m in
       let m := if peer_is (cell_neighbor cell) (preferredParent m)
                then set_timeCorrectedSlot (Some asn) m else m in
       m ← (if decide (pkt_type pkt = IANA_6TOP_TYPE_REQUEST) then
              if decide (pkt_code pkt = IANA_6TOP_CMD_ADD) then
                txDone_armTimer asn pkt SIX_STATE_WAIT_ADDREQUEST_SENDDONE
                                SIX_STATE_WAIT_ADDRESPONSE m
              else if decide (pkt_code pkt = IANA_6TOP_CMD_DELETE) then
                txDone_armTimer asn pkt SIX_STATE_WAIT_DELETEREQUEST_SENDDONE
                                SIX_STATE_WAIT_DELETERESPONSE m
              else Raise AssertionError
            else Ok m);
       let tmpNeighbor := cell_neighbor cell in
       let tmpDir := cell_dir cell in
       m ← (if decide (pkt_type pkt = IANA_6TOP_TYPE_RESPONSE)
            then _sixtop_receive_RESPONSE_ACK pkt m else Ok m);
       q ← or_raise ValueError (list_remove pkt (txQueue m));
       let m := set_txQueue q m in
       Ok (txDone_resetBackoff tmpDir tmpNeighbor m)
     else if isNACKed then
       let m := set_schedule (update_cell ts cell_txAck (schedule m)) m in
       let m := if peer_is (cell_neighbor cell) (preferredParent m)
                then set_timeCorrectedSlot (Some asn) m else m in
       _ ← (if bool_decide (pkt_type pkt = APP_TYPE_DATA)
               || bool_decide (pkt_type pkt = IANA_6TOP_TYPE_RESPONSE)
            then nack_log_argument (cell_neighbor cell) m else Ok 0);
       m ← txDone_retry i0 pkt m;
       Ok (txDone_resetBackoff (cell_dir cell) (cell_neighbor cell) m)
     else if decide (pkt_dstIp pkt = BROADCAST_ADDRESS) then
       q ← or_raise ValueError (list_remove pkt (txQueue m));
       Ok (_tsch_resetBroadcastBackoff (set_txQueue q m))
     else
       m ← txDone_backoff cell m;
       let m := set_schedule (update_cell ts cell_txFail (schedule m)) m in
       txDone_retry i0 pkt m);
  Ok (set_waitingFor None m).

End Radio.

(** * Quantities the properties are stated with *)

(** The cells counted by MSF and RPL for a neighbour: the TX and SHARED
    cells scheduled to it. *)
Definition txCellsTo (m : Mote) (neighbor : nat) : list Cell :=
  filter (fun c => is_tx_or_shared_to neighbor c) (schedule m).*2.

Definition Zsum (l : list Z) : Z := foldr Z.add 0 l.

Definition observedTx (m : Mote) (neighbor : nat) : Z :=
  Zsum (cell_numTx <$> txCellsTo m neighbor).

Definition observedTxAck (m : Mote) (neighbor : nat) : Z :=
  Zsum (cell_numTxAck <$> txCellsTo m neighbor).

Definition meanPDR (pdrs : list Q) : Q :=
  (Qsum pdrs / inject_Z (Z.of_nat (length pdrs)))%Q.



(** The ETX rule in the words of the specification: the observed ratio
    from [NUM_SUFFICIENT_TX] transmissions on, the static link PDR before. *)
Definition spec_ETX (m : Mote) (neighbor : nat) (pdr : Q) : Q :=
  if NUM_SUFFICIENT_TX <=? observedTx m neighbor
  then (inject_Z (observedTx m neighbor) / inject_Z (observedTxAck m neighbor))%Q
  else (1 / pdr)%Q.

(** * Concrete motes *)

Definition settings0 : Settings :=
  mkSettings "msf" 1 4 101 (1 # 100) 1 0 false.

Definition mote0 : Mote :=
  mkMote 7 settings0 false (Some 0%nat) None None ∅ (fun _ => 1%nat) [] [] None
         (fun _ => 0) ∅ ∅ ∅ (None, None) [] 0 0 None 0 1 ∅ ∅ None.

Definition set_PDR (v : gmap nat Q) (m : Mote) : Mote :=
  mkMote (id m) (settings m) (dagRoot m) (dagRootAddress m) (preferredParent m)
    (oldPreferredParent m) v (modulationSlots m) (schedule m) (txQueue m)
    (pktToSend m) (motestats m) (sixtopStates m) (numCellsToNeighbors m)
    (numCellsFromNeighbors m) (rplPrefParentChurnToAndASN m)
    (rplPrefParentASNDiffs m) (currentOldPrefParentRemoval m)
    (oldPrefParentRemoval m) (timeCorrectedSlot m) (backoffBroadcast m)
    (backoffBroadcastExponent m) (backoffPerNeigh m)
    (backoffExponentPerNeigh m) (waitingFor m).

Definition set_preferredParent (v : option nat) (m : Mote) : Mote :=
  mkMote (id m) (settings m) (dagRoot m) (dagRootAddress m) v
    (oldPreferredParent m) (PDR m) (modulationSlots m) (schedule m) (txQueue m)
    (pktToSend m) (motestats m) (sixtopStates m) (numCellsToNeighbors m)
    (numCellsFromNeighbors m) (rplPrefParentChurnToAndASN m)
    (rplPrefParentASNDiffs m) (currentOldPrefParentRemoval m)
    (oldPrefParentRemoval m) (timeCorrectedSlot m) (backoffBroadcast m)
    (backoffBroadcastExponent m) (backoffPerNeigh m)
    (backoffExponentPerNeigh m) (waitingFor m).

Definition set_settings (v : Settings) (m : Mote) : Mote :=
  mkMote (id m) v (dagRoot m) (dagRootAddress m) (preferredParent m)
    (oldPreferredParent m) (PDR m) (modulationSlots m) (schedule m) (txQueue m)
    (pktToSend m) (motestats m) (sixtopStates m) (numCellsToNeighbors m)
    (numCellsFromNeighbors m) (rplPrefParentChurnToAndASN m)
    (rplPrefParentASNDiffs m) (currentOldPrefParentRemoval m)
    (oldPrefParentRemoval m) (timeCorrectedSlot m) (backoffBroadcast m)
    (backoffBroadcastExponent m) (backoffPerNeigh m)
    (backoffExponentPerNeigh m) (waitingFor m).

Definition set_pktToSend (v : option nat) (m : Mote) : Mote :=
  mkMote (id m) (settings m) (dagRoot m) (dagRootAddress m) (preferredParent m)
    (oldPreferredParent m) (PDR m) (modulationSlots m) (schedule m) (txQueue m)
    v (motestats m) (sixtopStates m) (numCellsToNeighbors m)
    (numCellsFromNeighbors m) (rplPrefParentChurnToAndASN m)
    (rplPrefParentASNDiffs m) (currentOldPrefParentRemoval m)
    (oldPrefParentRemoval m) (timeCorrectedSlot m) (backoffBroadcast m)
    (backoffBroadcastExponent m) (backoffPerNeigh m)
    (backoffExponentPerNeigh m) (waitingFor m).

(** A fresh cell, as [_tsch_addCells] creates it, with given counters. *)
Definition cell_to (n : nat) (d : Dir) (ts numTx numTxAck : Z) : Z * Cell :=
  (ts, mkCell 0 d (Unicast n) numTx numTxAck [] (Some ts)).


(** A mote with two TX cells to neighbour 1 over a link of PDR 1/2. *)
Definition mote_two_cells : Mote :=
  set_schedule [cell_to 1 DIR_TX 5 12 6; cell_to 1 DIR_TX 9 3 1;
                cell_to 2 DIR_TX 11 40 40]
    (set_PDR {[ 1%nat := (1 # 2)%Q; 2%nat := 1%Q ]} mote0).

(** One TX cell to neighbour 1, ten transmissions, all acknowledged, over a
    link of static PDR 1/2. *)
Definition mote_ten_acked : Mote :=
  set_schedule [cell_to 1 DIR_TX 5 10 10]
    (set_PDR {[ 1%nat := (1 # 2)%Q ]} mote0).

(** Five transmissions, none acknowledged, over a link of static PDR 1;
    and the same link without any transmission. *)
Definition mote_five_lost : Mote :=
  set_schedule [cell_to 1 DIR_TX 5 5 0] (set_PDR {[ 1%nat := 1%Q ]} mote0).

Definition mote_unused_cell : Mote :=
  set_schedule [cell_to 1 DIR_TX 5 0 0] (set_PDR {[ 1%nat := 1%Q ]} mote0).

(** The types allowed one extra copy in a full queue. *)
Definition extra_types : list PktType :=
  [APP_TYPE_JOIN; RPL_TYPE_DAO; IANA_6TOP_TYPE_REQUEST; IANA_6TOP_TYPE_RESPONSE].

(** Packets towards the DAG root (mote 0). *)
Definition data_packet : Packet :=
  mkPacket 0 APP_TYPE_DATA 0 [7; 0; 1] [] TSCH_MAXTXRETRIES (AddrMote 0) [] None.

Definition join_packet : Packet :=
  mkPacket 0 APP_TYPE_JOIN 0 [3] [] TSCH_MAXTXRETRIES (AddrMote 0) [] None.

Definition queued (p : Packet) : Packet := set_nextHop (Some [Some 0%nat]) p.

(** A full queue of DATA packets and a SHARED cell to mote 0, on a mote
    without a preferred parent, and on one whose parent is mote 0. *)
Definition mote_full_no_route : Mote :=
  set_txQueue (replicate 10 (queued data_packet))
    (set_schedule [cell_to 0 DIR_TXRX_SHARED 5 0 0] mote0).

Definition mote_full_routed : Mote := set_preferredParent (Some 0%nat) mote_full_no_route.

(** A mote with a parent and no cell at all, under MSF and under the ILP
    schedule. *)
Definition mote_no_cells : Mote := set_preferredParent (Some 0%nat) mote0.

Definition mote_no_cells_ilp : Mote :=
  set_settings (mkSettings "ilp" 1 4 101 (1 # 100) 1 0 false) mote_no_cells.

(** Neighbour [n]'s tx half-context holds a timer scheduled for [asn]. *)
Definition tx_timer_at (m : Mote) (n : nat) (asn : Z) : Prop :=
  exists e h t, sixtopStates m !! n = Some e /\ six_tx e = Some h
                /\ six_timer h = Some t /\ timer_asn t = asn.

(** A mote waiting for two ADD responses, with timeouts at ASN 500 (to
    neighbour 1) and 700 (to neighbour 2), and idle towards neighbour 3. *)
Definition waiting_half (asn : Z) (n : nat) : SixtopHalf :=
  mkHalf SIX_STATE_WAIT_ADDRESPONSE [(20, 3, DIR_TXRX_SHARED)] 0 (Some 15)
         (Some (mkTimer (7%nat, n) asn)).

Definition mote_waiting : Mote :=
  set_sixtopStates
    {[ 1%nat := mkEntry (Some (waiting_half 500 1)) None;
       2%nat := mkEntry (Some (waiting_half 700 2)) None;
       3%nat := mkEntry (Some (mkHalf SIX_STATE_IDLE [] 4 (Some 15) None)) None ]}
    (set_preferredParent (Some 1%nat) mote0).

(** An ADD response carrying two cells, with the sequence number the mote
    expects from neighbour 1. *)
Definition add_response : Payload :=
  mkPayload (CellTuples [(20, 3, DIR_TXRX_SHARED); (31, 5, DIR_TXRX_SHARED)])
            2 DIR_TXRX_SHARED 0.



(** A mote choosing its first parent. *)
Definition mote_first_parent : Mote :=
  set_preferredParent (Some 2%nat)
    (set_settings (mkSettings "msf" 1 4 101 (1 # 100) 3 0 false) mote0).

Definition no_shuffle (l : list tscell) : list tscell := l.

(** The order in which [_sixtop_removeCells] prefers candidate [a] to
    candidate [b]: a lower cell PDR first; at equal PDR, below the
    theoretical PDR the larger [numTx] first, at or above it the smaller
    [numTx] first. *)
Definition worst_first (theoPDR : Q) (a b : tscell) : Prop :=
  (ts_pdr a < ts_pdr b)%Q
  \/ ((ts_pdr a == ts_pdr b)%Q
      /\ if Qlt_le_dec (ts_pdr a) theoPDR
         then ts_numTx b <= ts_numTx a
         else ts_numTx a <= ts_numTx b).

(** The ordering in the words of the specification: groups by ascending
    PDR, and in every group the larger [numTx] first. *)
Definition spec_worst_cell_order (theoPDR : Q) (scheduleList : list tscell)
    : list tscell :=
  let groups := scheduleListByPDR scheduleList in
  sorted Qle_bool groups.*1 ≫= (fun pdr =>
    sorted numTx_descending (group_get pdr groups)).

(** Two fresh TX cells to neighbour 1 (3 and 7 transmissions) over a link
    of PDR 1/2, and a third one with 20 transmissions of which 5 were
    acknowledged. *)
Definition mote_fresh_cells : Mote :=
  set_schedule [cell_to 1 DIR_TX 5 3 0; cell_to 1 DIR_TX 9 7 2]
    (set_PDR {[ 1%nat := (1 # 2)%Q ]} mote0).

Definition mote_three_cells : Mote :=
  set_schedule [cell_to 1 DIR_TX 5 3 0; cell_to 1 DIR_TX 9 7 2;
                cell_to 1 DIR_TX 12 20 5; cell_to 1 DIR_TX 14 40 10]
    (set_PDR {[ 1%nat := (1 # 2)%Q ]} mote0).

(** The dictionary [scheduleListByPDR] is well formed: no two keys are the
    same number, and every group holds candidates of its key's PDR. *)
Definition groups_ok (groups : list (Q * list tscell)) : Prop :=
  NoDup (Qred <$> groups.*1)
  /\ Forall (fun g => Forall (fun t => (ts_pdr t == g.1)%Q) g.2) groups.

(** A mote in the TX slot of its cell to neighbour 1 (timeslot 5, ASN 510),
    sending the DATA packet at the head of its queue; the cell has carried 12
    frames, 6 of them acknowledged. *)
Definition mote_sending : Mote :=
  set_waitingFor (Some DIR_TX)
    (set_pktToSend (Some 0%nat)
       (set_backoffPerNeigh {[ 1%nat := 0 ]}
          (set_backoffExponentPerNeigh {[ 1%nat := 0 ]}
             (set_txQueue [queued data_packet]
                (set_schedule [cell_to 1 DIR_TX 5 12 6]
                   (set_PDR {[ 1%nat := (1 # 2)%Q ]}
                      (set_preferredParent (Some 1%nat) mote0))))))).

Definition no_randint (a b : Z) : Z := a.
Definition no_response_ack (p : Packet) (m : Mote) : outcome Mote := Ok m.

(** * Further parts of the mote *)

(** ** TSCH: the next active cell *)

(** The distance in slots from the current timeslot to timeslot [ts]; the
    current timeslot itself is a whole slotframe away. *)
Definition tsDiff_of (L tsCurrent ts : Z) : Z :=
  if decide (ts = tsCurrent) then L
  else if decide (tsCurrent < ts) then ts - tsCurrent
  else (ts + L) - tsCurrent.

(** The body of the loop over the schedule:
    [if (not tsDiffMin) or (tsDiffMin > tsDiff): tsDiffMin = tsDiff],
    where [None] and 0 are both false. *)
Definition activeCell_step (L tsCurrent : Z) (tsDiffMin : option Z)
    (entry : Z * Cell) : option Z :=
  let tsDiff := tsDiff_of L tsCurrent entry.1 in
  match tsDiffMin with
  | None => Some tsDiff
  | Some d =>
    if decide (d = 0) then Some tsDiff
    else if decide (tsDiff < d) then Some tsDiff else Some d
  end.

(** [_tsch_schedule_activeCell] at ASN [asn]: the ASN at which the
    active-cell event is scheduled, or [None] when the event is removed
    because the schedule is empty. *)
Definition _tsch_schedule_activeCell (asn : Z) (m : Mote) : outcome (option Z) :=
  if decide (slotframeLength (settings m) = 0) then Raise ZeroDivisionError else
  let tsCurrent := asn `mod` slotframeLength (settings m) in
  match schedule m with
  | [] => Ok None
  | _ :: _ =>
    match foldl (activeCell_step (slotframeLength (settings m)) tsCurrent)
                None (schedule m) with
    | Some tsDiffMin => Ok (Some (asn + tsDiffMin))
    | None => Raise TypeError
    end
  end.

(** Every timeslot of the schedule lies in the slotframe and is scheduled
    once, as for a dictionary filled through [_tsch_addCells] with timeslots
    of the slotframe. *)
Definition schedule_wf (m : Mote) : Prop :=
  NoDup (schedule m).*1
  /\ Forall (fun ts => 0 <= ts < slotframeLength (settings m)) (schedule m).*1.

(** The cell [_tsch_addCells] creates for an entry of its cell list. *)
Definition new_cell (neighbor : Peer) (parentTs : option Z) (c : CellTuple)
    : Z * Cell :=
  (c.1.1, mkCell c.1.2 c.2 neighbor 0 0 [] parentTs).

(** ** The transmit queue: its bound *)

(** The number of the four privileged types (JOIN, DAO, 6P request, 6P
    response) that have a packet in the queue. *)
Definition extra_slots (q : list Packet) : nat :=
  length (filter (fun t => queue_has_type t q) extra_types).

(** The queue holds at most [TSCH_QUEUE_SIZE] packets, plus one for every
    privileged type that is in it. *)
Definition queue_bounded (q : list Packet) : Prop :=
  (length q <= TSCH_QUEUE_SIZE + extra_slots q)%nat.

(** The counters [_tsch_enqueue] may increment. *)
Definition enqueue_drop_counters : list string :=
  ["droppedNoRoute"; "droppedNoTxCells"; "droppedQueueFull"].

(** ** RPL: neighbours *)

(** Mote [n] has a link of positive PDR to the mote. *)
Definition is_neighbor (m : Mote) (n : nat) : Prop :=
  exists p, PDR m !! n = Some p /\ (0 < p)%Q.

(** A downward DATA packet for mote 4 with the source route 4 <- 3 <- 1
    (the next hop last), on a mote whose parent is mote 0 and whose
    neighbours are 0 and 1; mote 2 is known with PDR 0. *)
Definition mote_relay : Mote :=
  set_PDR {[ 0%nat := 1%Q; 1%nat := (1 # 2)%Q; 2%nat := 0%Q ]}
    (set_preferredParent (Some 0%nat) mote0).

Definition downward_packet (route : list (list nat)) : Packet :=
  mkPacket 0 APP_TYPE_DATA 0 [0; 0; 1] [] TSCH_MAXTXRETRIES (AddrMote 4)
           route None.

(** ** 6top: slot bonding *)

(** The mote [mote_waiting] with slot bonding: every cell to a neighbour
    spans two consecutive timeslots. *)
Definition mote_waiting_bonded : Mote :=
  let m := set_settings (mkSettings "msf" 1 4 101 (1 # 100) 1 1 false)
                        mote_waiting in
  mkMote (id m) (settings m) (dagRoot m) (dagRootAddress m) (preferredParent m)
    (oldPreferredParent m) (PDR m) (fun _ => 2%nat) (schedule m) (txQueue m)
    (pktToSend m) (motestats m) (sixtopStates m) (numCellsToNeighbors m)
    (numCellsFromNeighbors m) (rplPrefParentChurnToAndASN m)
    (rplPrefParentASNDiffs m) (currentOldPrefParentRemoval m)
    (oldPrefParentRemoval m) (timeCorrectedSlot m) (backoffBroadcast m)
    (backoffBroadcastExponent m) (backoffPerNeigh m)
    (backoffExponentPerNeigh m) (waitingFor m).

(** A mote with two TX cells to neighbour 1 waiting for the response to its
    DELETE request (sequence number 3, timeout at ASN 500), and the
    response confirming timeslot 9.  The response names the direction as
    the neighbour sees it. *)
Definition mote_deleting : Mote :=
  set_sixtopStates
    {[ 1%nat := mkEntry (Some (mkHalf SIX_STATE_WAIT_DELETERESPONSE [] 3
                                      (Some 15)
                                      (Some (mkTimer (7%nat, 1%nat) 500))))
                        None ]}
    (set_numCellsToNeighbors {[ 1%nat := 2; 2%nat := 1 ]} mote_two_cells).

Definition delete_response : Payload := mkPayload (Timeslots [9]) 1 DIR_RX 3.

(** ** Radio: a 6P request in the air *)



(** ** RPL: source routes at the DAG root *)

(** [self.parents] maps the address of a mote, the one-element list [[id]]
    used as a tuple key, to the list of the addresses of its parents, as the
    DAOs report them.

    [_rpl_getSourceRoute_internal(destAddr, sourceRoute, parents)] extends
    the list [sourceRoute] in place and returns nothing, so that the value
    [nextparent] of the recursive call is [None] and is never appended.  The
    result here is the list after the call; [fuel] bounds the depth of the
    recursion, and [None] stands for a recursion deeper than that. *)
Fixpoint _rpl_getSourceRoute_internal (fuel : nat)
    (parents : gmap (list nat) (list (list nat))) (destAddr : list nat)
    (sourceRoute : list (list nat)) : option (list (list nat)) :=
  match fuel with
  | O => None
  | S fuel =>
    if negb (truthy destAddr) then Some sourceRoute else
    match parents !! destAddr with
    | None | Some [] => Some sourceRoute
    | Some (parent :: _) =>
      let sourceRoute :=
        if decide (destAddr ∈ sourceRoute) then sourceRoute
        else sourceRoute ++ [destAddr] in
      if decide (parent ∈ sourceRoute) then Some sourceRoute
      else _rpl_getSourceRoute_internal fuel parents parent
             (sourceRoute ++ [parent])
    end
  end.

(** [if sourceRoute: sourceRoute.pop()]. *)
Definition pop_last {A} (l : list A) : list A := take (length l - 1) l.

(** Every call that recurses has put a mote with a parent list on the route
    that was not there before, so the depth never exceeds the number of
    such motes by more than one. *)
Definition _rpl_getSourceRoute (parents : gmap (list nat) (list (list nat)))
    (destAddr : list nat) : option (list (list nat)) :=
  pop_last <$> _rpl_getSourceRoute_internal (S (size parents)) parents destAddr [].

(** [b] is the parent picked for [a]: the first one of its list. *)
Definition first_parent (parents : gmap (list nat) (list (list nat)))
    (a b : list nat) : Prop :=
  exists others, parents !! a = Some (b :: others).

(** The parents of a line 5 - 4 - 3 - 1 below the root 1, and of a loop
    between motes 8 and 9. *)
Definition parents_line : gmap (list nat) (list (list nat)) :=
  {[ [5%nat] := [[4%nat]]; [4%nat] := [[3%nat]; [2%nat]]; [3%nat] := [[1%nat]];
     [8%nat] := [[9%nat]]; [9%nat] := [[8%nat]] ]}.

(** Consecutive entries of a route are a mote and the parent picked for
    it. *)
Definition route_chain (parents : gmap (list nat) (list (list nat)))
    (l : list (list nat)) : Prop :=
  forall l1 a b l2, l = l1 ++ a :: b :: l2 -> first_parent parents a b.

(** The recursion stops at [a] without looking further:
    [not destAddr] or [not parents.get(tuple(destAddr))]. *)
Definition no_parents (parents : gmap (list nat) (list (list nat)))
    (a : list nat) : Prop :=
  a = [] \/ parents !! a = None \/ parents !! a = Some [].

(** ** 6top: answering an ADD request *)

(** The call [_sixtop_enqueue_RESPONSE(neighbor, cellList, returnCode, dir,
    seq)] that ends the handler. *)
Record ResponseCall := mkResponseCall {
  rsp_neighbor : nat;
  rsp_cellList : list CellTuple;
  rsp_code : Z;
  rsp_dir : Dir;
  rsp_seq : Z
}.

(** The blocked cells of one entry of [sixtopStates], the rx half first. *)
Definition blocked_halves (e : SixtopEntry) : list CellTuple :=
  default [] (six_blockedCells <$> six_rx e)
  ++ default [] (six_blockedCells <$> six_tx e).

(** [tsBlocked]: the timeslots blocked by the transactions with the other
    neighbours. *)
Definition tsBlocked_for (neighbor : nat) (states : gmap nat SixtopEntry)
    : list Z :=
  (map_to_list states
   ≫= (fun ne => if decide (ne.1 = neighbor) then [] else blocked_halves ne.2)).*1.*1.

(** [ts in availableTimeslots], where the list holds
    [set(range(slotframeLength)) - set(self.schedule.keys()) - set(tsBlocked)]. *)
Definition available (m : Mote) (tsBlocked : list Z) (ts : Z) : bool :=
  bool_decide (0 <= ts < slotframeLength (settings m))
  && negb (in_schedule ts (schedule m))
  && negb (bool_decide (ts ∈ tsBlocked)).

(** With slot bonding a cell needs [slots] consecutive available
    timeslots. *)
Definition allFree (avail : Z -> bool) (slots : nat) (ts : Z) : bool :=
  forallb (fun i : nat => avail (ts + Z.of_nat i)) (seq 0 slots).

(** The loop over the proposed cells: it stops when [numCells] cells are
    chosen, and keeps a cell whose timeslot passes the test [free], with the
    new direction. *)
Fixpoint select_cells (free : Z -> bool) (numCells : Z) (newDir : Dir)
    (cellList newCellList : list CellTuple) : list CellTuple :=
  match cellList with
  | [] => newCellList
  | c :: rest =>
    if decide (Z.of_nat (length newCellList) = numCells) then newCellList
    else if free c.1.1
         then select_cells free numCells newDir rest
                (newCellList ++ [(c.1.1, c.1.2, newDir)])
         else select_cells free numCells newDir rest newCellList
  end.

(** The blocked cells of a response with slot bonding, on the pair
    [(blockedCellList, addedBlocked)]: a timeslot met twice fails the
    assertion. *)
Fixpoint block_slots (c : CellTuple) (offsets : list nat)
    (acc : list CellTuple * list Z) : outcome (list CellTuple * list Z) :=
  match offsets with
  | [] => Ok acc
  | i :: rest =>
    let tmpTs := c.1.1 + Z.of_nat i in
    if decide (tmpTs ∈ acc.2) then Raise AssertionError
    else block_slots c rest (acc.1 ++ [(tmpTs, c.1.2, c.2)], acc.2 ++ [tmpTs])
  end.

Fixpoint bonded_blocked (slots : nat) (newCellList : list CellTuple)
    (acc : list CellTuple * list Z) : outcome (list CellTuple) :=
  match newCellList with
  | [] => Ok acc.1
  | c :: rest =>
    acc ← block_slots c (seq 0 slots) acc;
    bonded_blocked slots rest acc
  end.

(** [self.sixtopStates[smac.id]['rx']['state'] = state], after the entry
    and its rx half have been created when missing (no blocked cells,
    sequence number 0). *)
Definition set_rx_state (state : SixState) (e : SixtopEntry) : SixtopEntry :=
  let rx := default (mkHalf SIX_STATE_IDLE [] 0 None None) (six_rx e) in
  mkEntry (six_tx e)
          (Some (mkHalf state (six_blockedCells rx) (six_seqNum rx)
                        (six_timeout rx) (six_timer rx))).

Definition request_received (smac : nat) (m : Mote) : Mote :=
  set_sixtopStates
    (<[smac := set_rx_state SIX_STATE_REQUEST_ADD_RECEIVED
                 (default (mkEntry None None) (sixtopStates m !! smac))]>
       (sixtopStates m)) m.

(** [...['rx']['blockedCells'] = cells], on the rx half that
    [request_received] has made sure of. *)
Definition set_rx_blocked (smac : nat) (cells : list CellTuple) (m : Mote)
    : outcome Mote :=
  update_rx (fun h => mkHalf (six_state h) cells (six_seqNum h) (six_timeout h)
                             (six_timer h)) smac m.

(** A transaction with [smac] is under way on the rx side. *)
Definition rx_busy (smac : nat) (m : Mote) : bool :=
  match sixtopStates m !! smac with
  | Some e =>
    match six_rx e with
    | Some h => negb (bool_decide (six_state h = SIX_STATE_IDLE))
    | None => false
    end
  | None => false
  end.

(** [pkt['type'] == IANA_6TOP_TYPE_RESPONSE and pkt['dstIp'].id == smac.id]. *)
Definition is_response_to (smac : nat) (pkt : Packet) : outcome bool :=
  if decide (pkt_type pkt = IANA_6TOP_TYPE_RESPONSE) then
    dst ← dst_id pkt;
    Ok (bool_decide (dst = smac))
  else Ok false.

(** [for pkt in self.txQueue: if ...: self.txQueue.remove(pkt)], on the
    packets already visited and those still to come.  The list shrinks under
    the iterator: after a removal, which takes the first packet equal to
    [pkt], the packet that followed [pkt] is not visited. *)
Fixpoint drop_responses (smac : nat) (visited rest : list Packet)
    : outcome (list Packet) :=
  match rest with
  | [] => Ok visited
  | pkt :: rest' =>
    hit ← is_response_to smac pkt;
    if hit : bool then
      let visited := default visited (list_remove pkt (visited ++ [pkt])) in
      match rest' with
      | [] => Ok visited
      | skipped :: rest'' => drop_responses smac (visited ++ [skipped]) rest''
      end
    else drop_responses smac (visited ++ [pkt]) rest'
  end.

(** [_sixtop_receive_ADD_REQUEST(type, smac, payload)] without an external
    scheduling function ([eLLSF] is [None]), up to its call of
    [_sixtop_enqueue_RESPONSE]: the arguments of the call and the mote as the
    call finds it.  [shuffle] is the permutation drawn by [genMSF.shuffle];
    the time stamp [tsSixTopReqRecv] is not part of the mote state kept
    here. *)
Definition _sixtop_receive_ADD_REQUEST
    (shuffle : list CellTuple -> list CellTuple) (smac : nat)
    (payload : Payload) (m : Mote) : outcome (ResponseCall * Mote) :=
  let neighbor := smac in
  let numCells := payload_numCells payload in
  let dirNeighbor := payload_dir payload in
  let seq := payload_seq payload in
  let m := _stats_incrementMoteStats "6topRxAddReq" m in
  if rx_busy smac m then
    q ← drop_responses smac [] (txQueue m);
    let m := set_txQueue q m in
    let returnCode := IANA_6TOP_RC_RESET in
    let m := request_received smac m in
    Ok (mkResponseCall neighbor [] returnCode dirNeighbor seq, m)
  else
    let m := request_received smac m in
    let newDir := flipDir dirNeighbor in
    let tsBlocked := tsBlocked_for neighbor (sixtopStates m) in
    cellList ← cellTuples (payload_cellList payload);
    let cellList := shuffle cellList in
    let bonded := bool_decide (individualModulations (settings m) = 1) in
    let slots := modulationSlots m neighbor in
    let free := if bonded then allFree (available m tsBlocked) slots
                else available m tsBlocked in
    let newCellList := select_cells free numCells newDir cellList [] in
    let returnCode := if (length newCellList <=? 0)%nat
                      then IANA_6TOP_RC_NORES else IANA_6TOP_RC_SUCCESS in
    blocked ← (if bonded then bonded_blocked slots newCellList ([], [])
               else Ok newCellList);
    m ← set_rx_blocked neighbor blocked m;
    Ok (mkResponseCall neighbor newCellList returnCode newDir seq, m).

(** A mote with cells in timeslots 5, 9 and 11, and a transaction with
    neighbour 2 that blocks timeslot 20; and the proposal of neighbour 1. *)
Definition mote_responder : Mote :=
  set_sixtopStates
    {[ 2%nat := mkEntry (Some (mkHalf SIX_STATE_WAIT_ADDRESPONSE
                                      [(20, 3, DIR_TXRX_SHARED)] 0 (Some 15)
                                      None))
                        None ]}
    mote_two_cells.

Definition add_proposal : Payload :=
  mkPayload (CellTuples [(9, 1, DIR_TX); (20, 2, DIR_TX); (30, 3, DIR_TX);
                         (31, 4, DIR_TX); (40, 5, DIR_TX)])
            2 DIR_TX 6.

Definition keep_order (l : list CellTuple) : list CellTuple := l.

(** The responder with slot bonding, two timeslots per cell, and a proposal
    whose usable cells do not overlap. *)
Definition mote_responder_bonded : Mote :=
  let m := set_settings (mkSettings "msf" 1 4 101 (1 # 100) 1 1 false)
                        mote_responder in
  mkMote (id m) (settings m) (dagRoot m) (dagRootAddress m) (preferredParent m)
    (oldPreferredParent m) (PDR m) (fun _ => 2%nat) (schedule m) (txQueue m)
    (pktToSend m) (motestats m) (sixtopStates m) (numCellsToNeighbors m)
    (numCellsFromNeighbors m) (rplPrefParentChurnToAndASN m)
    (rplPrefParentASNDiffs m) (currentOldPrefParentRemoval m)
    (oldPrefParentRemoval m) (timeCorrectedSlot m) (backoffBroadcast m)
    (backoffBroadcastExponent m) (backoffPerNeigh m)
    (backoffExponentPerNeigh m) (waitingFor m).

Definition add_proposal_apart : Payload :=
  mkPayload (CellTuples [(19, 1, DIR_TX); (30, 3, DIR_TX); (40, 5, DIR_TX)])
            2 DIR_TX 6.

(** A queue with two 6P responses to neighbour 1 next to each other,
    followed by a DATA packet, on a mote whose transaction with neighbour 1
    waits for the end of its response. *)
Definition response_packet (code : Z) : Packet :=
  mkPacket 400 IANA_6TOP_TYPE_RESPONSE code [0; 4] [] TSCH_MAXTXRETRIES
           (AddrMote 1) [] (Some [Some 1%nat]).

Definition mote_answering : Mote :=
  set_txQueue [response_packet IANA_6TOP_RC_SUCCESS;
               response_packet IANA_6TOP_RC_NORES; queued data_packet]
    (set_sixtopStates
       {[ 1%nat := mkEntry None
                     (Some (mkHalf SIX_STATE_WAIT_ADD_RESPONSE_SENDDONE
                                   [(30, 3, DIR_RX)] 4 None None)) ]}
       mote_two_cells).

(** ** 6top: the response has been acknowledged *)

(** [self.sixtopStates[n]['rx']]. *)
Definition rx_of (m : Mote) (n : nat) : outcome SixtopHalf :=
  e ← getitem (sixtopStates m !! n);
  getitem (six_rx e).

(** The end of both branches: state IDLE, no blocked cells,
    [seqNum += 1]. *)
Definition rx_done (h : SixtopHalf) : SixtopHalf :=
  mkHalf SIX_STATE_IDLE [] (six_seqNum h + 1) (six_timeout h) (six_timer h).

(** The payload [[cellList, len(cellList), dir, seq]] that
    [_sixtop_enqueue_RESPONSE] puts into the response. *)
Definition response_payload (call : ResponseCall) : Payload :=
  mkPayload (CellTuples (rsp_cellList call))
            (Z.of_nat (length (rsp_cellList call))) (rsp_dir call)
            (rsp_seq call).

(** [_sixtop_receive_RESPONSE_ACK(packet)], on what it reads of the packet:
    the id of [packet['dstIp']], [packet['code']] and the payload.  With slot
    bonding the confirmed list must hold one cell.  The 6P latency
    statistics are left out. *)
Definition _sixtop_receive_RESPONSE_ACK (dst : nat) (code : Z)
    (payload : Payload) (m : Mote) : outcome Mote :=
  rx ← rx_of m dst;
  let confirmedCellList := payload_cellList payload in
  let receivedDir := payload_dir payload in
  let neighbor := dst in
  if decide (six_state rx = SIX_STATE_WAIT_ADD_RESPONSE_SENDDONE) then
    m ← (if decide (code = IANA_6TOP_RC_SUCCESS) then
           sched ←
             (if decide (individualModulations (settings m) = 1) then
                if negb (cellList_length confirmedCellList =? 1)%nat
                then Raise AssertionError else
                cells ← cellTuples confirmedCellList;
                _tsch_addCells (Unicast neighbor)
                  (cells ≫= (fun c : CellTuple =>
                     (fun i : nat => (c.1.1 + Z.of_nat i, c.1.2, c.2))
                     <$> seq 0 (modulationSlots m neighbor)))
                  (head cells.*1.*1) (schedule m)
              else
                cells ← cellTuples confirmedCellList;
                _tsch_addCells (Unicast neighbor) cells None (schedule m));
           Ok (update_counters_add receivedDir neighbor
                 (Z.of_nat (cellList_length confirmedCellList))
                 (set_schedule sched m))
         else Ok m);
    update_rx rx_done neighbor m
  else if decide (six_state rx = SIX_STATE_WAIT_DELETE_RESPONSE_SENDDONE) then
    m ← (if decide (code = IANA_6TOP_RC_SUCCESS) then
           tsList ←
             (if decide (individualModulations (settings m) = 1) then
                if negb (cellList_length confirmedCellList =? 1)%nat
                then Raise AssertionError else
                delete_timeslots true (modulationSlots m neighbor)
                                 confirmedCellList
              else delete_timeslots false (modulationSlots m neighbor)
                                    confirmedCellList);
           sched ← _tsch_removeCells (Unicast neighbor) tsList (schedule m);
           update_counters_sub receivedDir neighbor
             (Z.of_nat (cellList_length confirmedCellList))
             (set_schedule sched m)
         else Ok m);
    update_rx rx_done neighbor m
  else Raise AssertionError.

(** The mote [mote_responder] once the response to neighbour 1 is in the
    air, and the response that [_sixtop_receive_ADD_REQUEST] has built. *)
Definition mote_responded : Mote :=
  set_sixtopStates
    (<[ 1%nat := mkEntry None
                   (Some (mkHalf SIX_STATE_WAIT_ADD_RESPONSE_SENDDONE
                                 [(30, 3, DIR_RX); (31, 4, DIR_RX)] 6 None
                                 None)) ]>
       (sixtopStates mote_responder))
    mote_responder.

Definition response_call : ResponseCall :=
  mkResponseCall 1 [(30, 3, DIR_RX); (31, 4, DIR_RX)] IANA_6TOP_RC_SUCCESS
                 DIR_RX 6.

(** The bonded responder once its response to neighbour 1 is in the air. *)
Definition mote_responded_bonded : Mote :=
  set_sixtopStates
    (<[ 1%nat := mkEntry None
                   (Some (mkHalf SIX_STATE_WAIT_ADD_RESPONSE_SENDDONE
                                 [(30, 3, DIR_RX); (31, 3, DIR_RX);
                                  (40, 5, DIR_RX); (41, 5, DIR_RX)] 6 None
                                 None)) ]>
       (sixtopStates mote_responder_bonded))
    mote_responder_bonded.

(** The requester of [response_call]: mote 1 waits for the response of
    mote 7 to its request number 6, with a timeout at ASN 500. *)
Definition mote_requester : Mote :=
  mkMote 1 settings0 false (Some 0%nat) (Some 7%nat) None ∅ (fun _ => 1%nat)
         [] [] None (fun _ => 0)
         {[ 7%nat := mkEntry (Some (mkHalf SIX_STATE_WAIT_ADDRESPONSE
                                           [(30, 3, DIR_TX); (31, 4, DIR_TX)] 6
                                           (Some 15)
                                           (Some (mkTimer (1%nat, 7%nat) 500))))
                             None ]}
         ∅ ∅ (None, None) [] 0 0 None 0 1 ∅ ∅ None.

(** ** MSF: leaving the old parent *)

(** A mote that has moved from parent 1 (two cells) to parent 2 (one
    cell). *)
Definition mote_leaving_parent : Mote :=
  set_numCellsToNeighbors {[ 1%nat := 2; 2%nat := 1 ]}
    (set_oldPreferredParent (Some 1%nat)
       (set_preferredParent (Some 2%nat) mote_two_cells)).

(** ** 6top: answering a DELETE request *)

(** The call of [_sixtop_enqueue_RESPONSE] that ends the handler of a
    DELETE request; the list holds what the request held. *)
Record DeleteResponseCall := mkDeleteResponseCall {
  drsp_neighbor : nat;
  drsp_cellList : CellList;
  drsp_code : Z;
  drsp_dir : Dir;
  drsp_seq : Z
}.

Definition delete_response_payload (call : DeleteResponseCall) : Payload :=
  mkPayload (drsp_cellList call) (Z.of_nat (cellList_length (drsp_cellList call)))
            (drsp_dir call) (drsp_seq call).

(** The loop [for cell in cellList: if cell not in self.schedule.keys()]
    finds nothing amiss; a tuple is never a key. *)
Definition all_scheduled (sched : list (Z * Cell)) (cl : CellList) : bool :=
  match cl with
  | Timeslots l => forallb (fun ts => in_schedule ts sched) l
  | CellTuples l => forallb (fun _ => false) l
  end.

(** [_sixtop_receive_DELETE_REQUEST(type, smac, payload)] up to its call of
    [_sixtop_enqueue_RESPONSE].  In the branch of a transaction under way
    the test ['rx' not in self.sixtopStates] looks for the string among the
    neighbour ids and always holds, so that the rx half is made anew.  The
    time stamp [tsSixTopReqRecv] is not part of the mote state kept here. *)
Definition _sixtop_receive_DELETE_REQUEST (smac : nat) (payload : Payload)
    (m : Mote) : outcome (DeleteResponseCall * Mote) :=
  let neighbor := smac in
  let cellList := payload_cellList payload in
  let receivedDir := payload_dir payload in
  let seq := payload_seq payload in
  let m := _stats_incrementMoteStats "6topRxDelReq" m in
  if rx_busy smac m then
    q ← drop_responses smac [] (txQueue m);
    let m := set_txQueue q m in
    let returnCode := IANA_6TOP_RC_RESET in
    let e := default (mkEntry None None) (sixtopStates m !! smac) in
    let rx := mkHalf SIX_STATE_REQUEST_DELETE_RECEIVED [] 0 None None in
    let m := set_sixtopStates
               (<[smac := mkEntry (six_tx e) (Some rx)]> (sixtopStates m)) m in
    Ok (mkDeleteResponseCall neighbor (Timeslots []) returnCode receivedDir seq, m)
  else
    match sixtopStates m !! smac ≫= six_rx with
    | None => Raise AssertionError
    | Some _ =>
      m ← update_rx (fun h => mkHalf SIX_STATE_REQUEST_DELETE_RECEIVED
                                (six_blockedCells h) (six_seqNum h)
                                (six_timeout h) (six_timer h)) smac m;
      let newDir := flipDir receivedDir in
      let returnCode := if all_scheduled (schedule m) cellList
                        then IANA_6TOP_RC_SUCCESS else IANA_6TOP_RC_NORES in
      Ok (mkDeleteResponseCall neighbor cellList returnCode newDir seq, m)
    end.

(** Mote 7 has an RX cell from mote 1 in timeslot 9, mote 1 the TX cell to
    mote 7; mote 1 has asked to delete it (request number 3). *)
Definition mote_delete_responder : Mote :=
  set_numCellsFromNeighbors {[ 1%nat := 1 ]}
    (set_sixtopStates
       {[ 1%nat := mkEntry None (Some (mkHalf SIX_STATE_IDLE [] 3 None None)) ]}
       (set_schedule [(9, mkCell 2 DIR_RX (Unicast 1) 0 0 [] (Some 9));
                      cell_to 2 DIR_TX 11 40 40] mote0)).

Definition mote_delete_responded : Mote :=
  set_sixtopStates
    {[ 1%nat := mkEntry None
                  (Some (mkHalf SIX_STATE_WAIT_DELETE_RESPONSE_SENDDONE [] 3
                                None None)) ]}
    mote_delete_responder.

Definition mote_delete_requester : Mote :=
  mkMote 1 settings0 false (Some 0%nat) (Some 7%nat) None ∅ (fun _ => 1%nat)
         [(9, mkCell 2 DIR_TX (Unicast 7) 0 0 [] (Some 9))] [] None (fun _ => 0)
         {[ 7%nat := mkEntry (Some (mkHalf SIX_STATE_WAIT_DELETERESPONSE [] 3
                                           (Some 15)
                                           (Some (mkTimer (1%nat, 7%nat) 500))))
                             None ]}
         {[ 7%nat := 1 ]} ∅ (None, None) [] 0 0 None 0 1 ∅ ∅ None.

Definition delete_request : Payload := mkPayload (Timeslots [9]) 1 DIR_TX 3.

(** * Properties *)

(** ** The 6P timeout of MSF *)






(** ** The ETX estimate *)

Lemma etx_fold neighbor sched a b :
  foldl (etx_step neighbor) (a, b) sched
  = (a + Zsum (cell_numTx
               <$> filter (fun c => is_tx_or_shared_to neighbor c) sched.*2),
     b + Zsum (cell_numTxAck
               <$> filter (fun c => is_tx_or_shared_to neighbor c) sched.*2)).
Proof.
  revert a b. induction sched as [|[ts cell] rest IH]; intros a b; simpl.
  - f_equal; lia.
  - rewrite filter_cons. unfold etx_step at 2. simpl.
    destruct (is_tx_or_shared_to neighbor cell); simpl; rewrite IH.
    + rewrite <- !Z.add_assoc. reflexivity.
    + reflexivity.
Qed.

(** C4, as stated, fails in both regimes.  After ten fully acknowledged
    transmissions over a link of static PDR 1/2 the estimate is 20/15 and
    not the observed ratio 1; and before the threshold, two motes with the
    same static PDR (ETX 1 from the PDR alone) get different estimates
    because one of them lost five frames. *)
Lemma estimateETX_regimes_counterexample :
  (NUM_SUFFICIENT_TX <= observedTx mote_ten_acked 1
   /\ PDR mote_ten_acked !! 1%nat = Some (1 # 2)%Q
   /\ exists e, _estimateETX mote_ten_acked 1 = Ok (Some e)
               /\ ~ (e == spec_ETX mote_ten_acked 1 (1 # 2))%Q)
  /\ (observedTx mote_five_lost 1 < NUM_SUFFICIENT_TX
      /\ observedTx mote_unused_cell 1 < NUM_SUFFICIENT_TX
      /\ PDR mote_five_lost = PDR mote_unused_cell
      /\ exists e e', _estimateETX mote_five_lost 1 = Ok (Some e)
                     /\ _estimateETX mote_unused_cell 1 = Ok (Some e')
                     /\ ~ (e == e')%Q
                     /\ ~ (e == spec_ETX mote_five_lost 1 1)%Q).
Proof.
  split.
  - split; [vm_compute; discriminate|]. split; [reflexivity|].
    exists (20 # 15)%Q. split; [reflexivity|].
    intros H. vm_compute in H. discriminate.
  - split; [reflexivity|]. split; [reflexivity|]. split; [reflexivity|].
    exists (15 # 10)%Q, (10 # 10)%Q. split; [reflexivity|]. split; [reflexivity|].
    split; intros H; vm_compute in H; discriminate.
Qed.

(** C4, amended: the estimate always blends the two sources.  The static
    link PDR contributes [NUM_SUFFICIENT_TX] = 10 transmissions of which
    [floor(10 * pdr)] are acknowledged, the TX and SHARED cells to the
    neighbour add their observed counters from the first transmission on,
    and the ETX is the ratio of the two totals (none when no acknowledgement
    is counted). *)
Theorem estimateETX_blend m neighbor pdr :
  PDR m !! neighbor = Some pdr ->
  _estimateETX m neighbor
  = Ok (let numTx := NUM_SUFFICIENT_TX + observedTx m neighbor in
        let numTxAck := Qfloor (pdr * inject_Z NUM_SUFFICIENT_TX)
                        + observedTxAck m neighbor in
        if numTxAck =? 0 then None
        else Some (inject_Z numTx / inject_Z numTxAck)%Q).
Proof.
  intros Hpdr. unfold _estimateETX, getPDR. rewrite Hpdr. simpl.
  rewrite etx_fold. simpl. unfold observedTx, observedTxAck, txCellsTo.
  destruct (_ =? 0); reflexivity.
Qed.

Lemma estimateETX_blend_witness :
  PDR mote_ten_acked !! 1%nat = Some (1 # 2)%Q
  /\ _estimateETX mote_ten_acked 1 = Ok (Some (20 # 15)%Q).
Proof.
  split; [reflexivity|].
  rewrite (estimateETX_blend mote_ten_acked 1 (1 # 2)%Q); reflexivity.
Defined.

(** ** The transmit queue *)

Lemma rpl_addNextHop_type m packet b packet' :
  _rpl_addNextHop m packet = Ok (b, packet') -> pkt_type packet' = pkt_type packet.
Proof.
  unfold _rpl_addNextHop. intros H.
  repeat (case_decide || case_match || simplify_eq/= || done).
Qed.

Lemma queue_has_type_spec t q :
  queue_has_type t q = true <-> exists p, p ∈ q /\ pkt_type p = t.
Proof.
  induction q as [|p q IH]; simpl.
  - split; [done|]. intros (p & Hp & _). by apply elem_of_nil in Hp.
  - case_decide as E.
    + split; [|done]. intros _. exists p. split; [left|done].
    + rewrite IH. split.
      * intros (p' & Hp' & Ht). exists p'. split; [by right|done].
      * intros (p' & Hp' & Ht). apply elem_of_cons in Hp' as [->|Hp'];
          [congruence|]. by exists p'.
Qed.

Lemma is_extra_type_spec t : is_extra_type t = true <-> t ∈ extra_types.
Proof.
  unfold extra_types. rewrite !elem_of_cons, elem_of_nil.
  destruct t; vm_compute; intuition (discriminate || auto).
Qed.

Lemma incrementMoteStats_spec name m :
  motestats (_stats_incrementMoteStats name m) name = motestats m name + 1
  /\ (forall k, k <> name ->
        motestats (_stats_incrementMoteStats name m) k = motestats m k)
  /\ txQueue (_stats_incrementMoteStats name m) = txQueue m
  /\ schedule (_stats_incrementMoteStats name m) = schedule m
  /\ sixtopStates (_stats_incrementMoteStats name m) = sixtopStates m.
Proof.
  unfold _stats_incrementMoteStats. simpl. rewrite String.eqb_refl.
  repeat split; try done. intros k Hk.
  destruct (String.eqb_spec k name); congruence.
Qed.

(** C1, as stated, fails: the queue bound is the third test of
    [_tsch_enqueue].  On a mote without a route whose queue holds ten DATA
    packets, a JOIN packet is not appended although no JOIN packet is queued,
    and a DATA packet is counted in [droppedNoRoute], not in
    [droppedQueueFull]. *)
Lemma tsch_enqueue_full_queue_counterexample :
  (TSCH_QUEUE_SIZE <= length (txQueue mote_full_no_route))%nat
  /\ join_packet.(pkt_type) ∈ extra_types
  /\ ~ (exists p, p ∈ txQueue mote_full_no_route
                 /\ pkt_type p = pkt_type join_packet)
  /\ (exists m', _tsch_enqueue mote_full_no_route join_packet = Ok (false, m')
                /\ txQueue m' = txQueue mote_full_no_route)
  /\ (exists m', _tsch_enqueue mote_full_no_route data_packet = Ok (false, m')
                /\ motestats m' "droppedQueueFull"
                   = motestats mote_full_no_route "droppedQueueFull"
                /\ motestats m' "droppedNoRoute"
                   = motestats mote_full_no_route "droppedNoRoute" + 1).
Proof.
  split; [vm_compute; lia|]. split; [apply is_extra_type_spec; reflexivity|].
  split.
  - rewrite <- queue_has_type_spec. vm_compute. discriminate.
  - split; eexists; (split; [reflexivity|]); [reflexivity|split; reflexivity].
Qed.

(** C1, amended: for a packet that has a next hop, on a mote that has at
    least one TX or SHARED cell and whose queue holds at least
    [TSCH_QUEUE_SIZE] packets: a JOIN, DAO, 6P-REQUEST or 6P-RESPONSE packet
    is appended (with its next hop) and [True] is returned if and only if no
    packet of its type is queued; every other packet, and a packet of these
    types whose type is queued, is rejected: [droppedQueueFull] is
    incremented, the queue is unchanged and [False] is returned. *)
Theorem tsch_enqueue_full_queue m packet packet' :
  _rpl_addNextHop m packet = Ok (true, packet') ->
  truthy (getTxCells m) || truthy (getSharedCells m) = true ->
  (TSCH_QUEUE_SIZE <= length (txQueue m))%nat ->
  let same_type_queued :=
    exists p, p ∈ txQueue m /\ pkt_type p = pkt_type packet in
  let appended := Ok (true, set_txQueue (txQueue m ++ [packet']) m) in
  let rejected := Ok (false, _stats_incrementMoteStats "droppedQueueFull" m) in
  (pkt_type packet ∈ extra_types -> ~ same_type_queued ->
     _tsch_enqueue m packet = appended)
  /\ (pkt_type packet ∈ extra_types -> same_type_queued ->
        _tsch_enqueue m packet = rejected)
  /\ (pkt_type packet ∉ extra_types -> _tsch_enqueue m packet = rejected)
  /\ motestats (_stats_incrementMoteStats "droppedQueueFull" m) "droppedQueueFull"
     = motestats m "droppedQueueFull" + 1
  /\ txQueue (_stats_incrementMoteStats "droppedQueueFull" m) = txQueue m.
Proof.
  intros Hroute Hcells Hfull same appended rejected.
  pose proof (rpl_addNextHop_type _ _ _ _ Hroute) as Htype.
  assert (Hrun : _tsch_enqueue m packet
                 = if is_extra_type (pkt_type packet)
                   then if queue_has_type (pkt_type packet) (txQueue m)
                        then rejected else appended
                   else rejected).
  { unfold _tsch_enqueue. rewrite Hroute.
    unfold mbind, outcome_bind. cbv beta iota delta [negb].
    rewrite Hcells. apply Nat.leb_le in Hfull. rewrite Hfull, Htype.
    reflexivity. }
  split; [|split; [|split]].
  - intros Hin Hnone. rewrite Hrun.
    apply is_extra_type_spec in Hin. rewrite Hin.
    destruct (queue_has_type _ _) eqn:E; [|done].
    apply queue_has_type_spec in E. contradiction.
  - intros Hin Hsome. rewrite Hrun.
    apply is_extra_type_spec in Hin. rewrite Hin.
    apply queue_has_type_spec in Hsome. by rewrite Hsome.
  - intros Hnot. rewrite Hrun.
    destruct (is_extra_type _) eqn:E; [|done].
    apply is_extra_type_spec in E. contradiction.
  - split; apply incrementMoteStats_spec.
Qed.

Lemma tsch_enqueue_full_queue_witness :
  _rpl_addNextHop mote_full_routed join_packet = Ok (true, queued join_packet)
  /\ truthy (getTxCells mote_full_routed)
     || truthy (getSharedCells mote_full_routed) = true
  /\ (TSCH_QUEUE_SIZE <= length (txQueue mote_full_routed))%nat
  /\ _tsch_enqueue mote_full_routed join_packet
     = Ok (true, set_txQueue (txQueue mote_full_routed ++ [queued join_packet])
                   mote_full_routed)
  /\ _tsch_enqueue mote_full_routed data_packet
     = Ok (false, _stats_incrementMoteStats "droppedQueueFull" mote_full_routed).
Proof.
  split; [reflexivity|]. split; [reflexivity|]. split; [vm_compute; lia|].
  split.
  - apply (tsch_enqueue_full_queue mote_full_routed join_packet
             (queued join_packet)); [reflexivity|reflexivity|vm_compute; lia| |].
    + apply is_extra_type_spec. reflexivity.
    + rewrite <- queue_has_type_spec. vm_compute. discriminate.
  - apply (tsch_enqueue_full_queue mote_full_routed data_packet
             (queued data_packet)); [reflexivity|reflexivity|vm_compute; lia|].
    rewrite <- is_extra_type_spec. vm_compute. discriminate.
Defined.

(** C8, as stated, fails: under MSF a mote with a route and no TX or SHARED
    cell does not return from [_tsch_enqueue]: the assertion of that branch
    fails. *)
Lemma tsch_enqueue_no_cells_counterexample :
  getTxCells mote_no_cells = [] /\ getSharedCells mote_no_cells = []
  /\ sf (settings mote_no_cells) = "msf"
  /\ _tsch_enqueue mote_no_cells data_packet = Raise AssertionError.
Proof. repeat split. Qed.

(** C8, amended: for a frame that has a next hop, offered by a mote without
    TX and SHARED cells, the rejection is a local drop only under the ILP
    scheduling function ([sf = 'ilp']): [droppedNoTxCells] is incremented,
    the queue is unchanged and [False] is returned; under every other
    scheduling function the call raises an assertion error. *)
Theorem tsch_enqueue_no_tx_cells m packet packet' :
  _rpl_addNextHop m packet = Ok (true, packet') ->
  getTxCells m = [] ->
  getSharedCells m = [] ->
  (sf (settings m) = "ilp" ->
     _tsch_enqueue m packet
     = Ok (false, _stats_incrementMoteStats "droppedNoTxCells" m))
  /\ (sf (settings m) <> "ilp" -> _tsch_enqueue m packet = Raise AssertionError)
  /\ motestats (_stats_incrementMoteStats "droppedNoTxCells" m) "droppedNoTxCells"
     = motestats m "droppedNoTxCells" + 1
  /\ txQueue (_stats_incrementMoteStats "droppedNoTxCells" m) = txQueue m.
Proof.
  intros Hroute Htx Hshared.
  assert (Hrun : _tsch_enqueue m packet
                 = if negb (String.eqb (sf (settings m)) "ilp")
                   then Raise AssertionError
                   else Ok (false, _stats_incrementMoteStats "droppedNoTxCells" m)).
  { unfold _tsch_enqueue. rewrite Hroute. simpl. rewrite Htx, Hshared. reflexivity. }
  split; [|split].
  - intros Hsf. rewrite Hrun, Hsf. reflexivity.
  - intros Hsf. rewrite Hrun.
    destruct (String.eqb_spec (sf (settings m)) "ilp"); [contradiction|done].
  - split; apply incrementMoteStats_spec.
Qed.

Lemma tsch_enqueue_no_tx_cells_witness :
  _rpl_addNextHop mote_no_cells_ilp data_packet = Ok (true, queued data_packet)
  /\ getTxCells mote_no_cells_ilp = []
  /\ getSharedCells mote_no_cells_ilp = []
  /\ _tsch_enqueue mote_no_cells_ilp data_packet
     = Ok (false, _stats_incrementMoteStats "droppedNoTxCells" mote_no_cells_ilp).
Proof.
  split; [reflexivity|]. split; [reflexivity|]. split; [reflexivity|].
  apply (tsch_enqueue_no_tx_cells mote_no_cells_ilp data_packet
           (queued data_packet)); reflexivity.
Defined.

(** ** Backoff resets *)



(** ** The 6top timeout callback *)

Lemma timer_due_spec asn e :
  timer_due asn e = true
  <-> exists h t, six_tx e = Some h /\ six_timer h = Some t /\ timer_asn t = asn.
Proof.
  unfold timer_due. destruct (six_tx e) as [h|] eqn:Eh.
  - destruct (six_timer h) as [t|] eqn:Et.
    + rewrite bool_decide_eq_true. split.
      * intros <-. exists h, t. auto.
      * intros (h' & t' & Hh & Ht & Hasn). by simplify_eq.
    + split; [done|]. intros (h' & t' & Hh & Ht & _). by simplify_eq.
  - split; [done|]. intros (h' & t' & Hh & _). done.
Qed.

(** The loop over the keys touches each key once: an entry whose timer is
    due is aborted, every other entry is kept, and [found] records whether
    some entry was due. *)
Lemma timer_fired_fold asn ks st found :
  NoDup ks ->
  (forall n,
     (foldl (timer_fired_step asn) (st, found) ks).1 !! n
     = if decide (n ∈ ks)
       then (fun e => if timer_due asn e then abort_tx e else e) <$> st !! n
       else st !! n)
  /\ ((foldl (timer_fired_step asn) (st, found) ks).2 = true
      <-> found = true
          \/ exists n e, n ∈ ks /\ st !! n = Some e /\ timer_due asn e = true).
Proof.
  revert st found. induction ks as [|k ks IH]; intros st found Hnd.
  - split.
    + intros n. destruct (decide (n ∈ [])) as [Hn|_]; [|done].
      by apply elem_of_nil in Hn.
    + simpl. split; [auto|]. intros [?|(n & e & Hn & _)]; [done|].
      by apply elem_of_nil in Hn.
  - apply NoDup_cons in Hnd as [Hk Hnd]. simpl.
    destruct (timer_fired_step asn (st, found) k) as [st1 found1] eqn:Hstep.
    destruct (IH st1 found1 Hnd) as [IH1 IH2].
    assert (Hst1 : forall n, n <> k -> st1 !! n = st !! n).
    { intros n Hn. unfold timer_fired_step in Hstep. simpl in Hstep.
      destruct (st !! k) as [e|]; [destruct (timer_due asn e)|];
        simplify_eq; [by rewrite lookup_insert_ne|done|done]. }
    assert (Hk1 : st1 !! k
                  = (fun e => if timer_due asn e then abort_tx e else e) <$> st !! k).
    { unfold timer_fired_step in Hstep. simpl in Hstep.
      destruct (st !! k) as [e|] eqn:E; [destruct (timer_due asn e) eqn:D|];
        simplify_eq; simpl; rewrite ?D, ?E, ?lookup_insert_eq; done. }
    assert (Hf1 : found1 = true
                  <-> found = true
                      \/ exists e, st !! k = Some e /\ timer_due asn e = true).
    { unfold timer_fired_step in Hstep. simpl in Hstep.
      destruct (st !! k) as [e|] eqn:E; [destruct (timer_due asn e) eqn:D|];
        simplify_eq.
      - split; [|done]. intros _. right. by exists e.
      - split; [by left|]. intros [?|(e' & He' & Hd')]; [done|]. congruence.
      - split; [by left|]. intros [?|(e' & He' & _)]; [done|]. done. }
    split.
    + intros n. rewrite IH1. destruct (decide (n = k)) as [->|Hn].
      * destruct (decide (k ∈ ks)) as [?|_]; [contradiction|].
        destruct (decide (k ∈ k :: ks)) as [_|Hno]; [done|].
        exfalso. apply Hno. left.
      * rewrite (Hst1 n Hn).
        destruct (decide (n ∈ ks)) as [Hin|Hin];
          destruct (decide (n ∈ k :: ks)) as [Hin'|Hin']; try done.
        -- exfalso. apply Hin'. by right.
        -- apply elem_of_cons in Hin' as [?|?]; contradiction.
    + rewrite IH2, Hf1. split.
      * intros [[Hf|(e & He & Hd)]|(n & e & Hn & He & Hd)].
        -- by left.
        -- right. exists k, e. split; [left|done].
        -- right. exists n, e. split; [by right|].
           rewrite <- (Hst1 n); [done|]. intros ->. contradiction.
      * intros [Hf|(n & e & Hn & He & Hd)]; [by left; left|].
        apply elem_of_cons in Hn as [->|Hn].
        -- left. right. by exists e.
        -- right. exists n, e. split; [done|].
           rewrite (Hst1 n); [done|]. intros ->. contradiction.
Qed.

(** C10: [_sixtop_timer_fired] returns exactly when some neighbour's tx
    half-context holds a timer scheduled for the current ASN, and fails its
    assertion otherwise; on return every such transaction is reset (state
    IDLE, no blocked cells, no timer record) and every other neighbour's
    entry is as before. *)
Theorem sixtop_timer_fired_resets asn m :
  ((exists n, tx_timer_at m n asn) ->
   exists m',
     _sixtop_timer_fired asn m = Ok m'
     /\ (forall n, tx_timer_at m n asn ->
           exists h, tx_of m' n = Ok h
                     /\ six_state h = SIX_STATE_IDLE
                     /\ six_blockedCells h = []
                     /\ six_timer h = None)
     /\ (forall n, ~ tx_timer_at m n asn ->
           sixtopStates m' !! n = sixtopStates m !! n))
  /\ (~ (exists n, tx_timer_at m n asn) ->
      _sixtop_timer_fired asn m = Raise AssertionError).
Proof.
  assert (Hdue : forall n, tx_timer_at m n asn
                  <-> exists e, sixtopStates m !! n = Some e
                                /\ timer_due asn e = true).
  { intros n. unfold tx_timer_at. split.
    - intros (e & h & t & He & Hrest). exists e. split; [done|].
      apply timer_due_spec. by exists h, t.
    - intros (e & He & Hd). apply timer_due_spec in Hd as (h & t & Hrest).
      by exists e, h, t. }
  destruct (timer_fired_fold asn (map_to_list (sixtopStates m)).*1
              (sixtopStates m) false (NoDup_fst_map_to_list _)) as [Hst Hfound].
  assert (Hfound' : (foldl (timer_fired_step asn) (sixtopStates m, false)
                       (map_to_list (sixtopStates m)).*1).2 = true
                    <-> exists n, tx_timer_at m n asn).
  { rewrite Hfound. split.
    - intros [?|(n & e & _ & He & Hd)]; [done|].
      exists n. apply Hdue. by exists e.
    - intros (n & Hn). right. apply Hdue in Hn as (e & He & Hd).
      exists n, e. split; [|done].
      apply list_elem_of_fmap. exists (n, e). split; [done|].
      by apply elem_of_map_to_list. }
  assert (Hst' : forall n,
            (foldl (timer_fired_step asn) (sixtopStates m, false)
               (map_to_list (sixtopStates m)).*1).1 !! n
            = (fun e => if timer_due asn e then abort_tx e else e)
                <$> sixtopStates m !! n).
  { intros n. rewrite Hst. case_decide as Hin; [done|].
    destruct (sixtopStates m !! n) as [e|] eqn:E; [|done].
    exfalso. apply Hin. apply list_elem_of_fmap. exists (n, e).
    split; [done|]. by apply elem_of_map_to_list. }
  unfold _sixtop_timer_fired. split.
  - intros Hex. apply Hfound' in Hex. rewrite Hex.
    eexists. split; [reflexivity|]. split.
    + intros n Hn. apply Hdue in Hn as (e & He & Hd).
      unfold tx_of. simpl. rewrite Hst', He. simpl. rewrite Hd.
      apply timer_due_spec in Hd as (h & t & Hh & _).
      unfold abort_tx. rewrite Hh. simpl. eauto.
    + intros n Hn. simpl. rewrite Hst'.
      destruct (sixtopStates m !! n) as [e|] eqn:E; [|done]. simpl.
      destruct (timer_due asn e) eqn:D; [|done].
      exfalso. apply Hn, Hdue. by exists e.
  - intros Hno. destruct (foldl _ _ _).2 eqn:E; [|done].
    exfalso. apply Hno, Hfound'. reflexivity.
Qed.

Lemma sixtop_timer_fired_resets_witness :
  tx_timer_at mote_waiting 1 500
  /\ exists m', _sixtop_timer_fired 500 mote_waiting = Ok m'
               /\ tx_of m' 1 = Ok (mkHalf SIX_STATE_IDLE [] 0 (Some 15) None)
               /\ sixtopStates m' !! 2%nat = sixtopStates mote_waiting !! 2%nat.
Proof.
  assert (H1 : tx_timer_at mote_waiting 1 500).
  { do 3 eexists. repeat split; reflexivity. }
  split; [exact H1|].
  destruct (sixtop_timer_fired_resets 500 mote_waiting) as [Hret _].
  destruct (Hret (ex_intro _ 1%nat H1)) as (m' & Hrun & _ & Hother).
  exists m'. split; [exact Hrun|]. split.
  - vm_compute in Hrun. injection Hrun as <-. reflexivity.
  - apply Hother. intros (e & h & t & He & Hh & Ht & Hasn).
    vm_compute in He. injection He as <-. simpl in Hh. injection Hh as <-.
    simpl in Ht. injection Ht as <-. simpl in Hasn. discriminate.
Defined.

(** ** A 6P response that meets its timeout *)

Lemma tx_of_update_tx f n m tx :
  tx_of m n = Ok tx -> tx_of (update_tx f n m) n = Ok (f tx).
Proof.
  unfold tx_of, update_tx. simpl. intros H.
  destruct (sixtopStates m !! n) as [e|] eqn:E; simpl in H; [|discriminate].
  destruct (six_tx e) as [h|] eqn:Eh; simpl in H; [|discriminate].
  injection H as ->. rewrite lookup_alter_eq, E. simpl. rewrite Eh. done.
Qed.

Lemma is_response_code_spec code :
  is_response_code code = true
  <-> code = IANA_6TOP_RC_SUCCESS \/ code = IANA_6TOP_RC_NORES
      \/ code = IANA_6TOP_RC_RESET.
Proof.
  unfold is_response_code. rewrite !orb_true_iff, !bool_decide_eq_true. tauto.
Qed.

(** C2: an ADD response (return code SUCCESS, NORES or RESET) received in
    state WAIT_ADDRESPONSE at the very ASN of the transaction's timeout timer
    is discarded: the handler returns [False], the tx state is IDLE and the
    blocked cells are cleared, the sequence number is not advanced, and
    neither the schedule nor the cell counters change. *)
Theorem sixtop_receive_RESPONSE_at_timeout asn code smac payload m tx timer :
  tx_of m smac = Ok tx ->
  six_state tx = SIX_STATE_WAIT_ADDRESPONSE ->
  code = IANA_6TOP_RC_SUCCESS \/ code = IANA_6TOP_RC_NORES
  \/ code = IANA_6TOP_RC_RESET ->
  six_timer tx = Some timer ->
  timer_asn timer = asn ->
  exists m' tx',
    _sixtop_receive_RESPONSE asn code smac payload m = Ok (Some false, m')
    /\ tx_of m' smac = Ok tx'
    /\ six_state tx' = SIX_STATE_IDLE
    /\ six_blockedCells tx' = []
    /\ six_seqNum tx' = six_seqNum tx
    /\ schedule m' = schedule m
    /\ numCellsToNeighbors m' = numCellsToNeighbors m
    /\ numCellsFromNeighbors m' = numCellsFromNeighbors m.
Proof.
  intros Htx Hstate Hcode Htimer Hasn.
  exists (update_tx half_idle smac (_stats_incrementMoteStats "6topRxAddResp" m)),
         (half_idle tx).
  split; [|split; [|repeat split]].
  - unfold _sixtop_receive_RESPONSE. rewrite Htx. simpl.
    rewrite decide_True by done.
    apply is_response_code_spec in Hcode. rewrite Hcode. simpl.
    destruct (bool_decide (payload_seq payload = six_seqNum tx)); simpl; [|done].
    rewrite Htimer. simpl. rewrite decide_True by done. done.
  - apply tx_of_update_tx. exact Htx.
Qed.

Lemma sixtop_receive_RESPONSE_at_timeout_witness :
  tx_of mote_waiting 1 = Ok (waiting_half 500 1)
  /\ exists m',
       _sixtop_receive_RESPONSE 500 IANA_6TOP_RC_SUCCESS 1 add_response mote_waiting
       = Ok (Some false, m')
       /\ schedule m' = schedule mote_waiting.
Proof.
  split; [reflexivity|].
  destruct (sixtop_receive_RESPONSE_at_timeout 500 IANA_6TOP_RC_SUCCESS 1
              add_response mote_waiting (waiting_half 500 1)
              (mkTimer (7%nat, 1%nat) 500))
    as (m' & tx' & Hrun & _ & _ & _ & _ & Hsched & _);
    [reflexivity|reflexivity|by left|reflexivity|reflexivity|].
  exists m'. split; [exact Hrun|exact Hsched].
Defined.

(** One slot earlier the same response is accepted: the cells are
    installed and the sequence number advances. *)
Example sixtop_receive_RESPONSE_in_time :
  exists m' tx',
    _sixtop_receive_RESPONSE 499 IANA_6TOP_RC_SUCCESS 1 add_response mote_waiting
    = Ok (Some true, m')
    /\ (schedule m').*1 = [20; 31]
    /\ tx_of m' 1 = Ok tx' /\ six_seqNum tx' = 1
    /\ numCellsToNeighbors m' !! 1%nat = Some 2.
Proof. do 2 eexists. repeat split; vm_compute; reflexivity. Qed.

(** ** The MSF parent-change action *)




(** At bootstrap there is no old parent and [minCellsMSF] cells are asked. *)
Example msf_parent_change_bootstrap :
  exists acts m',
    _msf_action_parent_change no_shuffle mote_first_parent
    = Ok (sixtop_cell_reservation_request 2 3 DIR_TXRX_SHARED 15 :: acts, m').
Proof. do 2 eexists. vm_compute. reflexivity. Qed.

(** ** Choosing the cells of a DELETE request *)

Section StableSort.

Context {A : Type} (le : A -> A -> bool).
Hypothesis le_total : forall x y, le x y = true \/ le y x = true.
Hypothesis le_trans : forall x y z, le x y = true -> le y z = true -> le x z = true.

Lemma sorted_insert_perm x l : sorted_insert le x l ≡ₚ x :: l.
Proof.
  induction l as [|y l IH]; simpl; [done|].
  destruct (le x y); [done|]. rewrite IH. apply Permutation_swap.
Qed.

Lemma sorted_perm l : sorted le l ≡ₚ l.
Proof.
  induction l as [|x l IH]; simpl; [done|].
  fold (sorted le l). by rewrite sorted_insert_perm, IH.
Qed.

Lemma sorted_insert_sorted x l :
  StronglySorted (fun a b => le a b = true) l ->
  StronglySorted (fun a b => le a b = true) (sorted_insert le x l).
Proof.
  induction l as [|y l IH]; simpl; intros Hl.
  - repeat constructor.
  - apply StronglySorted_cons in Hl as [Hy Hl].
    destruct (le x y) eqn:E.
    + apply StronglySorted_cons. split; [|by apply StronglySorted_cons].
      constructor; [done|].
      eapply Forall_impl; [exact Hy|]. intros z Hz. by eapply le_trans.
    + apply StronglySorted_cons. split; [|by apply IH].
      rewrite sorted_insert_perm. constructor; [|done].
      destruct (le_total x y); congruence.
Qed.

Lemma sorted_sorted l : StronglySorted (fun a b => le a b = true) (sorted le l).
Proof.
  induction l as [|x l IH]; simpl; [constructor|].
  by apply sorted_insert_sorted.
Qed.

End StableSort.

Lemma group_add_keys t groups k :
  k ∈ (group_add t groups).*1 -> k ∈ groups.*1 \/ k = ts_pdr t.
Proof.
  induction groups as [|[k0 l0] rest IH]; simpl.
  - intros Hk. apply list_elem_of_singleton in Hk. by right.
  - destruct (Qeq_bool k0 (ts_pdr t)); simpl; [by left|].
    intros [->|Hk]%elem_of_cons; [left; left|].
    destruct (IH Hk) as [?|?]; [left; by right|by right].
Qed.

Lemma group_add_ok t groups :
  groups_ok groups ->
  groups_ok (group_add t groups)
  /\ concat (group_add t groups).*2 ≡ₚ t :: concat groups.*2.
Proof.
  induction groups as [|[k0 l0] rest IH]; intros [Hnd Hmem]; simpl.
  - split; [split|done].
    + apply NoDup_singleton.
    + repeat constructor.
  - simpl in Hnd. apply NoDup_cons in Hnd as [Hk0 Hnd].
    apply Forall_cons in Hmem as [Hl0 Hmem]. simpl in Hl0.
    destruct (Qeq_bool k0 (ts_pdr t)) eqn:E; simpl.
    + split; [split|].
      * by apply NoDup_cons.
      * constructor; [|done]. simpl. apply Forall_app. split; [done|].
        repeat constructor. symmetry. by apply Qeq_bool_iff.
      * rewrite <- (assoc_L (++)). simpl.
        by rewrite <- Permutation_middle.
    + destruct (IH (conj Hnd Hmem)) as [[Hnd' Hmem'] Hperm].
      split; [split|].
      * apply NoDup_cons. split; [|done].
        intros (k & Hk & Hin)%list_elem_of_fmap.
        apply group_add_keys in Hin as [Hin| ->].
        -- apply Hk0. apply list_elem_of_fmap. by exists k.
        -- apply Qred_eq_iff in Hk. apply Qeq_bool_neq in E. contradiction.
      * by constructor.
      * rewrite Hperm. symmetry. apply Permutation_middle.
Qed.

Lemma scheduleListByPDR_fold l groups :
  groups_ok groups ->
  groups_ok (foldl (fun g t => group_add t g) groups l)
  /\ concat (foldl (fun g t => group_add t g) groups l).*2
     ≡ₚ concat groups.*2 ++ l.
Proof.
  revert groups. induction l as [|t l IH]; intros groups Hok; simpl.
  - by rewrite (right_id_L [] (++)).
  - destruct (group_add_ok t groups Hok) as [Hok' Hperm].
    destruct (IH _ Hok') as [Hok'' Hperm'].
    split; [done|]. rewrite Hperm', Hperm. simpl.
    by rewrite <- Permutation_middle.
Qed.

Lemma group_get_ok groups k l :
  groups_ok groups -> (k, l) ∈ groups -> group_get k groups = l.
Proof.
  induction groups as [|[k0 l0] rest IH]; intros [Hnd Hmem] Hin.
  - by apply elem_of_nil in Hin.
  - simpl in Hnd. apply NoDup_cons in Hnd as [Hk0 Hnd].
    apply Forall_cons in Hmem as [_ Hmem]. simpl.
    apply elem_of_cons in Hin as [Heq|Hin].
    + injection Heq as -> ->.
      by rewrite (proj2 (Qeq_bool_iff k0 k0) (Qeq_refl k0)).
    + destruct (Qeq_bool k0 k) eqn:E.
      * exfalso. apply Hk0. apply Qeq_bool_iff, Qred_eq_iff in E. rewrite E.
        apply list_elem_of_fmap. exists k. split; [done|].
        apply list_elem_of_fmap. by exists (k, l).
      * by apply IH.
Qed.

Lemma sorted_keys_strict ks :
  StronglySorted (fun a b => Qle_bool a b = true) ks ->
  NoDup (Qred <$> ks) ->
  StronglySorted Qlt ks.
Proof.
  induction ks as [|k ks IH]; intros Hs Hnd; [constructor|].
  apply StronglySorted_cons in Hs as [Hk Hs]. simpl in Hnd.
  apply NoDup_cons in Hnd as [Hk' Hnd].
  apply StronglySorted_cons. split; [|by apply IH].
  apply Forall_forall. intros k' Hin.
  rewrite Forall_forall in Hk. specialize (Hk k' Hin).
  apply Qle_bool_iff, Qle_lteq in Hk as [Hlt|Heq]; [done|].
  exfalso. apply Hk'. apply Qred_eq_iff in Heq. rewrite Heq.
  apply list_elem_of_fmap. by exists k'.
Qed.

Lemma bind_pointwise_perm {B C} (f g : B -> list C) l :
  (forall x, x ∈ l -> f x ≡ₚ g x) -> l ≫= f ≡ₚ l ≫= g.
Proof.
  induction l as [|x l IH]; intros H; [done|].
  rewrite !bind_cons. rewrite (H x) by left. rewrite IH; [done|].
  intros y Hy. apply H. by right.
Qed.

Lemma StronglySorted_bind {B C} (R : relation C) (f : B -> list C) l :
  (forall x, x ∈ l -> StronglySorted R (f x)) ->
  StronglySorted (fun x y => forall a b, a ∈ f x -> b ∈ f y -> R a b) l ->
  StronglySorted R (l ≫= f).
Proof.
  induction l as [|x l IH]; intros Hin Hcross; [constructor|].
  rewrite bind_cons. apply StronglySorted_cons in Hcross as [Hx Hcross].
  apply StronglySorted_app_2.
  - intros a b Ha (y & Hb & Hy)%list_elem_of_bind.
    rewrite Forall_forall in Hx. by apply (Hx y Hy).
  - apply Hin. left.
  - apply IH; [|done]. intros y Hy. apply Hin. by right.
Qed.

Lemma StronglySorted_impl_elem {B} (R R' : relation B) l :
  StronglySorted R l ->
  (forall x y, x ∈ l -> y ∈ l -> R x y -> R' x y) ->
  StronglySorted R' l.
Proof.
  induction l as [|x l IH]; intros Hs Himp; [constructor|].
  apply StronglySorted_cons in Hs as [Hx Hs]. apply StronglySorted_cons. split.
  - apply Forall_forall. intros y Hy. rewrite Forall_forall in Hx.
    apply Himp; [left|by right|by apply Hx].
  - apply IH; [done|]. intros a b Ha Hb. apply Himp; by right.
Qed.

Lemma Qle_bool_total x y : Qle_bool x y = true \/ Qle_bool y x = true.
Proof.
  rewrite !Qle_bool_iff. destruct (Qlt_le_dec x y) as [H|H]; [left|by right].
  by apply Qlt_le_weak.
Qed.

Lemma Qle_bool_trans x y z :
  Qle_bool x y = true -> Qle_bool y z = true -> Qle_bool x z = true.
Proof. rewrite !Qle_bool_iff. apply Qle_trans. Qed.

Lemma numTx_ascending_total a b :
  numTx_ascending a b = true \/ numTx_ascending b a = true.
Proof. unfold numTx_ascending. rewrite !Z.leb_le. lia. Qed.

Lemma numTx_ascending_trans a b c :
  numTx_ascending a b = true -> numTx_ascending b c = true ->
  numTx_ascending a c = true.
Proof. unfold numTx_ascending. rewrite !Z.leb_le. lia. Qed.

Lemma numTx_descending_total a b :
  numTx_descending a b = true \/ numTx_descending b a = true.
Proof. unfold numTx_descending. rewrite !Z.leb_le. lia. Qed.

Lemma numTx_descending_trans a b c :
  numTx_descending a b = true -> numTx_descending b c = true ->
  numTx_descending a c = true.
Proof. unfold numTx_descending. rewrite !Z.leb_le. lia. Qed.

Lemma scheduleListByPDR_ok l :
  groups_ok (scheduleListByPDR l) /\ concat (scheduleListByPDR l).*2 ≡ₚ l.
Proof.
  apply (scheduleListByPDR_fold l []). split; [constructor|constructor].
Qed.

Lemma bind_fst_snd (groups : list (Q * list tscell)) :
  groups ≫= snd = concat groups.*2.
Proof. induction groups as [|g groups IH]; [done|]. rewrite bind_cons, IH. done. Qed.

Lemma bind_fmap_fst {C} (f : Q -> list C) (groups : list (Q * list tscell)) :
  groups.*1 ≫= f = groups ≫= (fun g => f g.1).
Proof.
  induction groups as [|g groups IH]; [done|].
  rewrite fmap_cons, !bind_cons, IH. done.
Qed.

(** The ordering is a rearrangement of the candidates. *)
Lemma worst_cell_order_perm theoPDR l : worst_cell_order theoPDR l ≡ₚ l.
Proof.
  destruct (scheduleListByPDR_ok l) as [Hok Hperm].
  unfold worst_cell_order. rewrite (sorted_perm Qle_bool).
  rewrite bind_fmap_fst. rewrite <- Hperm at 2. rewrite <- bind_fst_snd.
  apply bind_pointwise_perm. intros [k l0] Hin. simpl.
  rewrite (group_get_ok _ k l0 Hok Hin).
  destruct (Qlt_le_dec k theoPDR); apply sorted_perm.
Qed.

(** The ordering puts every candidate before those it is preferred to. *)
Lemma worst_cell_order_sorted theoPDR l :
  StronglySorted (worst_first theoPDR) (worst_cell_order theoPDR l).
Proof.
  destruct (scheduleListByPDR_ok l) as [Hok _].
  pose proof Hok as [Hnd Hmem].
  set (groups := scheduleListByPDR l) in *.
  assert (Hgroup : forall k, k ∈ sorted Qle_bool groups.*1 ->
            exists l0, group_get k groups = l0
                       /\ Forall (fun t => (ts_pdr t == k)%Q) l0).
  { intros k Hk. rewrite (sorted_perm Qle_bool) in Hk.
    apply list_elem_of_fmap in Hk as ([k' l0] & -> & Hin). simpl.
    exists l0. split; [by apply group_get_ok|].
    rewrite Forall_forall in Hmem. apply (Hmem _ Hin). }
  unfold worst_cell_order. fold groups. apply StronglySorted_bind.
  - intros k Hk. destruct (Hgroup k Hk) as (l0 & -> & Hl0).
    rewrite Forall_forall in Hl0.
    destruct (Qlt_le_dec k theoPDR) as [Hlt|Hge].
    + eapply StronglySorted_impl_elem;
        [apply (sorted_sorted numTx_descending);
         [apply numTx_descending_total|apply numTx_descending_trans]|].
      intros a b Ha Hb Hab. rewrite (sorted_perm numTx_descending) in Ha, Hb.
      apply Hl0 in Ha, Hb. right. split; [by rewrite Ha, Hb|].
      destruct (Qlt_le_dec (ts_pdr a) theoPDR) as [_|Hge].
      * by apply Z.leb_le.
      * exfalso. rewrite Ha in Hge. by apply (Qlt_not_le _ _ Hlt).
    + eapply StronglySorted_impl_elem;
        [apply (sorted_sorted numTx_ascending);
         [apply numTx_ascending_total|apply numTx_ascending_trans]|].
      intros a b Ha Hb Hab. rewrite (sorted_perm numTx_ascending) in Ha, Hb.
      apply Hl0 in Ha, Hb. right. split; [by rewrite Ha, Hb|].
      destruct (Qlt_le_dec (ts_pdr a) theoPDR) as [Hlt|_].
      * exfalso. rewrite Ha in Hlt. by apply (Qlt_not_le _ _ Hlt).
      * by apply Z.leb_le.
  - eapply StronglySorted_impl_elem.
    + apply sorted_keys_strict.
      * apply sorted_sorted; [apply Qle_bool_total|apply Qle_bool_trans].
      * by rewrite (sorted_perm Qle_bool).
    + intros k k' Hk Hk' Hlt a b Ha Hb.
      destruct (Hgroup k Hk) as (l0 & Hg & Hl0).
      destruct (Hgroup k' Hk') as (l0' & Hg' & Hl0').
      rewrite Forall_forall in Hl0, Hl0'. rewrite Hg in Ha. rewrite Hg' in Hb.
      assert (Ha' : a ∈ l0).
      { destruct (Qlt_le_dec k theoPDR);
          [by rewrite (sorted_perm numTx_descending) in Ha
          |by rewrite (sorted_perm numTx_ascending) in Ha]. }
      assert (Hb' : b ∈ l0').
      { destruct (Qlt_le_dec k' theoPDR);
          [by rewrite (sorted_perm numTx_descending) in Hb
          |by rewrite (sorted_perm numTx_ascending) in Hb]. }
      left. rewrite (Hl0 a Ha'), (Hl0' b Hb'). done.
Qed.

Lemma StronglySorted_lookup_lt {B} (R : relation B) l i j a b :
  StronglySorted R l -> l !! i = Some a -> l !! j = Some b -> (i < j)%nat ->
  R a b.
Proof.
  revert i j. induction l as [|x l IH]; intros i j Hs Hi Hj Hlt; [done|].
  apply StronglySorted_cons in Hs as [Hx Hs].
  destruct j as [|j]; [lia|]. simpl in Hj. destruct i as [|i]; simpl in Hi.
  - injection Hi as ->. rewrite Forall_forall in Hx. apply Hx.
    by eapply list_elem_of_lookup_2.
  - apply (IH i j); [done..|lia].
Qed.

(** C7, as stated, fails: of two fresh cells whose PDR is the theoretical
    PDR of the link (so neither is below it), the code removes the one with
    3 transmissions (timeslot 5), not the one with 7 (timeslot 9) that the
    "higher numTx" rule prefers. *)
Lemma sixtop_removeCells_counterexample :
  sixtopRemoveRandomCell (settings mote_fresh_cells) = false
  /\ getPDR mote_fresh_cells (Unicast 1) = Ok (1 # 2)%Q
  /\ removal_candidates mote_fresh_cells 1 (schedule mote_fresh_cells)
     = Ok [mkTscell 5 0 3 (1 # 2); mkTscell 9 2 7 (1 # 2)]
  /\ _sixtop_removeCells no_shuffle mote_fresh_cells 1 1 = Ok [5]
  /\ ts_of <$> take 1 (spec_worst_cell_order (1 # 2)
                         [mkTscell 5 0 3 (1 # 2); mkTscell 9 2 7 (1 # 2)])
     = [9].
Proof. repeat split. Qed.

(** C7, amended: with [sixtopRemoveRandomCell] unset, the cells named in the
    DELETE request are the first [numCellsToRemove] of the candidates (parent
    timeslots of the TX and SHARED cells to the neighbour) ordered by the
    worst-cell policy: ascending cell PDR, so that every cell below the
    theoretical link PDR stands before every cell at or above it; among cells
    of equal PDR below the theoretical PDR the higher [numTx] first, and among
    cells of equal PDR at or above it the lower [numTx] first. *)
Theorem sixtop_removeCells_worst_first shuffle m neighbor n cands theoPDR :
  sixtopRemoveRandomCell (settings m) = false ->
  removal_candidates m neighbor (schedule m) = Ok cands ->
  getPDR m (Unicast neighbor) = Ok theoPDR ->
  0 <= n <= Z.of_nat (length cands) ->
  exists order,
    order ≡ₚ cands
    /\ StronglySorted (worst_first theoPDR) order
    /\ (forall i j a b,
          order !! i = Some a -> order !! j = Some b ->
          (ts_pdr a < theoPDR)%Q -> (theoPDR <= ts_pdr b)%Q -> (i < j)%nat)
    /\ _sixtop_removeCells shuffle m neighbor n
       = Ok (ts_of <$> take (Z.to_nat n) order).
Proof.
  intros Hrandom Hcands Htheo Hn.
  exists (worst_cell_order theoPDR cands).
  pose proof (worst_cell_order_perm theoPDR cands) as Hperm.
  pose proof (worst_cell_order_sorted theoPDR cands) as Hsorted.
  split; [done|]. split; [done|]. split.
  - intros i j a b Hi Hj Ha Hb.
    destruct (Nat.lt_trichotomy i j) as [Hlt|[->|Hgt]]; [done| |].
    + rewrite Hi in Hj. injection Hj as ->.
      exfalso. by apply (Qlt_not_le _ _ Ha).
    + exfalso.
      destruct (StronglySorted_lookup_lt _ _ _ _ _ _ Hsorted Hj Hi Hgt)
        as [Hlt|[Heq _]].
      * apply (Qlt_not_le _ _ Ha). apply Qlt_le_weak.
        by apply (Qle_lt_trans _ (ts_pdr b)).
      * rewrite <- Heq in Ha. by apply (Qlt_not_le _ _ Ha).
  - unfold _sixtop_removeCells. rewrite Hcands, Hrandom, Htheo.
    unfold mbind, outcome_bind. cbv beta iota.
    destruct (n <? 0) eqn:E; [apply Z.ltb_lt in E; lia|].
    rewrite decide_True; [done|].
    rewrite length_fmap, length_take, (Permutation_length Hperm). lia.
Qed.

Lemma sixtop_removeCells_worst_first_witness :
  sixtopRemoveRandomCell (settings mote_three_cells) = false
  /\ removal_candidates mote_three_cells 1 (schedule mote_three_cells)
     = Ok [mkTscell 5 0 3 (1 # 2); mkTscell 9 2 7 (1 # 2);
           mkTscell 12 5 20 (5 # 20); mkTscell 14 10 40 (10 # 40)]
  /\ getPDR mote_three_cells (Unicast 1) = Ok (1 # 2)%Q
  /\ 0 <= 3 <= Z.of_nat 4
  /\ exists order,
       StronglySorted (worst_first (1 # 2)) order
       /\ _sixtop_removeCells no_shuffle mote_three_cells 1 3
          = Ok (ts_of <$> take 3 order).
Proof.
  split; [reflexivity|]. split; [reflexivity|]. split; [reflexivity|].
  split; [lia|].
  destruct (sixtop_removeCells_worst_first no_shuffle mote_three_cells 1 3
              [mkTscell 5 0 3 (1 # 2); mkTscell 9 2 7 (1 # 2);
               mkTscell 12 5 20 (5 # 20); mkTscell 14 10 40 (10 # 40)] (1 # 2)%Q)
    as (order & _ & Hsorted & _ & Hrun);
    [reflexivity|reflexivity|reflexivity|simpl; lia|].
  exists order. split; [exact Hsorted|exact Hrun].
Defined.

(** On that mote the two cells of PDR 1/4 go first, the busier one ahead,
    then the fresh cell with fewer transmissions. *)
Example sixtop_removeCells_three :
  _sixtop_removeCells no_shuffle mote_three_cells 1 3 = Ok [14; 12; 5].
Proof. reflexivity. Qed.

(** ** A NACKed transmission in the cell statistics *)

Lemma lookup_update_cell ts f sched :
  lookup_cell ts (update_cell ts f sched) = f <$> lookup_cell ts sched.
Proof.
  induction sched as [|[ts' c] rest IH]; simpl; [done|].
  destruct (decide (ts' = ts)) as [->|Hne]; simpl.
  - by rewrite decide_True.
  - by rewrite decide_False.
Qed.

Ltac outcome_inv H :=
  unfold mbind, outcome_bind, or_raise, getitem in H;
  repeat (case_match; try discriminate);
  simplify_eq.

Lemma txDone_retry_links i0 pkt m m' :
  txDone_retry i0 pkt m = Ok m' -> schedule m' = schedule m /\ PDR m' = PDR m.
Proof.
  unfold txDone_retry, update_rx, dst_id, tx_of. intros H.
  outcome_inv H; done.
Qed.

Lemma txDone_resetBackoff_links d p m :
  schedule (txDone_resetBackoff d p m) = schedule m
  /\ PDR (txDone_resetBackoff d p m) = PDR m.
Proof.
  unfold txDone_resetBackoff. repeat case_match; done.
Qed.

Lemma observed_after_txAck n ts sched cell :
  lookup_cell ts sched = Some cell ->
  is_tx_or_shared_to n cell = true ->
  Zsum (cell_numTxAck
        <$> filter (fun c => is_tx_or_shared_to n c)
              (update_cell ts cell_txAck sched).*2)
  = Zsum (cell_numTxAck <$> filter (fun c => is_tx_or_shared_to n c) sched.*2) + 1
  /\ Zsum (cell_numTx
           <$> filter (fun c => is_tx_or_shared_to n c)
                 (update_cell ts cell_txAck sched).*2)
     = Zsum (cell_numTx <$> filter (fun c => is_tx_or_shared_to n c) sched.*2).
Proof.
  intros Hcell Hto. induction sched as [|[ts' c] rest IH]; [done|].
  simpl in Hcell. simpl update_cell.
  destruct (decide (ts' = ts)) as [->|Hne].
  - injection Hcell as ->. rewrite !fmap_cons. simpl fst. simpl snd.
    rewrite !filter_cons.
    change (is_tx_or_shared_to n (cell_txAck cell))
      with (is_tx_or_shared_to n cell).
    rewrite Hto. rewrite !decide_True by done. rewrite !fmap_cons.
    unfold Zsum. simpl foldr. split; [|done].
    rewrite <- !Z.add_assoc. f_equal. apply Z.add_comm.
  - destruct (IH Hcell) as [IH1 IH2]. rewrite !fmap_cons. simpl snd.
    rewrite !filter_cons.
    destruct (decide (is_tx_or_shared_to n c)); [|done].
    rewrite !fmap_cons. unfold Zsum in *. simpl foldr. rewrite IH1, IH2.
    split; [|done]. apply Z.add_assoc.
Qed.

(** C9: a NACKed unicast transmission is booked in the cell like an ACKed
    one.  When [radio_txDone] returns from a NACK, the cell of the slot has
    one more [numTxAck] and a success entry [1] at the end of its history,
    which is also what an ACK of a packet other than a 6P response leaves in
    the schedule; from [NUM_SUFFICIENT_TX] transmissions on the cell PDR is
    [(numTxAck + 1) / numTx], and the acknowledged total of the ETX estimate
    towards the cell's neighbour grows by one. *)
Theorem radio_txDone_NACK_counts_as_ACK randint response_ack asn m m' cell :
  lookup_cell (asn `mod` slotframeLength (settings m)) (schedule m) = Some cell ->
  radio_txDone randint response_ack asn false true m = Ok m' ->
  let ts := asn `mod` slotframeLength (settings m) in
  schedule m' = update_cell ts cell_txAck (schedule m)
  /\ (exists cell',
        lookup_cell ts (schedule m') = Some cell'
        /\ cell_numTxAck cell' = cell_numTxAck cell + 1
        /\ cell_history cell' = cell_history cell ++ [1]
        /\ cell_numTx cell' = cell_numTx cell
        /\ (NUM_SUFFICIENT_TX <= cell_numTx cell ->
            getCellPDR m' cell'
            = Ok (inject_Z (cell_numTxAck cell + 1) / inject_Z (cell_numTx cell))%Q))
  /\ (forall i0 pkt mA,
        pktToSend m = Some i0 -> txQueue m !! i0 = Some pkt ->
        pkt_type pkt <> IANA_6TOP_TYPE_RESPONSE ->
        radio_txDone randint response_ack asn true false m = Ok mA ->
        schedule mA = schedule m')
  /\ (forall n pdr,
        cell_neighbor cell = Unicast n -> PDR m !! n = Some pdr ->
        observedTxAck m' n = observedTxAck m n + 1
        /\ observedTx m' n = observedTx m n
        /\ _estimateETX m' n
           = Ok (let numTx := NUM_SUFFICIENT_TX + observedTx m n in
                 let numTxAck := Qfloor (pdr * inject_Z NUM_SUFFICIENT_TX)
                                 + (observedTxAck m n + 1) in
                 if numTxAck =? 0 then None
                 else Some (inject_Z numTx / inject_Z numTxAck)%Q)).
Proof.
  intros Hcell Hrun ts. subst ts.
  set (ts := asn `mod` slotframeLength (settings m)) in *.
  assert (Hnack : schedule m' = update_cell ts cell_txAck (schedule m)
                  /\ PDR m' = PDR m
                  /\ (cell_dir cell = DIR_TX \/ cell_dir cell = DIR_TXRX_SHARED)).
  { unfold radio_txDone in Hrun. fold ts in Hrun.
    destruct (decide (slotframeLength (settings m) = 0)); [discriminate|].
    rewrite Hcell in Hrun. simpl in Hrun.
    destruct (bool_decide (cell_dir cell = DIR_TX)
              || bool_decide (cell_dir cell = DIR_TXRX_SHARED)) eqn:Hdir;
      simpl in Hrun; [|discriminate].
    destruct (bool_decide (waitingFor m = Some DIR_TX)); simpl in Hrun;
      [|discriminate].
    destruct (pktToSend m) as [i0|]; simpl in Hrun; [|discriminate].
    destruct (txQueue m !! i0) as [pkt|]; simpl in Hrun; [|discriminate].
    match type of Hrun with
    | context [nack_log_argument ?p ?x] =>
      destruct (if bool_decide (pkt_type pkt = APP_TYPE_DATA)
                   || bool_decide (pkt_type pkt = IANA_6TOP_TYPE_RESPONSE)
                then nack_log_argument p x else Ok 0); simpl in Hrun;
        [|discriminate]
    end.
    match type of Hrun with
    | context [txDone_retry ?i ?p ?x] =>
      destruct (txDone_retry i p x) as [m1|] eqn:Hretry; simpl in Hrun;
        [|discriminate]
    end.
    injection Hrun as <-. simpl.
    destruct (txDone_resetBackoff_links (cell_dir cell) (cell_neighbor cell) m1)
      as [-> ->].
    apply txDone_retry_links in Hretry as [-> ->].
    split; [|split].
    - by destruct (peer_is _ _).
    - by destruct (peer_is _ _).
    - apply orb_true_iff in Hdir as [H|H]; apply bool_decide_eq_true in H; auto. }
  destruct Hnack as (Hsched & Hpdr & Hdir).
  split; [done|]. split; [|split].
  - exists (cell_txAck cell). rewrite Hsched, lookup_update_cell, Hcell.
    repeat split. intros Hmany. unfold getCellPDR. simpl.
    destruct (cell_numTx cell <? NUM_SUFFICIENT_TX) eqn:E; [|done].
    apply Z.ltb_lt in E. lia.
  - intros i0 pkt mA Hi0 Hpkt Htype HrunA. rewrite Hsched.
    unfold radio_txDone in HrunA. fold ts in HrunA.
    destruct (decide (slotframeLength (settings m) = 0)); [discriminate|].
    rewrite Hcell, Hi0 in HrunA.
    unfold mbind, outcome_bind, or_raise in HrunA. cbv beta iota in HrunA.
    rewrite Hpkt in HrunA.
    destruct (negb _); [discriminate|].
    destruct (negb _); [discriminate|].
    destruct (decide (pkt_type pkt = IANA_6TOP_TYPE_RESPONSE)); [contradiction|].
    unfold txDone_armTimer, dst_id, tx_of in HrunA.
    pose proof txDone_resetBackoff_links as Hreset.
    outcome_inv HrunA; simpl;
      match goal with
      | |- context [txDone_resetBackoff ?d ?p ?x] =>
        destruct (Hreset d p x) as [-> _]
      end; done.
  - intros n pdr Hn Hlink.
    assert (Hto : is_tx_or_shared_to n cell = true).
    { unfold is_tx_or_shared_to. apply orb_true_iff.
      destruct Hdir as [Hd|Hd]; [left|right]; by apply bool_decide_eq_true. }
    destruct (observed_after_txAck n ts (schedule m) cell Hcell Hto) as [Hack Htx].
    assert (HA : observedTxAck m' n = observedTxAck m n + 1).
    { unfold observedTxAck, txCellsTo. by rewrite Hsched. }
    assert (HT : observedTx m' n = observedTx m n).
    { unfold observedTx, txCellsTo. by rewrite Hsched. }
    split; [done|]. split; [done|].
    unfold _estimateETX, getPDR. rewrite Hpdr, Hlink. simpl.
    rewrite etx_fold. simpl.
    fold (txCellsTo m' n). fold (observedTx m' n). fold (observedTxAck m' n).
    rewrite HA, HT. destruct (_ =? 0); reflexivity.
Qed.

Lemma radio_txDone_NACK_counts_as_ACK_witness :
  lookup_cell (510 `mod` slotframeLength (settings mote_sending))
              (schedule mote_sending)
  = Some (mkCell 0 DIR_TX (Unicast 1) 12 6 [] (Some 5))
  /\ exists m',
       radio_txDone no_randint no_response_ack 510 false true mote_sending = Ok m'
       /\ schedule m' = [(5, mkCell 0 DIR_TX (Unicast 1) 12 7 [1] (Some 5))]
       /\ getCellPDR m' (mkCell 0 DIR_TX (Unicast 1) 12 7 [1] (Some 5))
          = Ok (7 # 12)%Q.
Proof.
  assert (Hcell : lookup_cell (510 `mod` slotframeLength (settings mote_sending))
                    (schedule mote_sending)
                  = Some (mkCell 0 DIR_TX (Unicast 1) 12 6 [] (Some 5)))
    by reflexivity.
  split; [exact Hcell|].
  assert (Hr : exists m', radio_txDone no_randint no_response_ack 510 false true
                            mote_sending = Ok m')
    by (eexists; vm_compute; reflexivity).
  destruct Hr as [m' Hr]. exists m'. split; [exact Hr|].
  destruct (radio_txDone_NACK_counts_as_ACK no_randint no_response_ack 510
              mote_sending m' _ Hcell Hr) as (Hsched & _).
  split; [rewrite Hsched; reflexivity|reflexivity].
Defined.

(** The same slot with an ACK leaves the same schedule; only the packet
    leaves the queue. *)
Example radio_txDone_ACK_same_cell :
  exists mN mA,
    radio_txDone no_randint no_response_ack 510 false true mote_sending = Ok mN
    /\ radio_txDone no_randint no_response_ack 510 true false mote_sending = Ok mA
    /\ schedule mN = schedule mA
    /\ pkt_retriesLeft <$> txQueue mN = [3] /\ txQueue mA = [].
Proof. do 2 eexists. repeat split; vm_compute; reflexivity. Qed.

(** * Further properties *)

(** ** The next active cell *)

Lemma tsDiff_of_range L tsCurrent ts :
  0 <= tsCurrent < L -> 0 <= ts < L -> 0 < tsDiff_of L tsCurrent ts <= L.
Proof. unfold tsDiff_of. intros. repeat case_decide; lia. Qed.

Lemma tsDiff_of_mod L asn ts :
  0 < L -> 0 <= ts < L ->
  (asn + tsDiff_of L (asn `mod` L) ts) `mod` L = ts.
Proof.
  intros HL Hts. pose proof (Z.mod_pos_bound asn L HL) as Hc.
  rewrite (Z.div_mod asn L) at 1 by lia. unfold tsDiff_of.
  repeat case_decide.
  - subst ts. replace (L * (asn `div` L) + asn `mod` L + L)
      with (asn `mod` L + (asn `div` L + 1) * L) by lia.
    rewrite Z.mod_add by lia. apply Z.mod_small. lia.
  - replace (L * (asn `div` L) + asn `mod` L + (ts - asn `mod` L))
      with (ts + (asn `div` L) * L) by lia.
    rewrite Z.mod_add by lia. apply Z.mod_small. lia.
  - replace (L * (asn `div` L) + asn `mod` L + (ts + L - asn `mod` L))
      with (ts + (asn `div` L + 1) * L) by lia.
    rewrite Z.mod_add by lia. apply Z.mod_small. lia.
Qed.

(** Any positive distance below a slotframe that leads to timeslot [ts] is
    the distance computed for [ts]. *)
Lemma tsDiff_of_least L asn ts d :
  0 < L -> 0 < d < L -> (asn + d) `mod` L = ts ->
  tsDiff_of L (asn `mod` L) ts = d.
Proof.
  intros HL Hd Hmod. pose proof (Z.mod_pos_bound asn L HL) as Hc.
  assert (Hts : ts = (asn `mod` L + d) `mod` L).
  { rewrite <- Hmod. rewrite (Z.div_mod asn L) at 1 by lia.
    replace (L * (asn `div` L) + asn `mod` L + d)
      with (asn `mod` L + d + (asn `div` L) * L) by lia.
    by rewrite Z.mod_add by lia. }
  destruct (decide (asn `mod` L + d < L)) as [Hlt|Hge].
  - rewrite Z.mod_small in Hts by lia. unfold tsDiff_of.
    repeat case_decide; lia.
  - replace (asn `mod` L + d) with ((asn `mod` L + d - L) + 1 * L) in Hts by lia.
    rewrite Z.mod_add in Hts by lia. rewrite Z.mod_small in Hts by lia.
    unfold tsDiff_of. repeat case_decide; lia.
Qed.

(** The loop keeps the least distance seen so far. *)
Lemma activeCell_fold L tsCurrent sched acc :
  0 <= tsCurrent < L ->
  Forall (fun ts => 0 <= ts < L) sched.*1 ->
  match acc with Some d => 0 < d | None => sched <> [] end ->
  exists d,
    foldl (activeCell_step L tsCurrent) acc sched = Some d
    /\ (acc = Some d \/ exists ts, ts ∈ sched.*1 /\ d = tsDiff_of L tsCurrent ts)
    /\ (forall d', acc = Some d' -> d <= d')
    /\ (forall ts, ts ∈ sched.*1 -> d <= tsDiff_of L tsCurrent ts).
Proof.
  intros Hc. revert acc. induction sched as [|[ts c] rest IH]; intros acc Hin Hacc.
  - destruct acc as [d|]; [|done]. exists d. simpl. split; [done|].
    split; [by left|]. split; [intros ? [= <-]; lia|].
    intros ts Hts. by apply elem_of_nil in Hts.
  - simpl in Hin. apply Forall_cons in Hin as [Hts Hin]. simpl in Hts.
    pose proof (tsDiff_of_range L tsCurrent ts Hc Hts) as Hd.
    simpl foldl.
    destruct (IH (activeCell_step L tsCurrent acc (ts, c)) Hin)
      as (d & Hfold & Hfrom & Hle & Hmin).
    { unfold activeCell_step. simpl. destruct acc as [d0|]; [|lia].
      repeat case_decide; lia. }
    exists d. split; [done|]. split; [|split].
    + destruct Hfrom as [Hstep|(ts' & Hts' & ->)].
      * unfold activeCell_step in Hstep. simpl in Hstep.
        destruct acc as [d0|]; [repeat case_decide|]; simplify_eq;
          first [by left | right; exists ts; split; [left|done]].
      * right. exists ts'. split; [by right|done].
    + intros d' ->. unfold activeCell_step in Hle. simpl in Hle.
      repeat case_decide; pose proof (Hle _ eq_refl); lia.
    + intros ts' [->|Hts']%elem_of_cons; [|by apply Hmin].
      unfold activeCell_step in Hle. simpl in Hle.
      destruct acc as [d0|]; simpl in Hacc; [repeat case_decide|];
        pose proof (Hle _ eq_refl); simpl; lia.
Qed.

(** X1: with a non-empty schedule whose timeslots lie in the slotframe, the
    active-cell event is scheduled at the first ASN after the current one
    whose timeslot is in the schedule: it is in the future, at most one
    slotframe ahead (exactly one when only the current timeslot is
    scheduled), and no scheduled timeslot is skipped. *)
Theorem tsch_schedule_activeCell_next asn m :
  0 < slotframeLength (settings m) ->
  Forall (fun ts => 0 <= ts < slotframeLength (settings m)) (schedule m).*1 ->
  schedule m <> [] ->
  exists a,
    _tsch_schedule_activeCell asn m = Ok (Some a)
    /\ asn < a <= asn + slotframeLength (settings m)
    /\ a `mod` slotframeLength (settings m) ∈ (schedule m).*1
    /\ (forall b, asn < b < a ->
          b `mod` slotframeLength (settings m) ∉ (schedule m).*1).
Proof.
  intros HL Hin Hne. set (L := slotframeLength (settings m)) in *.
  pose proof (Z.mod_pos_bound asn L HL) as Hc.
  destruct (activeCell_fold L (asn `mod` L) (schedule m) None Hc Hin Hne)
    as (d & Hfold & Hfrom & _ & Hmin).
  destruct Hfrom as [?|(ts0 & Hts0 & Hd)]; [done|].
  assert (Hr0 : 0 <= ts0 < L).
  { rewrite Forall_forall in Hin. by apply Hin. }
  pose proof (tsDiff_of_range L (asn `mod` L) ts0 Hc Hr0) as Hrange.
  exists (asn + d). split; [|split; [|split]].
  - unfold _tsch_schedule_activeCell. fold L.
    destruct (decide (L = 0)); [lia|].
    destruct (schedule m) as [|e rest] eqn:E; [done|]. by rewrite Hfold.
  - lia.
  - rewrite Hd, tsDiff_of_mod by lia. done.
  - intros b Hb Hsched.
    assert (Hrb : 0 <= b `mod` L < L) by (apply Z.mod_pos_bound; lia).
    pose proof (tsDiff_of_least L asn (b `mod` L) (b - asn) HL) as Hleast.
    replace (asn + (b - asn)) with b in Hleast by lia.
    specialize (Hleast ltac:(lia) eq_refl).
    specialize (Hmin _ Hsched). lia.
Qed.

Lemma tsch_schedule_activeCell_next_witness :
  0 < slotframeLength (settings mote_two_cells)
  /\ Forall (fun ts => 0 <= ts < slotframeLength (settings mote_two_cells))
            (schedule mote_two_cells).*1
  /\ schedule mote_two_cells <> []
  /\ _tsch_schedule_activeCell 510 mote_two_cells = Ok (Some 514)
  /\ _tsch_schedule_activeCell 516 mote_two_cells = Ok (Some 611).
Proof.
  assert (H1 : 0 < slotframeLength (settings mote_two_cells)) by reflexivity.
  assert (H2 : Forall (fun ts => 0 <= ts < slotframeLength (settings mote_two_cells))
                      (schedule mote_two_cells).*1).
  { repeat constructor; discriminate. }
  assert (H3 : schedule mote_two_cells <> []) by discriminate.
  split; [exact H1|]. split; [exact H2|]. split; [exact H3|].
  destruct (tsch_schedule_activeCell_next 510 mote_two_cells H1 H2 H3)
    as (a & Hrun & _).
  split; [|reflexivity].
  rewrite Hrun. vm_compute in Hrun. exact (eq_sym Hrun).
Defined.

(** ** Adding and removing cells *)

Lemma in_schedule_spec ts sched : in_schedule ts sched = true <-> ts ∈ sched.*1.
Proof. unfold in_schedule. apply bool_decide_eq_true. Qed.

Lemma tsch_addCells_cases neighbor cellList parentTs sched :
  (NoDup cellList.*1.*1 /\ Forall (fun ts => ts ∉ sched.*1) cellList.*1.*1 ->
   _tsch_addCells neighbor cellList parentTs sched
   = Ok (sched ++ (new_cell neighbor parentTs <$> cellList))
   /\ (NoDup sched.*1 ->
       NoDup (sched ++ (new_cell neighbor parentTs <$> cellList)).*1))
  /\ (~ (NoDup cellList.*1.*1
         /\ Forall (fun ts => ts ∉ sched.*1) cellList.*1.*1) ->
      _tsch_addCells neighbor cellList parentTs sched = Raise AssertionError).
Proof.
  revert sched. induction cellList as [|[[ts ch] d] rest IH]; intros sched.
  - simpl. split.
    + intros _. rewrite (right_id_L [] (++)). done.
    + intros H. exfalso. apply H. split; constructor.
  - simpl. destruct (in_schedule ts sched) eqn:E.
    + apply in_schedule_spec in E. split; [|done].
      intros [_ Hfresh]. apply Forall_cons in Hfresh as [Hts _]. contradiction.
    + assert (Hts : ts ∉ sched.*1).
      { intros H. apply in_schedule_spec in H. congruence. }
      set (c := mkCell ch d neighbor 0 0 [] parentTs).
      assert (Hiff : NoDup (ts :: rest.*1.*1)
                     /\ Forall (fun ts' => ts' ∉ sched.*1) (ts :: rest.*1.*1)
                     <-> NoDup rest.*1.*1
                         /\ Forall (fun ts' => ts' ∉ (sched ++ [(ts, c)]).*1)
                                   rest.*1.*1).
      { rewrite NoDup_cons, Forall_cons, !Forall_forall. split.
        - intros [[Hn Hnd] [_ Hf]]. split; [done|]. intros ts' Hin.
          rewrite fmap_app, elem_of_app. simpl. rewrite list_elem_of_singleton.
          intros [?| ->]; [by apply (Hf ts')|contradiction].
        - intros [Hnd Hf]. split; [split; [|done]|split; [done|]].
          + intros Hin. apply (Hf ts Hin). rewrite fmap_app, elem_of_app.
            right. simpl. by apply list_elem_of_singleton.
          + intros ts' Hin Hs. apply (Hf ts' Hin). rewrite fmap_app, elem_of_app.
            by left. }
      destruct (IH (sched ++ [(ts, c)])) as [IHok IHfail].
      rewrite <- (assoc_L (++)) in IHok. simpl in IHok. split.
      * intros H. apply Hiff in H. destruct (IHok H) as [Hrun Hnd].
        split; [exact Hrun|]. intros Hs. apply Hnd.
        rewrite fmap_app. apply NoDup_app. split; [done|]. split.
        -- intros ts' Hin Hin'. simpl in Hin'.
           apply list_elem_of_singleton in Hin'. by subst.
        -- simpl. apply NoDup_singleton.
      * intros H. apply IHfail. intros H'. apply H. by apply Hiff.
Qed.

(** X2: [_tsch_addCells] returns exactly when the timeslots to add are
    pairwise distinct and none of them is scheduled; the schedule then gains
    one fresh cell (zero counters, empty history) per entry, after the cells
    it had, and its timeslots stay pairwise distinct.  In every other case
    the assertion fails. *)
Theorem tsch_addCells_fresh neighbor cellList parentTs sched :
  ((exists sched', _tsch_addCells neighbor cellList parentTs sched = Ok sched')
   <-> NoDup cellList.*1.*1 /\ Forall (fun ts => ts ∉ sched.*1) cellList.*1.*1)
  /\ (forall sched',
        _tsch_addCells neighbor cellList parentTs sched = Ok sched' ->
        sched' = sched ++ (new_cell neighbor parentTs <$> cellList)
        /\ length sched' = (length sched + length cellList)%nat
        /\ (NoDup sched.*1 -> NoDup sched'.*1))
  /\ (forall e, _tsch_addCells neighbor cellList parentTs sched = Raise e ->
                e = AssertionError).
Proof.
  destruct (tsch_addCells_cases neighbor cellList parentTs sched) as [Hok Hfail].
  destruct (decide (NoDup cellList.*1.*1
                    /\ Forall (fun ts => ts ∉ sched.*1) cellList.*1.*1))
    as [Hfresh|Hno].
  - destruct (Hok Hfresh) as [Hrun Hnd]. rewrite Hrun.
    split; [split; [done|by eexists]|]. split; [|done].
    intros sched' [= <-]. split; [done|]. split; [|done].
    by rewrite length_app, length_fmap.
  - rewrite (Hfail Hno). split; [split; [by intros [? ?]|done]|].
    split; [done|]. by intros e [= <-].
Qed.

Lemma lookup_cell_app_fresh ts sched rest c :
  ts ∉ sched.*1 -> lookup_cell ts (sched ++ (ts, c) :: rest) = Some c.
Proof.
  induction sched as [|[ts' c'] sched IH]; simpl; intros Hts.
  - by rewrite decide_True.
  - rewrite decide_False; [apply IH|]; intros ?; apply Hts; [by right|].
    subst. left.
Qed.

Lemma pop_cell_app_fresh ts sched rest c :
  ts ∉ sched.*1 -> pop_cell ts (sched ++ (ts, c) :: rest) = sched ++ rest.
Proof.
  induction sched as [|[ts' c'] sched IH]; simpl; intros Hts.
  - by rewrite decide_True.
  - rewrite decide_False; [by rewrite IH; [|intros ?; apply Hts; right]|].
    intros ->. apply Hts. left.
Qed.

(** X3: removing the timeslots that [_tsch_addCells] has just added, for the
    same neighbour, gives back the schedule as it was. *)
Theorem tsch_add_then_remove neighbor cellList parentTs sched sched' :
  _tsch_addCells neighbor cellList parentTs sched = Ok sched' ->
  _tsch_removeCells neighbor cellList.*1.*1 sched' = Ok sched.
Proof.
  intros Hadd.
  destruct (tsch_addCells_cases neighbor cellList parentTs sched)
    as [Hok Hfail].
  destruct (decide (NoDup cellList.*1.*1
                    /\ Forall (fun ts => ts ∉ sched.*1) cellList.*1.*1))
    as [Hfresh|Hno]; [|rewrite (Hfail Hno) in Hadd; discriminate].
  destruct (Hok Hfresh) as [Hrun _]. rewrite Hrun in Hadd.
  injection Hadd as <-. clear Hok Hfail Hrun.
  destruct Hfresh as [Hnd Hf].
  induction cellList as [|[[ts ch] d] rest IH]; simpl.
  - by rewrite (right_id_L [] (++)).
  - simpl in Hnd, Hf. apply NoDup_cons in Hnd as [_ Hnd].
    apply Forall_cons in Hf as [Hts Hf].
    change (new_cell neighbor parentTs (ts, ch, d))
      with (ts, mkCell ch d neighbor 0 0 [] parentTs).
    rewrite lookup_cell_app_fresh by done.
    rewrite decide_True by done. rewrite pop_cell_app_fresh by done.
    by apply IH.
Qed.

Lemma tsch_add_then_remove_witness :
  _tsch_addCells (Unicast 1) [(20, 3, DIR_TXRX_SHARED); (31, 5, DIR_TXRX_SHARED)]
                 None (schedule mote_two_cells)
  = Ok (schedule mote_two_cells
        ++ [(20, mkCell 3 DIR_TXRX_SHARED (Unicast 1) 0 0 [] None);
            (31, mkCell 5 DIR_TXRX_SHARED (Unicast 1) 0 0 [] None)])
  /\ _tsch_removeCells (Unicast 1) [20; 31]
       (schedule mote_two_cells
        ++ [(20, mkCell 3 DIR_TXRX_SHARED (Unicast 1) 0 0 [] None);
            (31, mkCell 5 DIR_TXRX_SHARED (Unicast 1) 0 0 [] None)])
     = Ok (schedule mote_two_cells).
Proof.
  split; [reflexivity|].
  apply (tsch_add_then_remove (Unicast 1)
           [(20, 3, DIR_TXRX_SHARED); (31, 5, DIR_TXRX_SHARED)] None).
  reflexivity.
Defined.

Lemma lookup_cell_None ts sched : lookup_cell ts sched = None <-> ts ∉ sched.*1.
Proof.
  induction sched as [|[ts' c] rest IH]; simpl.
  - split; [intros _; apply not_elem_of_nil|done].
  - destruct (decide (ts' = ts)) as [->|E].
    + split; [done|]. intros H. exfalso. apply H. left.
    + rewrite IH, not_elem_of_cons. split; [|by intros [_ ?]].
      intros ?. split; [congruence|done].
Qed.

Lemma pop_cell_keys ts ts' sched :
  ts' ∈ (pop_cell ts sched).*1 -> ts' ∈ sched.*1.
Proof.
  induction sched as [|[ts0 c] rest IH]; simpl; [done|].
  destruct (decide (ts0 = ts)) as [->|Hne]; simpl.
  - intros Hin. by right.
  - intros [->|Hin]%elem_of_cons; [left|right; by apply IH].
Qed.

Lemma pop_cell_NoDup ts sched : NoDup sched.*1 -> NoDup (pop_cell ts sched).*1.
Proof.
  induction sched as [|[ts0 c] rest IH]; simpl; [done|].
  intros [Hts0 Hnd]%NoDup_cons.
  destruct (decide (ts0 = ts)) as [->|Hne]; simpl; [done|].
  apply NoDup_cons. split; [|by apply IH].
  intros Hin. by apply Hts0, (pop_cell_keys ts).
Qed.

Lemma lookup_cell_pop ts ts' sched :
  NoDup sched.*1 ->
  lookup_cell ts' (pop_cell ts sched)
  = if decide (ts' = ts) then None else lookup_cell ts' sched.
Proof.
  induction sched as [|[ts0 c] rest IH]; simpl.
  - intros _. by case_decide.
  - intros [Hts0 Hnd]%NoDup_cons. destruct (decide (ts0 = ts)) as [->|Hne].
    + destruct (decide (ts' = ts)) as [->|Hne'].
      * by apply lookup_cell_None.
      * by rewrite decide_False by done.
    + simpl. destruct (decide (ts0 = ts')) as [->|Hne'].
      * by rewrite decide_False by done.
      * by apply IH.
Qed.

Lemma pop_cell_length ts sched c :
  lookup_cell ts sched = Some c -> S (length (pop_cell ts sched)) = length sched.
Proof.
  induction sched as [|[ts0 c0] rest IH]; simpl; [done|].
  destruct (decide (ts0 = ts)) as [->|Hne]; simpl; [done|].
  intros Hc. f_equal. by apply IH.
Qed.

(** X4: when [_tsch_removeCells] returns, every timeslot of the list was
    scheduled with the given neighbour and named once; exactly these
    timeslots left the schedule and every other cell is as before.  It never
    removes a cell of another neighbour. *)
Theorem tsch_removeCells_only_own neighbor tsList sched sched' :
  NoDup sched.*1 ->
  _tsch_removeCells neighbor tsList sched = Ok sched' ->
  (forall ts, ts ∈ tsList ->
     exists c, lookup_cell ts sched = Some c /\ cell_neighbor c = neighbor)
  /\ NoDup tsList
  /\ (forall ts, lookup_cell ts sched'
                 = if decide (ts ∈ tsList) then None else lookup_cell ts sched)
  /\ (length sched' + length tsList = length sched)%nat
  /\ NoDup sched'.*1.
Proof.
  revert sched. induction tsList as [|ts rest IH]; intros sched Hnd Hrun.
  - simpl in Hrun. injection Hrun as <-. split; [|split; [|split; [|split]]].
    + intros ts Hin. by apply elem_of_nil in Hin.
    + constructor.
    + intros ts. rewrite decide_False; [done|apply not_elem_of_nil].
    + simpl. lia.
    + done.
  - simpl in Hrun. destruct (lookup_cell ts sched) as [c|] eqn:Ec; [|done].
    destruct (decide (cell_neighbor c = neighbor)) as [Hn|]; [|done].
    destruct (IH _ (pop_cell_NoDup ts sched Hnd) Hrun)
      as (Hown & Hnd' & Hlook & Hlen & Hnd'').
    split; [|split; [|split; [|split]]].
    + intros ts' [->|Hin]%elem_of_cons; [by exists c|].
      destruct (Hown ts' Hin) as (c' & Hc' & Hn').
      rewrite lookup_cell_pop in Hc' by done.
      case_decide; [done|]. by exists c'.
    + apply NoDup_cons. split; [|done]. intros Hin.
      destruct (Hown ts Hin) as (c' & Hc' & _).
      rewrite lookup_cell_pop in Hc' by done. by rewrite decide_True in Hc'.
    + intros ts'. rewrite Hlook, lookup_cell_pop by done.
      destruct (decide (ts' = ts)) as [->|Hne].
      * rewrite (decide_True (P := ts ∈ ts :: rest)) by left. by case_decide.
      * destruct (decide (ts' ∈ rest)) as [Hin|Hin].
        -- rewrite decide_True; [done|by right].
        -- rewrite decide_False; [done|].
           intros [?|?]%elem_of_cons; contradiction.
    + simpl. pose proof (pop_cell_length ts sched c Ec). lia.
    + done.
Qed.

Lemma tsch_removeCells_only_own_witness :
  NoDup (schedule mote_two_cells).*1
  /\ exists sched',
       _tsch_removeCells (Unicast 1) [9; 5] (schedule mote_two_cells) = Ok sched'
       /\ sched'.*1 = [11]
       /\ lookup_cell 11 sched' = lookup_cell 11 (schedule mote_two_cells).
Proof.
  assert (Hnd : NoDup (schedule mote_two_cells).*1).
  { apply (bool_decide_unpack _). vm_compute. exact I. }
  split; [exact Hnd|].
  eexists. split; [reflexivity|]. split; [reflexivity|].
  destruct (tsch_removeCells_only_own (Unicast 1) [9; 5]
              (schedule mote_two_cells) _ Hnd eq_refl) as (_ & _ & Hlook & _).
  rewrite Hlook. rewrite decide_False; [done|].
  intros H. apply (bool_decide_pack _) in H. vm_compute in H. exact H.
Defined.

(** Removing a cell of another neighbour, or one that is not scheduled,
    fails the assertion. *)
Example tsch_removeCells_foreign :
  _tsch_removeCells (Unicast 1) [11] (schedule mote_two_cells)
  = Raise AssertionError
  /\ _tsch_removeCells (Unicast 1) [5; 5] (schedule mote_two_cells)
     = Raise AssertionError.
Proof. split; reflexivity. Qed.

(** ** Enqueueing *)

Lemma rpl_addNextHop_frame m packet b packet' :
  _rpl_addNextHop m packet = Ok (b, packet') ->
  pkt_asn packet' = pkt_asn packet
  /\ pkt_type packet' = pkt_type packet
  /\ pkt_code packet' = pkt_code packet
  /\ pkt_payload packet' = pkt_payload packet
  /\ pkt_cells packet' = pkt_cells packet
  /\ pkt_retriesLeft packet' = pkt_retriesLeft packet
  /\ pkt_dstIp packet' = pkt_dstIp packet
  /\ (b = true -> exists hops, pkt_nextHop packet' = Some hops /\ hops <> []).
Proof.
  unfold _rpl_addNextHop. intros H.
  destruct (decide (pkt_dstIp packet = AddrMote (id m))); [discriminate|].
  destruct (negb _); [by simplify_eq|].
  assert (Htruthy : forall nh : option (list (option nat)),
            match nh with Some l => truthy l | None => false end = true ->
            exists hops, nh = Some hops /\ hops <> []).
  { intros [[|h l]|]; try done. intros _. by eexists. }
  repeat case_match; simplify_eq; simpl; repeat split;
    first [ done | by intros _; eexists | apply (Htruthy (Some _))
          | apply Htruthy ].
Qed.

(** X5: whatever [_tsch_enqueue] returns, it leaves the schedule and the
    6top state alone.  On [True] the queue has gained the packet at its end,
    with a non-empty next hop and otherwise the type, code, payload,
    destination and retry budget it came with, and no counter moved; on
    [False] the queue is unchanged and exactly one of the counters
    [droppedNoRoute], [droppedNoTxCells], [droppedQueueFull] grew by one. *)
Theorem tsch_enqueue_effect m packet b m' :
  _tsch_enqueue m packet = Ok (b, m') ->
  schedule m' = schedule m
  /\ sixtopStates m' = sixtopStates m
  /\ if b then
       (exists packet' hops,
          txQueue m' = txQueue m ++ [packet']
          /\ pkt_nextHop packet' = Some hops /\ hops <> []
          /\ pkt_type packet' = pkt_type packet
          /\ pkt_code packet' = pkt_code packet
          /\ pkt_payload packet' = pkt_payload packet
          /\ pkt_cells packet' = pkt_cells packet
          /\ pkt_dstIp packet' = pkt_dstIp packet
          /\ pkt_retriesLeft packet' = pkt_retriesLeft packet)
       /\ motestats m' = motestats m
     else
       txQueue m' = txQueue m
       /\ exists name, name ∈ enqueue_drop_counters
                       /\ m' = _stats_incrementMoteStats name m.
Proof.
  unfold _tsch_enqueue. intros H.
  destruct (_rpl_addNextHop m packet) as [[hasRoute packet']|] eqn:Hroute;
    simpl in H; [|discriminate].
  destruct (rpl_addNextHop_frame _ _ _ _ Hroute)
    as (Hasn & Htype & Hcode & Hpay & Hcells & Hretries & Hdst & Hhops).
  assert (Hdrop : forall name, name ∈ enqueue_drop_counters ->
            Ok (false, _stats_incrementMoteStats name m) = Ok (b, m') ->
            schedule m' = schedule m /\ sixtopStates m' = sixtopStates m
            /\ if b then
                 (exists packet' hops,
                    txQueue m' = txQueue m ++ [packet']
                    /\ pkt_nextHop packet' = Some hops /\ hops <> []
                    /\ pkt_type packet' = pkt_type packet
                    /\ pkt_code packet' = pkt_code packet
                    /\ pkt_payload packet' = pkt_payload packet
                    /\ pkt_cells packet' = pkt_cells packet
                    /\ pkt_dstIp packet' = pkt_dstIp packet
                    /\ pkt_retriesLeft packet' = pkt_retriesLeft packet)
                 /\ motestats m' = motestats m
               else txQueue m' = txQueue m
                    /\ exists name, name ∈ enqueue_drop_counters
                                    /\ m' = _stats_incrementMoteStats name m).
  { intros name Hname [= <- <-]. split; [done|]. split; [done|].
    split; [done|]. by exists name. }
  assert (Happend : Ok (true, set_txQueue (txQueue m ++ [packet']) m) = Ok (b, m') ->
            hasRoute = true ->
            schedule m' = schedule m /\ sixtopStates m' = sixtopStates m
            /\ if b then
                 (exists packet' hops,
                    txQueue m' = txQueue m ++ [packet']
                    /\ pkt_nextHop packet' = Some hops /\ hops <> []
                    /\ pkt_type packet' = pkt_type packet
                    /\ pkt_code packet' = pkt_code packet
                    /\ pkt_payload packet' = pkt_payload packet
                    /\ pkt_cells packet' = pkt_cells packet
                    /\ pkt_dstIp packet' = pkt_dstIp packet
                    /\ pkt_retriesLeft packet' = pkt_retriesLeft packet)
                 /\ motestats m' = motestats m
               else txQueue m' = txQueue m
                    /\ exists name, name ∈ enqueue_drop_counters
                                    /\ m' = _stats_incrementMoteStats name m).
  { intros [= <- <-] Hr. destruct (Hhops Hr) as (hops & Hnh & Hne).
    split; [done|]. split; [done|]. split; [|done].
    exists packet', hops. by repeat split. }
  assert (Hin : forall name, name = "droppedNoRoute" \/ name = "droppedNoTxCells"
                             \/ name = "droppedQueueFull" ->
                name ∈ enqueue_drop_counters).
  { intros name. unfold enqueue_drop_counters. rewrite !elem_of_cons. tauto. }
  destruct hasRoute; cbn [negb] in H.
  - repeat match type of H with
           | (if ?c then _ else _) = _ => destruct c
           end;
      first [ discriminate | by apply Happend
            | apply (Hdrop "droppedNoTxCells"); [apply Hin; tauto|done]
            | apply (Hdrop "droppedQueueFull"); [apply Hin; tauto|done] ].
  - apply (Hdrop "droppedNoRoute"); [apply Hin; tauto|done].
Qed.

Lemma tsch_enqueue_effect_witness :
  exists m',
    _tsch_enqueue mote_full_routed join_packet = Ok (true, m')
    /\ length (txQueue m') = 11%nat
    /\ schedule m' = schedule mote_full_routed.
Proof.
  eexists. split; [reflexivity|]. split; [reflexivity|].
  destruct (tsch_enqueue_effect mote_full_routed join_packet true _ eq_refl)
    as (Hsched & _).
  exact Hsched.
Defined.

Lemma tsch_enqueue_cases m packet b m' :
  _tsch_enqueue m packet = Ok (b, m') ->
  (b = false /\ txQueue m' = txQueue m)
  \/ (b = true
      /\ exists packet',
           txQueue m' = txQueue m ++ [packet']
           /\ pkt_type packet' = pkt_type packet
           /\ ((length (txQueue m) < TSCH_QUEUE_SIZE)%nat
               \/ (is_extra_type (pkt_type packet) = true
                   /\ queue_has_type (pkt_type packet) (txQueue m) = false))).
Proof.
  unfold _tsch_enqueue. intros H.
  destruct (_rpl_addNextHop m packet) as [[hasRoute packet']|] eqn:Hroute;
    unfold mbind, outcome_bind in H; cbv beta iota in H; [|discriminate].
  pose proof (rpl_addNextHop_type _ _ _ _ Hroute) as Htype.
  destruct hasRoute; cbn [negb] in H; [|left; by simplify_eq].
  destruct (negb (truthy (getTxCells m) || truthy (getSharedCells m))).
  { destruct (negb _); [discriminate|]. left. by simplify_eq. }
  destruct (Nat.leb_spec TSCH_QUEUE_SIZE (length (txQueue m))) as [Hfull|Hroom].
  - destruct (is_extra_type (pkt_type packet')) eqn:Ex;
      [|left; by simplify_eq].
    destruct (queue_has_type (pkt_type packet') (txQueue m)) eqn:Eq;
      [left; by simplify_eq|].
    right. simplify_eq. split; [done|]. exists packet'.
    rewrite <- Htype. auto.
  - right. simplify_eq. split; [done|]. exists packet'. auto.
Qed.

Lemma queue_has_type_app t q p :
  queue_has_type t (q ++ [p])
  = queue_has_type t q || bool_decide (t = pkt_type p).
Proof.
  induction q as [|p0 q IH]; simpl.
  - destruct (decide (t = pkt_type p)) as [E|E].
    + by rewrite bool_decide_eq_true_2.
    + by rewrite bool_decide_eq_false_2.
  - by destruct (decide (t = pkt_type p0)).
Qed.

Lemma filter_length_mono {B} (P Q : B -> bool) (l : list B) :
  (forall x, P x = true -> Q x = true) ->
  (length (filter (fun x => P x) l) <= length (filter (fun x => Q x) l))%nat.
Proof.
  intros HPQ. induction l as [|x l IH]; simpl; [done|].
  rewrite !filter_cons. destruct (P x) eqn:EP.
  - rewrite (HPQ x EP). simpl. lia.
  - destruct (Q x); simpl; lia.
Qed.

Lemma filter_length_strict {B} (P Q : B -> bool) (l : list B) y :
  (forall x, P x = true -> Q x = true) ->
  y ∈ l -> P y = false -> Q y = true ->
  (length (filter (fun x => P x) l) < length (filter (fun x => Q x) l))%nat.
Proof.
  intros HPQ Hy HP HQ. induction l as [|x l IH]; [by apply elem_of_nil in Hy|].
  rewrite !filter_cons. apply elem_of_cons in Hy as [<-|Hy].
  - rewrite HP, HQ. simpl.
    pose proof (filter_length_mono P Q l HPQ). lia.
  - specialize (IH Hy). destruct (P x) eqn:EP.
    + rewrite (HPQ x EP). simpl. lia.
    + destruct (Q x); simpl; lia.
Qed.

Lemma extra_slots_le q : (extra_slots q <= 4)%nat.
Proof.
  unfold extra_slots. etrans; [apply length_filter|]. done.
Qed.

(** X6: the queue never grows beyond [TSCH_QUEUE_SIZE] packets plus one
    packet for each privileged type it holds: [_tsch_enqueue] keeps that
    bound, so a queue that met it holds at most 14 packets afterwards. *)
Theorem tsch_enqueue_queue_bounded m packet b m' :
  queue_bounded (txQueue m) ->
  _tsch_enqueue m packet = Ok (b, m') ->
  queue_bounded (txQueue m') /\ (length (txQueue m') <= TSCH_QUEUE_SIZE + 4)%nat.
Proof.
  intros Hbound Hrun.
  assert (Hb : queue_bounded (txQueue m')).
  { destruct (tsch_enqueue_cases _ _ _ _ Hrun)
      as [[_ ->]|(_ & p' & -> & Htype & Hcase)]; [done|].
    unfold queue_bounded, TSCH_QUEUE_SIZE in *. rewrite length_app. simpl.
    destruct Hcase as [Hroom|[Hextra Hnew]]; [lia|].
    assert (extra_slots (txQueue m) < extra_slots (txQueue m ++ [p']))%nat; [|lia].
    unfold extra_slots.
    apply (filter_length_strict
             (fun t => queue_has_type t (txQueue m))
             (fun t => queue_has_type t (txQueue m ++ [p'])) extra_types
             (pkt_type packet)).
    - intros t Ht. rewrite queue_has_type_app, Ht. done.
    - by apply is_extra_type_spec.
    - done.
    - rewrite queue_has_type_app, Htype, bool_decide_eq_true_2 by done.
      apply orb_true_r. }
  split; [done|]. unfold queue_bounded in Hb.
  pose proof (extra_slots_le (txQueue m')). lia.
Qed.

Lemma tsch_enqueue_queue_bounded_witness :
  queue_bounded (txQueue mote_full_routed)
  /\ exists m',
       _tsch_enqueue mote_full_routed join_packet = Ok (true, m')
       /\ queue_bounded (txQueue m').
Proof.
  assert (Hb : queue_bounded (txQueue mote_full_routed)).
  { unfold queue_bounded. vm_compute. lia. }
  split; [exact Hb|]. eexists. split; [reflexivity|].
  apply (tsch_enqueue_queue_bounded mote_full_routed join_packet true _ Hb eq_refl).
Defined.

(** ** The next hop of a source-routed packet *)

Lemma myNeighbors_spec m n : n ∈ _myNeighbors m <-> is_neighbor m n.
Proof.
  unfold _myNeighbors, is_neighbor. rewrite list_elem_of_omap. split.
  - intros ([n' p] & Hin & Hsome). simpl in Hsome.
    destruct (Qlt_le_dec 0 p) as [Hp|]; [|done]. injection Hsome as ->.
    exists p. split; [by apply elem_of_map_to_list|done].
  - intros (p & Hp & Hpos). exists (n, p).
    split; [by apply elem_of_map_to_list|]. simpl.
    destruct (Qlt_le_dec 0 p) as [|Hle]; [done|].
    exfalso. by apply (Qlt_not_le _ _ Hpos).
Qed.

Lemma sourceRoute_nextHop_spec (neighbors : list nat) (hop : nat)
    (acc : option (list (option nat))) :
  foldl (fun acc nei => if decide ([nei] = [hop]) then Some [Some nei] else acc)
        acc neighbors
  = if decide (hop ∈ neighbors) then Some [Some hop] else acc.
Proof.
  revert acc. induction neighbors as [|n l IH]; intros acc.
  - destruct (decide (hop ∈ [])) as [Hin|_]; [|done].
    by apply elem_of_nil in Hin.
  - cbn [foldl]. rewrite IH.
    destruct (decide (hop ∈ l)) as [Hin|Hin];
      destruct (decide (hop ∈ n :: l)) as [Hin'|Hin']; try done.
    + exfalso. apply Hin'. by right.
    + apply elem_of_cons in Hin' as [->|?]; [|contradiction].
      by rewrite decide_True.
    + rewrite decide_False; [done|]. intros [= ->]. apply Hin'. left.
Qed.

(** X7: a packet that is neither broadcast, nor 6P, nor for the DAG root,
    and whose source route ends with the one-element entry [[hop]], always
    loses that entry; it gets [hop] as next hop, and a route, exactly when
    [hop] is a neighbour with positive PDR; otherwise it has no next hop. *)
Theorem rpl_addNextHop_source_route m packet dst hop route :
  is_Some (preferredParent m) \/ dagRoot m = true ->
  pkt_dstIp packet = AddrMote dst ->
  dst <> id m ->
  pkt_type packet <> IANA_6TOP_TYPE_REQUEST ->
  pkt_type packet <> IANA_6TOP_TYPE_RESPONSE ->
  Some dst <> dagRootAddress m ->
  pkt_sourceRoute packet = route ++ [[hop]] ->
  (is_neighbor m hop ->
   _rpl_addNextHop m packet
   = Ok (true, set_nextHop (Some [Some hop]) (set_sourceRoute route packet)))
  /\ (~ is_neighbor m hop ->
      _rpl_addNextHop m packet
      = Ok (false, set_nextHop None (set_sourceRoute route packet))).
Proof.
  intros Hup Hdst Hself Hreq Hresp Hroot Hroute.
  assert (Hrun : _rpl_addNextHop m packet
                 = Ok (match sourceRoute_nextHop (_myNeighbors m) [hop] with
                       | Some l => truthy l
                       | None => false
                       end,
                       set_nextHop (sourceRoute_nextHop (_myNeighbors m) [hop])
                                   (set_sourceRoute route packet))).
  { unfold _rpl_addNextHop. rewrite Hdst.
    rewrite decide_False by (intros [= ?]; done).
    assert (Hparent : negb (bool_decide (is_Some (preferredParent m)) || dagRoot m)
                      = false).
    { apply negb_false_iff, orb_true_iff.
      destruct Hup as [?| ->]; [left; by apply bool_decide_eq_true|by right]. }
    rewrite Hparent.
    rewrite bool_decide_eq_false_2 by (intros [?|?]; done).
    rewrite decide_False by done.
    rewrite Hroute, last_snoc, removelast_last. done. }
  unfold sourceRoute_nextHop in Hrun. rewrite sourceRoute_nextHop_spec in Hrun.
  split; intros Hn; rewrite Hrun.
  - rewrite decide_True; [done|by apply myNeighbors_spec].
  - rewrite decide_False; [done|by rewrite myNeighbors_spec].
Qed.

Lemma rpl_addNextHop_source_route_witness :
  is_neighbor mote_relay 1
  /\ ~ is_neighbor mote_relay 2
  /\ _rpl_addNextHop mote_relay (downward_packet [[4]; [3]; [1]]%nat)
     = Ok (true, set_nextHop (Some [Some 1%nat]) (downward_packet [[4]; [3]]%nat))
  /\ _rpl_addNextHop mote_relay (downward_packet [[4]; [2]]%nat)
     = Ok (false, set_nextHop None (downward_packet [[4%nat]])).
Proof.
  assert (H1 : is_neighbor mote_relay 1).
  { exists (1 # 2)%Q. split; reflexivity. }
  assert (H2 : ~ is_neighbor mote_relay 2).
  { intros (p & Hp & Hpos). vm_compute in Hp. injection Hp as <-.
    vm_compute in Hpos. discriminate. }
  assert (Hup : is_Some (preferredParent mote_relay) \/ dagRoot mote_relay = true)
    by (left; by eexists).
  split; [exact H1|]. split; [exact H2|]. split.
  - refine (proj1 (rpl_addNextHop_source_route mote_relay
                     (downward_packet [[4]; [3]; [1]]%nat) 4 1 [[4]; [3]]%nat
                     Hup eq_refl _ _ _ _ eq_refl) H1); done.
  - refine (proj2 (rpl_addNextHop_source_route mote_relay
                     (downward_packet [[4]; [2]]%nat) 4 2 [[4%nat]]
                     Hup eq_refl _ _ _ _ eq_refl) H2); done.
Defined.

(** ** RPL: the rank increase is bounded from below *)

Lemma Zsum_counters_le (cells : list Cell) :
  Forall (fun c => 0 <= cell_numTxAck c <= cell_numTx c) cells ->
  0 <= Zsum (cell_numTxAck <$> cells) <= Zsum (cell_numTx <$> cells).
Proof.
  unfold Zsum. induction 1 as [|c cells Hc _ IH].
  - simpl. lia.
  - rewrite !fmap_cons. cbn [foldr]. lia.
Qed.

Lemma Qfloor_tenths pdr :
  (0 <= pdr)%Q -> (pdr <= 1)%Q ->
  0 <= Qfloor (pdr * inject_Z NUM_SUFFICIENT_TX) <= NUM_SUFFICIENT_TX.
Proof.
  intros H0 H1. split.
  - change 0 with (Qfloor 0). apply Qfloor_resp_le.
    apply Qmult_le_0_compat; [done|]. unfold Qle, NUM_SUFFICIENT_TX; simpl; lia.
  - rewrite <- (Qfloor_Z NUM_SUFFICIENT_TX) at 2. apply Qfloor_resp_le.
    rewrite <- (Qmult_1_l (inject_Z NUM_SUFFICIENT_TX)) at 2.
    apply Qmult_le_compat_r; [done|]. unfold Qle, NUM_SUFFICIENT_TX; simpl; lia.
Qed.

Lemma Qtrunc_lower_bound k q :
  0 <= k -> (inject_Z k <= q)%Q -> k <= Qtrunc q.
Proof.
  intros Hk Hq. destruct q as [n d]. unfold Qtrunc, Qle in *. simpl in *.
  assert (0 <= n) by nia.
  rewrite Z.quot_div_nonneg by lia.
  apply Z.div_le_lower_bound; lia.
Qed.

(** X8: over a link whose PDR lies in [0, 1] and with cell counters that
    satisfy [0 <= numTxAck <= numTx], an ETX estimate is never below 1 and a
    rank increase never below [RPL_MIN_HOP_RANK_INCREASE]; both are missing
    together, and only when the link PDR is below 1/10 and no transmission
    to the neighbour has been acknowledged. *)
Theorem rpl_calcRankIncrease_at_least_min m neighbor pdr :
  PDR m !! neighbor = Some pdr ->
  (0 <= pdr)%Q -> (pdr <= 1)%Q ->
  Forall (fun c => 0 <= cell_numTxAck c <= cell_numTx c) (schedule m).*2 ->
  (_estimateETX m neighbor = Ok None
   /\ _rpl_calcRankIncrease m neighbor = Ok None
   /\ (pdr < 1 # 10)%Q
   /\ Forall (fun c => is_tx_or_shared_to neighbor c = true -> cell_numTxAck c = 0)
             (schedule m).*2)
  \/ (exists etx r,
        _estimateETX m neighbor = Ok (Some etx)
        /\ (1 <= etx)%Q
        /\ _rpl_calcRankIncrease m neighbor = Ok (Some r)
        /\ RPL_MIN_HOP_RANK_INCREASE <= r).
Proof.
  intros Hpdr H0 H1 Hcells.
  set (cells := filter (fun c => is_tx_or_shared_to neighbor c) (schedule m).*2).
  assert (Hsub : Forall (fun c => 0 <= cell_numTxAck c <= cell_numTx c) cells).
  { apply Forall_forall. intros c [_ Hc]%list_elem_of_filter.
    rewrite Forall_forall in Hcells. by apply Hcells. }
  pose proof (Zsum_counters_le cells Hsub) as Hsum.
  pose proof (Qfloor_tenths pdr H0 H1) as Hfloor.
  assert (Hetx : _estimateETX m neighbor
                 = Ok (if Qfloor (pdr * inject_Z NUM_SUFFICIENT_TX)
                          + Zsum (cell_numTxAck <$> cells) =? 0
                       then None
                       else Some (inject_Z (NUM_SUFFICIENT_TX
                                            + Zsum (cell_numTx <$> cells))
                                  / inject_Z (Qfloor (pdr * inject_Z NUM_SUFFICIENT_TX)
                                              + Zsum (cell_numTxAck <$> cells)))%Q)).
  { unfold _estimateETX, getPDR. rewrite Hpdr.
    unfold mbind, outcome_bind, getitem. cbv beta iota zeta.
    rewrite etx_fold. fold cells. cbn [fst snd].
    by destruct (_ =? 0). }
  unfold _rpl_calcRankIncrease. rewrite Hetx.
  unfold mbind, outcome_bind. cbv beta iota.
  set (f := Qfloor (pdr * inject_Z NUM_SUFFICIENT_TX)) in *.
  set (acks := Zsum (cell_numTxAck <$> cells)) in *.
  set (txs := Zsum (cell_numTx <$> cells)) in *.
  destruct (f + acks =? 0) eqn:E.
  - left. apply Z.eqb_eq in E. split; [done|]. split; [done|].
    assert (Hf : f = 0) by lia. assert (Ha : acks = 0) by lia. split.
    + apply Qnot_le_lt. intros Hge.
      assert (1 <= f); [|lia].
      change 1 with (Qfloor 1). apply Qfloor_resp_le.
      apply (Qmult_le_compat_r _ _ (inject_Z NUM_SUFFICIENT_TX)) in Hge;
        [|unfold Qle, NUM_SUFFICIENT_TX; simpl; lia].
      refine (Qle_trans _ _ _ _ Hge). unfold Qle, NUM_SUFFICIENT_TX; simpl; lia.
    + apply Forall_forall. intros c Hc Hto.
      assert (Hin : c ∈ cells).
      { apply list_elem_of_filter. split; [by apply Is_true_true|done]. }
      clear -Hin Hsub Ha. subst acks. induction Hsub as [|c' l Hc' Hl IH].
      * by apply elem_of_nil in Hin.
      * pose proof (Zsum_counters_le l Hl) as Hrest.
        unfold Zsum in *. rewrite fmap_cons in Ha. cbn [foldr] in Ha.
        apply elem_of_cons in Hin as [->|Hin]; [lia|]. apply IH; first [done|lia].
  - right. apply Z.eqb_neq in E.
    set (etx := (inject_Z (NUM_SUFFICIENT_TX + txs) / inject_Z (f + acks))%Q).
    assert (Hpos : (0 < inject_Z (f + acks))%Q).
    { unfold Qlt. simpl. lia. }
    assert (He : (1 <= etx)%Q).
    { apply Qle_shift_div_l; [done|]. rewrite Qmult_1_l.
      unfold Qle. simpl. lia. }
    exists etx, (Qtrunc ((3 * etx - 2) * inject_Z RPL_MIN_HOP_RANK_INCREASE)%Q).
    split; [done|]. split; [done|].
    assert (Hnz : Qeq_bool etx 0 = false).
    { apply not_true_iff_false. intros Hz%Qeq_bool_eq.
      rewrite Hz in He. by apply (Qlt_not_le 0 1). }
    rewrite Hnz. split; [done|].
    apply Qtrunc_lower_bound; [done|].
    rewrite <- (Qmult_1_l (inject_Z RPL_MIN_HOP_RANK_INCREASE)) at 1.
    apply Qmult_le_compat_r; [|done].
    apply Qle_minus_iff in He. apply Qle_minus_iff.
    setoid_replace (3 * etx - 2 + - (1))%Q with (3 * (etx + - (1)))%Q using relation Qeq by ring.
    apply Qmult_le_0_compat; done.
Qed.

Lemma rpl_calcRankIncrease_at_least_min_witness :
  (_estimateETX mote_ten_acked 1 = Ok None
   /\ _rpl_calcRankIncrease mote_ten_acked 1 = Ok None
   /\ ((1 # 2) < 1 # 10)%Q
   /\ Forall (fun c => is_tx_or_shared_to 1 c = true -> cell_numTxAck c = 0)
             (schedule mote_ten_acked).*2)
  \/ (exists etx r,
        _estimateETX mote_ten_acked 1 = Ok (Some etx)
        /\ (1 <= etx)%Q
        /\ _rpl_calcRankIncrease mote_ten_acked 1 = Ok (Some r)
        /\ RPL_MIN_HOP_RANK_INCREASE <= r).
Proof.
  apply (rpl_calcRankIncrease_at_least_min mote_ten_acked 1 (1 # 2)%Q).
  - reflexivity.
  - done.
  - done.
  - repeat constructor; done.
Defined.
(** ** 6top: the end of a transaction *)

Lemma record_parent_churn_frame asn n m m' :
  record_parent_churn asn n m = Ok m' ->
  sixtopStates m' = sixtopStates m /\ txQueue m' = txQueue m
  /\ schedule m' = schedule m /\ settings m' = settings m
  /\ numCellsToNeighbors m' = numCellsToNeighbors m
  /\ numCellsFromNeighbors m' = numCellsFromNeighbors m
  /\ motestats m' = motestats m
  /\ modulationSlots m' = modulationSlots m.
Proof.
  unfold record_parent_churn. intros H.
  repeat case_match; simplify_eq; done.
Qed.

Lemma update_counters_add_frame d n k m :
  sixtopStates (update_counters_add d n k m) = sixtopStates m
  /\ txQueue (update_counters_add d n k m) = txQueue m
  /\ schedule (update_counters_add d n k m) = schedule m
  /\ motestats (update_counters_add d n k m) = motestats m.
Proof. by destruct d. Qed.

Lemma update_counters_sub_frame d n k m m' :
  update_counters_sub d n k m = Ok m' ->
  sixtopStates m' = sixtopStates m /\ txQueue m' = txQueue m
  /\ schedule m' = schedule m /\ motestats m' = motestats m.
Proof.
  unfold update_counters_sub, counter_sub. intros H.
  destruct d; outcome_inv H; done.
Qed.

(** What a response does to the 6top state of the mote and to its queue,
    in either waiting state. *)
Lemma receive_RESPONSE_shape asn code smac payload m tx r m' :
  tx_of m smac = Ok tx ->
  six_state tx = SIX_STATE_WAIT_ADDRESPONSE
  \/ six_state tx = SIX_STATE_WAIT_DELETERESPONSE ->
  _sixtop_receive_RESPONSE asn code smac payload m = Ok (r, m') ->
  txQueue m' = txQueue m
  /\ ((r = Some false
       /\ sixtopStates m' = sixtopStates (update_tx half_idle smac m)
       /\ (payload_seq payload <> six_seqNum tx
           \/ exists t, six_timer tx = Some t /\ timer_asn t = asn))
      \/ (r = Some true
          /\ sixtopStates m'
             = sixtopStates (update_tx half_idle smac
                               (update_tx half_advance smac m))
          /\ payload_seq payload = six_seqNum tx
          /\ exists t, six_timer tx = Some t /\ timer_asn t <> asn)).
Proof.
  intros Htx Hstate. unfold _sixtop_receive_RESPONSE. rewrite Htx.
  unfold mbind at 1. unfold outcome_bind at 1. cbv beta iota.
  destruct Hstate as [Hs|Hs]; rewrite Hs.
  - rewrite decide_True by done.
    destruct (is_response_code code); [|done]. cbn [negb]. cbv zeta.
    destruct (bool_decide (payload_seq payload = six_seqNum tx)) eqn:Eseq;
      cbn [negb].
    2:{ intros [= <- <-]. split; [done|]. left. split; [done|]. split; [done|].
        left. by apply bool_decide_eq_false in Eseq. }
    apply bool_decide_eq_true in Eseq.
    destruct (six_timer tx) as [t|] eqn:Et; [|done].
    unfold mbind at 1. unfold outcome_bind at 1. unfold getitem. cbv beta iota.
    destruct (decide (timer_asn t = asn)) as [Hasn|Hasn].
    { intros [= <- <-]. split; [done|]. left. split; [done|]. split; [done|].
      right. by exists t. }
    assert (Hin : exists t0, Some t = Some t0 /\ timer_asn t0 <> asn)
      by (by exists t).
    destruct (decide (code = IANA_6TOP_RC_SUCCESS)) as [Hc|Hc].
    + intros H.
      destruct (record_parent_churn _ _ _) as [m1|] eqn:E1; [|done].
      apply record_parent_churn_frame in E1
        as (Hs1 & Hq1 & _).
      unfold mbind at 1 in H. unfold outcome_bind at 1 in H. cbv beta iota in H.
      destruct (cellTuples _) as [received|]; [|done].
      unfold mbind at 1 in H. unfold outcome_bind at 1 in H. cbv beta iota in H.
      unfold mbind at 1 in H. unfold outcome_bind at 1 in H.
      match type of H with
      | match ?c with _ => _ end = _ => destruct c as [sched|]; [|done]
      end.
      injection H as <- <-.
      split; [by destruct (flipDir (payload_dir payload)); cbn; rewrite Hq1|]. right.
      split; [done|]. split; [|done].
      unfold update_tx at 1. cbn [sixtopStates set_sixtopStates].
      destruct (flipDir (payload_dir payload)); cbn; by rewrite Hs1.
    + unfold response_without_cells.
      intros H. repeat case_decide; simplify_eq; (split; [done|]); right; done.
  - rewrite decide_False by done. rewrite decide_True by done.
    destruct (is_response_code code); [|done]. cbn [negb]. cbv zeta.
    destruct (bool_decide (payload_seq payload = six_seqNum tx)) eqn:Eseq;
      cbn [negb].
    2:{ intros [= <- <-]. split; [done|]. left. split; [done|]. split; [done|].
        left. by apply bool_decide_eq_false in Eseq. }
    apply bool_decide_eq_true in Eseq.
    destruct (six_timer tx) as [t|] eqn:Et; [|done].
    unfold mbind at 1. unfold outcome_bind at 1. unfold getitem. cbv beta iota.
    destruct (decide (timer_asn t = asn)) as [Hasn|Hasn].
    { intros [= <- <-]. split; [done|]. left. split; [done|]. split; [done|].
      right. by exists t. }
    assert (Hin : exists t0, Some t = Some t0 /\ timer_asn t0 <> asn)
      by (by exists t).
    destruct (decide (code = IANA_6TOP_RC_SUCCESS)) as [Hc|Hc].
    + intros H.
      destruct (negb _); [done|].
      destruct (delete_timeslots _ _ _) as [tsList|]; [|done].
      unfold mbind at 1 in H. unfold outcome_bind at 1 in H. cbv beta iota in H.
      destruct (_tsch_removeCells _ _ _) as [sched|]; [|done].
      unfold mbind at 1 in H. unfold outcome_bind at 1 in H. cbv beta iota in H.
      destruct (update_counters_sub _ _ _ _) as [m2|] eqn:E2; [|done].
      apply update_counters_sub_frame in E2 as (Hs2 & Hq2 & _).
      unfold mbind at 1 in H. unfold outcome_bind at 1 in H. cbv beta iota in H.
      injection H as <- <-. split; [cbn; by rewrite Hq2|]. right.
      split; [done|]. split; [|done].
      unfold update_tx at 1. cbn [sixtopStates set_sixtopStates].
      by rewrite Hs2.
    + unfold response_without_cells.
      intros H. repeat case_decide; simplify_eq; (split; [done|]); right; done.
Qed.

Lemma tx_of_ext m1 m2 n :
  sixtopStates m1 = sixtopStates m2 -> tx_of m1 n = tx_of m2 n.
Proof. unfold tx_of. by intros ->. Qed.

Lemma update_tx_other f n m k :
  k <> n -> sixtopStates (update_tx f n m) !! k = sixtopStates m !! k.
Proof. intros Hk. unfold update_tx. simpl. by rewrite lookup_alter_ne. Qed.

Lemma update_tx_rx f n m :
  six_rx <$> sixtopStates (update_tx f n m) !! n = six_rx <$> sixtopStates m !! n.
Proof.
  unfold update_tx. simpl. rewrite lookup_alter_eq.
  destruct (sixtopStates m !! n) as [e|]; [|done]. simpl.
  by destruct (six_tx e).
Qed.

(** X9: a response received while the mote waits for one always ends the
    transaction with that neighbour: the handler answers [True] or [False],
    the tx state is IDLE with no blocked cells and the timeout value kept.
    An accepted response carried the expected sequence number, which is then
    advanced by one, and the timer record is gone; a rejected one leaves
    sequence number and timer record as they were.  The transactions with
    other neighbours, the rx half of this one and the transmit queue are
    not touched. *)
Theorem sixtop_receive_RESPONSE_ends_transaction
    asn code smac payload m tx r m' :
  tx_of m smac = Ok tx ->
  six_state tx = SIX_STATE_WAIT_ADDRESPONSE
  \/ six_state tx = SIX_STATE_WAIT_DELETERESPONSE ->
  _sixtop_receive_RESPONSE asn code smac payload m = Ok (r, m') ->
  exists accepted tx',
    r = Some accepted
    /\ tx_of m' smac = Ok tx'
    /\ six_state tx' = SIX_STATE_IDLE
    /\ six_blockedCells tx' = []
    /\ six_timeout tx' = six_timeout tx
    /\ (if accepted
        then payload_seq payload = six_seqNum tx
             /\ six_seqNum tx' = six_seqNum tx + 1
             /\ six_timer tx' = None
        else six_seqNum tx' = six_seqNum tx
             /\ six_timer tx' = six_timer tx)
    /\ (forall n, n <> smac -> sixtopStates m' !! n = sixtopStates m !! n)
    /\ six_rx <$> sixtopStates m' !! smac = six_rx <$> sixtopStates m !! smac
    /\ txQueue m' = txQueue m.
Proof.
  intros Htx Hstate Hrun.
  destruct (receive_RESPONSE_shape _ _ _ _ _ _ _ _ Htx Hstate Hrun)
    as [Hq [(-> & Hs & _)|(-> & Hs & Hseq & _)]].
  - exists false, (half_idle tx). split; [done|]. split.
    { rewrite (tx_of_ext _ _ _ Hs). by apply tx_of_update_tx. }
    do 4 (split; [done|]). split; [|split; [|done]].
    + intros n Hn. rewrite Hs. by apply update_tx_other.
    + rewrite Hs. apply update_tx_rx.
  - exists true, (half_idle (half_advance tx)). split; [done|]. split.
    { rewrite (tx_of_ext _ _ _ Hs). by do 2 apply tx_of_update_tx. }
    do 4 (split; [done|]). split; [|split; [|done]].
    + intros n Hn. rewrite Hs. by rewrite !update_tx_other.
    + rewrite Hs. by rewrite !update_tx_rx.
Qed.

Lemma sixtop_receive_RESPONSE_ends_transaction_witness :
  exists m' tx',
    _sixtop_receive_RESPONSE 499 IANA_6TOP_RC_NORES 1 add_response mote_waiting
    = Ok (Some true, m')
    /\ tx_of m' 1 = Ok tx'
    /\ six_state tx' = SIX_STATE_IDLE
    /\ six_seqNum tx' = 1
    /\ sixtopStates m' !! 2%nat = sixtopStates mote_waiting !! 2%nat.
Proof.
  destruct (sixtop_receive_RESPONSE_ends_transaction 499 IANA_6TOP_RC_NORES 1
              add_response mote_waiting (waiting_half 500 1) (Some true) _
              eq_refl (or_introl eq_refl) eq_refl)
    as (accepted & tx' & Hacc & Htx & Hstate & _ & _ & Hseq & Hother & _).
  injection Hacc as <-. destruct Hseq as (_ & Hseq & _).
  eexists _, tx'. split; [reflexivity|]. split; [exact Htx|].
  split; [exact Hstate|]. split; [exact Hseq|]. by apply Hother.
Defined.

(** ** 6top: an accepted ADD response *)

(** The steps of the ADD branch with return code SUCCESS that lead to
    [True]. *)
Lemma receive_RESPONSE_add_run asn smac payload m tx m' :
  tx_of m smac = Ok tx ->
  six_state tx = SIX_STATE_WAIT_ADDRESPONSE ->
  _sixtop_receive_RESPONSE asn IANA_6TOP_RC_SUCCESS smac payload m
  = Ok (Some true, m') ->
  let newDir := flipDir (payload_dir payload) in
  exists m1 received sched,
    record_parent_churn asn smac
      (update_tx half_advance smac (_stats_incrementMoteStats "6topRxAddResp" m))
    = Ok m1
    /\ cellTuples (payload_cellList payload) = Ok received
    /\ (if decide (individualModulations (settings m) = 1) then
          _tsch_addCells (Unicast smac)
            (expand_cells (modulationSlots m smac) newDir received)
            (head (received.*1.*1)) (schedule m)
        else
          _tsch_addCells (Unicast smac)
            ((fun c : CellTuple => (c.1.1, c.1.2, newDir)) <$> received)
            None (schedule m)) = Ok sched
    /\ m' = update_tx half_idle smac
              (update_counters_add newDir smac (Z.of_nat (length received))
                 (set_schedule sched m1)).
Proof.
  intros Htx Hs. unfold _sixtop_receive_RESPONSE. rewrite Htx.
  unfold mbind at 1. unfold outcome_bind at 1. cbv beta iota.
  rewrite Hs. rewrite decide_True by done.
  change (is_response_code IANA_6TOP_RC_SUCCESS) with true.
  cbn [negb]. cbv zeta.
  destruct (bool_decide (payload_seq payload = six_seqNum tx)); cbn [negb];
    [|done].
  destruct (six_timer tx) as [t|]; [|done].
  unfold mbind at 1. unfold outcome_bind at 1. unfold getitem. cbv beta iota.
  destruct (decide (timer_asn t = asn)); [done|].
  rewrite decide_True by done. intros H.
  destruct (record_parent_churn _ _ _) as [m1|] eqn:E1; [|done].
  pose proof (record_parent_churn_frame _ _ _ _ E1)
    as (_ & _ & Hsch & Hset & _ & _ & _ & Hmod).
  unfold mbind at 1 in H. unfold outcome_bind at 1 in H. cbv beta iota in H.
  destruct (cellTuples _) as [received|]; [|done].
  unfold mbind at 1 in H. unfold outcome_bind at 1 in H. cbv beta iota in H.
  unfold mbind at 1 in H. unfold outcome_bind at 1 in H.
  rewrite Hsch, Hset, Hmod in H.
  change (settings (update_tx half_advance smac
                      (_stats_incrementMoteStats "6topRxAddResp" m)))
    with (settings m) in H.
  change (schedule (update_tx half_advance smac
                      (_stats_incrementMoteStats "6topRxAddResp" m)))
    with (schedule m) in H.
  change (modulationSlots (update_tx half_advance smac
                      (_stats_incrementMoteStats "6topRxAddResp" m)))
    with (modulationSlots m) in H.
  match type of H with
  | match ?c with _ => _ end = _ => destruct c as [sched|] eqn:E2; [|done]
  end.
  injection H as <-. by exists m1, received, sched.
Qed.

Lemma counter_add_lookup k n d :
  default 0 (counter_add k n d !! k) = default 0 (d !! k) + n.
Proof. unfold counter_add. by rewrite lookup_insert_eq. Qed.

Lemma lookup_cell_elem ts c sched :
  NoDup sched.*1 -> (ts, c) ∈ sched -> lookup_cell ts sched = Some c.
Proof.
  induction sched as [|[ts' c'] rest IH]; intros Hnd Hin.
  - by apply elem_of_nil in Hin.
  - simpl in *. apply NoDup_cons in Hnd as [Hts Hnd].
    apply elem_of_cons in Hin as [[= <- <-]|Hin].
    + by rewrite decide_True.
    + rewrite decide_False; [by apply IH|].
      intros ->. apply Hts. apply list_elem_of_fmap. by exists (ts, c).
Qed.

Lemma lookup_cell_app ts sched rest :
  lookup_cell ts (sched ++ rest)
  = match lookup_cell ts sched with
    | Some c => Some c
    | None => lookup_cell ts rest
    end.
Proof.
  induction sched as [|[ts' c'] sched IH]; simpl; [done|].
  by destruct (decide (ts' = ts)).
Qed.

Lemma new_cell_keys neighbor parentTs (cells : list CellTuple) :
  (new_cell neighbor parentTs <$> cells).*1 = cells.*1.*1.
Proof. induction cells as [|[[??]?] ? IH]; simpl; [done|]. by f_equal. Qed.

(** X10: an accepted ADD response with return code SUCCESS, on a mote
    without slot bonding, adds one cell per received tuple at the end of the
    schedule: at the tuple's timeslot and channel, with the neighbour as
    peer, zero counters and the direction of the response flipped (the
    direction inside the tuple is not used).  The received timeslots were
    pairwise distinct and free, and the cell counters of the neighbour grew
    by the number of tuples on the side(s) of the new direction. *)
Theorem sixtop_receive_RESPONSE_add_installs asn smac payload m tx m' :
  tx_of m smac = Ok tx ->
  six_state tx = SIX_STATE_WAIT_ADDRESPONSE ->
  individualModulations (settings m) <> 1 ->
  _sixtop_receive_RESPONSE asn IANA_6TOP_RC_SUCCESS smac payload m
  = Ok (Some true, m') ->
  let newDir := flipDir (payload_dir payload) in
  exists received,
    cellTuples (payload_cellList payload) = Ok received
    /\ NoDup received.*1.*1
    /\ Forall (fun ts => ts ∉ (schedule m).*1) received.*1.*1
    /\ schedule m'
       = schedule m
         ++ ((fun c : CellTuple =>
                (c.1.1, mkCell c.1.2 newDir (Unicast smac) 0 0 [] None))
             <$> received)
    /\ default 0 (numCellsToNeighbors m' !! smac)
       = default 0 (numCellsToNeighbors m !! smac)
         + (if decide (newDir = DIR_RX) then 0 else Z.of_nat (length received))
    /\ default 0 (numCellsFromNeighbors m' !! smac)
       = default 0 (numCellsFromNeighbors m !! smac)
         + (if decide (newDir = DIR_TX) then 0 else Z.of_nat (length received)).
Proof.
  intros Htx Hs Hmode Hrun newDir.
  destruct (receive_RESPONSE_add_run _ _ _ _ _ _ Htx Hs Hrun)
    as (m1 & received & sched & Hchurn & Hrec & Hadd & ->).
  fold newDir in Hadd. rewrite decide_False in Hadd by done.
  apply record_parent_churn_frame in Hchurn
    as (_ & _ & _ & _ & Hto & Hfrom & _).
  change (numCellsToNeighbors (update_tx half_advance smac
            (_stats_incrementMoteStats "6topRxAddResp" m)))
    with (numCellsToNeighbors m) in Hto.
  change (numCellsFromNeighbors (update_tx half_advance smac
            (_stats_incrementMoteStats "6topRxAddResp" m)))
    with (numCellsFromNeighbors m) in Hfrom.
  set (cells := (fun c : CellTuple => (c.1.1, c.1.2, newDir)) <$> received)
    in *.
  assert (Hkeys : cells.*1.*1 = received.*1.*1).
  { subst cells. rewrite <- !list_fmap_compose. done. }
  destruct (tsch_addCells_cases (Unicast smac) cells None (schedule m))
    as [Hok Hfail].
  destruct (decide (NoDup cells.*1.*1
                    /\ Forall (fun ts => ts ∉ (schedule m).*1) cells.*1.*1))
    as [Hfresh|Hno]; [|rewrite (Hfail Hno) in Hadd; discriminate].
  destruct (Hok Hfresh) as [Hsched _]. rewrite Hsched in Hadd.
  injection Hadd as <-. rewrite Hkeys in Hfresh. destruct Hfresh as [Hnd Hfree].
  exists received. split; [done|]. split; [done|]. split; [done|]. split.
  - fold newDir.
    change (schedule (update_tx half_idle smac
              (update_counters_add newDir smac (Z.of_nat (length received))
                 (set_schedule (schedule m ++ (new_cell (Unicast smac) None <$> cells))
                               m1))))
      with (schedule (update_counters_add newDir smac (Z.of_nat (length received))
                 (set_schedule (schedule m ++ (new_cell (Unicast smac) None <$> cells))
                               m1))).
    destruct (update_counters_add_frame newDir smac (Z.of_nat (length received))
                (set_schedule (schedule m ++ (new_cell (Unicast smac) None <$> cells)) m1))
      as (_ & _ & -> & _).
    cbn [schedule set_schedule]. f_equal. subst cells.
    rewrite <- list_fmap_compose. done.
  - fold newDir. clearbody newDir.
    destruct newDir; cbn; rewrite ?counter_add_lookup, ?Hto, ?Hfrom;
      split; case_decide; first [done|lia].
Qed.

Lemma sixtop_receive_RESPONSE_add_installs_witness :
  exists m',
    _sixtop_receive_RESPONSE 499 IANA_6TOP_RC_SUCCESS 1 add_response mote_waiting
    = Ok (Some true, m')
    /\ schedule m'
       = [(20, mkCell 3 DIR_TXRX_SHARED (Unicast 1) 0 0 [] None);
          (31, mkCell 5 DIR_TXRX_SHARED (Unicast 1) 0 0 [] None)]
    /\ default 0 (numCellsToNeighbors m' !! 1%nat) = 2.
Proof.
  assert (Hmode : individualModulations (settings mote_waiting) <> 1)
    by (vm_compute; discriminate).
  destruct (sixtop_receive_RESPONSE_add_installs 499 1 add_response mote_waiting
              (waiting_half 500 1) _ eq_refl eq_refl Hmode eq_refl)
    as (received & Hrec & _ & _ & Hsched & Hto & _).
  injection Hrec as <-.
  eexists. split; [reflexivity|]. split; [exact Hsched|exact Hto].
Defined.

Lemma expand_cells_elem slots newDir (cells : list CellTuple) ts ch d (i : nat) :
  (ts, ch, d) ∈ cells -> (i < slots)%nat ->
  (ts + Z.of_nat i, ch, newDir) ∈ expand_cells slots newDir cells.
Proof.
  intros Hin Hi. unfold expand_cells. apply list_elem_of_bind.
  exists (ts, ch, d). split; [|done].
  apply list_elem_of_fmap. exists i. split; [done|].
  apply elem_of_seq. lia.
Qed.

Lemma expand_cells_length slots newDir (cells : list CellTuple) :
  length (expand_cells slots newDir cells) = (length cells * slots)%nat.
Proof.
  induction cells as [|c cells IH]; [done|].
  change (expand_cells slots newDir (c :: cells))
    with (((fun i : nat => (c.1.1 + Z.of_nat i, c.1.2, newDir)) <$> seq 0 slots)
          ++ expand_cells slots newDir cells).
  rewrite length_app, IH, length_fmap, length_seq. simpl. lia.
Qed.

(** X11: with slot bonding ([individualModulations = 1]) an accepted ADD
    response with return code SUCCESS gives every received tuple
    [modulationSlots] consecutive timeslots, from the tuple's timeslot on,
    all on the tuple's channel and with the flipped direction; these slots
    were free; every new cell names the first received timeslot as its
    parent timeslot.  The cells scheduled before are kept, and the cell
    counters grow by the number of tuples, not of slots. *)
Theorem sixtop_receive_RESPONSE_add_bonded asn smac payload m tx m' :
  tx_of m smac = Ok tx ->
  six_state tx = SIX_STATE_WAIT_ADDRESPONSE ->
  individualModulations (settings m) = 1 ->
  _sixtop_receive_RESPONSE asn IANA_6TOP_RC_SUCCESS smac payload m
  = Ok (Some true, m') ->
  let newDir := flipDir (payload_dir payload) in
  let slots := modulationSlots m smac in
  exists received,
    cellTuples (payload_cellList payload) = Ok received
    /\ (forall ts ch d (i : nat),
          (ts, ch, d) ∈ received -> (i < slots)%nat ->
          lookup_cell (ts + Z.of_nat i) (schedule m) = None
          /\ lookup_cell (ts + Z.of_nat i) (schedule m')
             = Some (mkCell ch newDir (Unicast smac) 0 0 []
                            (head received.*1.*1)))
    /\ (forall ts c, lookup_cell ts (schedule m) = Some c ->
                     lookup_cell ts (schedule m') = Some c)
    /\ length (schedule m')
       = (length (schedule m) + length received * slots)%nat
    /\ default 0 (numCellsToNeighbors m' !! smac)
       = default 0 (numCellsToNeighbors m !! smac)
         + (if decide (newDir = DIR_RX) then 0 else Z.of_nat (length received))
    /\ default 0 (numCellsFromNeighbors m' !! smac)
       = default 0 (numCellsFromNeighbors m !! smac)
         + (if decide (newDir = DIR_TX) then 0 else Z.of_nat (length received)).
Proof.
  intros Htx Hs Hmode Hrun newDir slots.
  destruct (receive_RESPONSE_add_run _ _ _ _ _ _ Htx Hs Hrun)
    as (m1 & received & sched & Hchurn & Hrec & Hadd & Hm').
  fold newDir in Hadd, Hm'. rewrite decide_True in Hadd by done.
  apply record_parent_churn_frame in Hchurn
    as (_ & _ & _ & _ & Hto & Hfrom & _).
  change (numCellsToNeighbors (update_tx half_advance smac
            (_stats_incrementMoteStats "6topRxAddResp" m)))
    with (numCellsToNeighbors m) in Hto.
  change (numCellsFromNeighbors (update_tx half_advance smac
            (_stats_incrementMoteStats "6topRxAddResp" m)))
    with (numCellsFromNeighbors m) in Hfrom.
  fold slots in Hadd.
  set (cells := expand_cells slots newDir received) in *.
  set (parentTs := head received.*1.*1) in *.
  destruct (tsch_addCells_cases (Unicast smac) cells parentTs (schedule m))
    as [Hok Hfail].
  destruct (decide (NoDup cells.*1.*1
                    /\ Forall (fun ts => ts ∉ (schedule m).*1) cells.*1.*1))
    as [Hfresh|Hno]; [|rewrite (Hfail Hno) in Hadd; discriminate].
  destruct (Hok Hfresh) as [Hsched _]. rewrite Hsched in Hadd.
  injection Hadd as <-. destruct Hfresh as [Hnd Hfree].
  assert (Hschedule :
            schedule m'
            = schedule m ++ (new_cell (Unicast smac) parentTs <$> cells)).
  { rewrite Hm'. change (schedule (update_tx half_idle smac ?x)) with (schedule x).
    by destruct newDir. }
  exists received. split; [done|]. rewrite Hschedule. split; [|split; [|split]].
  - intros ts ch d i Hin Hi.
    pose proof (expand_cells_elem slots newDir received ts ch d i Hin Hi) as Hel.
    fold cells in Hel.
    assert (Hnone : lookup_cell (ts + Z.of_nat i) (schedule m) = None).
    { apply lookup_cell_None. rewrite Forall_forall in Hfree. apply Hfree.
      apply list_elem_of_fmap. exists (ts + Z.of_nat i, ch). split; [done|].
      apply list_elem_of_fmap. by exists (ts + Z.of_nat i, ch, newDir). }
    split; [done|]. rewrite lookup_cell_app, Hnone.
    apply lookup_cell_elem; [by rewrite new_cell_keys|].
    apply list_elem_of_fmap. by exists (ts + Z.of_nat i, ch, newDir).
  - intros ts c Hc. by rewrite lookup_cell_app, Hc.
  - rewrite length_app, length_fmap. subst cells.
    by rewrite expand_cells_length.
  - rewrite Hm'. clear Hm'. clearbody newDir.
    destruct newDir; cbn; rewrite ?counter_add_lookup, ?Hto, ?Hfrom;
      split; case_decide; first [done|lia].
Qed.

Lemma sixtop_receive_RESPONSE_add_bonded_witness :
  exists m',
    _sixtop_receive_RESPONSE 499 IANA_6TOP_RC_SUCCESS 1 add_response
                             mote_waiting_bonded
    = Ok (Some true, m')
    /\ lookup_cell 32 (schedule m')
       = Some (mkCell 5 DIR_TXRX_SHARED (Unicast 1) 0 0 [] (Some 20))
    /\ length (schedule m') = 4%nat
    /\ default 0 (numCellsToNeighbors m' !! 1%nat) = 2.
Proof.
  destruct (sixtop_receive_RESPONSE_add_bonded 499 1 add_response
              mote_waiting_bonded (waiting_half 500 1) _
              eq_refl eq_refl eq_refl eq_refl)
    as (received & Hrec & Hcells & _ & Hlen & Hto & _).
  injection Hrec as <-.
  eexists. split; [reflexivity|].
  split; [|split; [exact Hlen|exact Hto]].
  destruct (Hcells 31 5 DIR_TXRX_SHARED 1%nat) as [_ Hcell].
  - apply list_elem_of_In. right. by left.
  - simpl. lia.
  - exact Hcell.
Defined.

(** ** 6top: an accepted DELETE response *)

Lemma counter_sub_spec k n d d' :
  counter_sub k n d = Ok d' ->
  exists v, d !! k = Some v /\ 0 <= v - n /\ d' = <[k := v - n]> d.
Proof.
  unfold counter_sub. intros H.
  destruct (d !! k) as [v|]; [|done].
  unfold mbind, outcome_bind, getitem in H. cbv beta iota in H.
  destruct (0 <=? v - n) eqn:E; [|done]. apply Z.leb_le in E.
  injection H as <-. by exists v.
Qed.

(** X12: an accepted DELETE response with return code SUCCESS, on a mote
    without slot bonding, names exactly one timeslot; the cell scheduled
    there was a cell with the neighbour and is removed, nothing else in the
    schedule changes, and the cell counters of the neighbour on the side(s)
    of the flipped direction existed, drop by one and stay non-negative. *)
Theorem sixtop_receive_RESPONSE_delete_removes asn smac payload m tx m' :
  tx_of m smac = Ok tx ->
  six_state tx = SIX_STATE_WAIT_DELETERESPONSE ->
  individualModulations (settings m) <> 1 ->
  _sixtop_receive_RESPONSE asn IANA_6TOP_RC_SUCCESS smac payload m
  = Ok (Some true, m') ->
  let newDir := flipDir (payload_dir payload) in
  exists ts c,
    payload_cellList payload = Timeslots [ts]
    /\ lookup_cell ts (schedule m) = Some c
    /\ cell_neighbor c = Unicast smac
    /\ schedule m' = pop_cell ts (schedule m)
    /\ (if decide (newDir = DIR_RX)
        then numCellsToNeighbors m' = numCellsToNeighbors m
        else exists v, numCellsToNeighbors m !! smac = Some v
                       /\ 1 <= v
                       /\ numCellsToNeighbors m'
                          = <[smac := v - 1]> (numCellsToNeighbors m))
    /\ (if decide (newDir = DIR_TX)
        then numCellsFromNeighbors m' = numCellsFromNeighbors m
        else exists v, numCellsFromNeighbors m !! smac = Some v
                       /\ 1 <= v
                       /\ numCellsFromNeighbors m'
                          = <[smac := v - 1]> (numCellsFromNeighbors m)).
Proof.
  intros Htx Hs Hmode. unfold _sixtop_receive_RESPONSE. rewrite Htx.
  unfold mbind at 1. unfold outcome_bind at 1. cbv beta iota.
  rewrite Hs. rewrite decide_False by done. rewrite decide_True by done.
  change (is_response_code IANA_6TOP_RC_SUCCESS) with true.
  cbn [negb]. cbv zeta.
  destruct (bool_decide (payload_seq payload = six_seqNum tx)); cbn [negb];
    [|done].
  destruct (six_timer tx) as [t|]; [|done].
  unfold mbind at 1. unfold outcome_bind at 1. unfold getitem. cbv beta iota.
  destruct (decide (timer_asn t = asn)); [done|].
  rewrite decide_True by done.
  change (settings (update_tx half_advance smac
                      (_stats_incrementMoteStats "6topRxDelResp" m)))
    with (settings m).
  change (schedule (update_tx half_advance smac
                      (_stats_incrementMoteStats "6topRxDelResp" m)))
    with (schedule m).
  rewrite bool_decide_eq_false_2 by done.
  destruct (payload_cellList payload) as [l|l] eqn:El.
  { destruct l as [|c0 [|c1 l]]; done. }
  destruct l as [|ts [|ts1 l]]; [done| |done].
  cbn [cellList_length length Nat.eqb negb delete_timeslots].
  unfold mbind at 1. unfold outcome_bind at 1. cbv beta iota.
  cbn [_tsch_removeCells].
  destruct (lookup_cell ts (schedule m)) as [c|] eqn:Ec; [|done].
  destruct (decide (cell_neighbor c = Unicast smac)) as [Hc|]; [|done].
  unfold mbind at 1. unfold outcome_bind at 1. cbv beta iota.
  intros H. set (newDir := flipDir (payload_dir payload)) in *.
  destruct (update_counters_sub _ _ _ _) as [m2|] eqn:E2; [|done].
  unfold mbind at 1 in H. unfold outcome_bind at 1 in H. cbv beta iota in H.
  injection H as <-.
  exists ts, c. do 3 (split; [done|]).
  change (schedule (update_tx half_idle smac m2)) with (schedule m2).
  change (numCellsToNeighbors (update_tx half_idle smac m2))
    with (numCellsToNeighbors m2).
  change (numCellsFromNeighbors (update_tx half_idle smac m2))
    with (numCellsFromNeighbors m2).
  clearbody newDir. unfold update_counters_sub in E2.
  destruct newDir; unfold mbind, outcome_bind in E2; cbv beta iota in E2.
  - destruct (counter_sub _ _ _) as [d|] eqn:Ed; [|done]. injection E2 as <-.
    apply counter_sub_spec in Ed as (v & Hv & Hge & ->).
    split; [done|]. rewrite decide_False by done. rewrite decide_True by done.
    split; [|done]. exists v. simpl in Hge. split; [done|]. split; [lia|done].
  - destruct (counter_sub _ _ _) as [d|] eqn:Ed; [|done]. injection E2 as <-.
    apply counter_sub_spec in Ed as (v & Hv & Hge & ->).
    split; [done|]. rewrite decide_True by done. rewrite decide_False by done.
    split; [done|]. exists v. simpl in Hge. split; [done|]. split; [lia|done].
  - destruct (counter_sub _ _ (numCellsToNeighbors _)) as [d|] eqn:Ed; [|done].
    destruct (counter_sub _ _ (numCellsFromNeighbors _)) as [d'|] eqn:Ed';
      [|done].
    injection E2 as <-.
    apply counter_sub_spec in Ed as (v & Hv & Hge & ->).
    apply counter_sub_spec in Ed' as (v' & Hv' & Hge' & ->).
    split; [done|]. rewrite !decide_False by done.
    split; [exists v|exists v']; simpl in *; (split; [done|]); (split; [lia|done]).
Qed.

Lemma sixtop_receive_RESPONSE_delete_removes_witness :
  exists m',
    _sixtop_receive_RESPONSE 499 IANA_6TOP_RC_SUCCESS 1 delete_response
                             mote_deleting
    = Ok (Some true, m')
    /\ (schedule m').*1 = [5; 11]
    /\ numCellsToNeighbors m' !! 1%nat = Some 1.
Proof.
  assert (Hmode : individualModulations (settings mote_deleting) <> 1)
    by (vm_compute; discriminate).
  destruct (sixtop_receive_RESPONSE_delete_removes 499 1 delete_response
              mote_deleting _ _ eq_refl eq_refl Hmode eq_refl)
    as (ts & c & Hts & _ & _ & Hsched & Hto & _).
  injection Hts as <-.
  eexists. split; [reflexivity|]. split; [by rewrite Hsched|].
  rewrite decide_False in Hto by done.
  destruct Hto as (v & Hv & _ & ->). injection Hv as <-. reflexivity.
Defined.

(** ** 6top: a timeout fires once *)

(** The 6top state after the timeout callback, entry by entry. *)
Lemma timer_fired_states asn m m' :
  _sixtop_timer_fired asn m = Ok m' ->
  (forall n, sixtopStates m' !! n
             = (fun e => if timer_due asn e then abort_tx e else e)
               <$> sixtopStates m !! n)
  /\ exists n e, sixtopStates m !! n = Some e /\ timer_due asn e = true.
Proof.
  unfold _sixtop_timer_fired. intros H.
  destruct (timer_fired_fold asn (map_to_list (sixtopStates m)).*1
              (sixtopStates m) false (NoDup_fst_map_to_list _)) as [Hst Hfound].
  destruct (foldl _ _ _) as [st found]. simpl in *.
  destruct found; [|done]. injection H as <-. split.
  - intros n. simpl. rewrite Hst. case_decide as Hn; [done|].
    destruct (sixtopStates m !! n) as [e|] eqn:E; [|done].
    exfalso. apply Hn. apply list_elem_of_fmap. exists (n, e).
    split; [done|]. by apply elem_of_map_to_list.
  - destruct Hfound as [Hfound _]. destruct (Hfound eq_refl) as [?|Hex]; [done|].
    destruct Hex as (n & e & _ & He & Hdue). by exists n, e.
Qed.

Lemma timer_due_abort asn asn' e :
  timer_due asn' (if timer_due asn e then abort_tx e else e)
  = timer_due asn' e && negb (timer_due asn e).
Proof.
  unfold timer_due, abort_tx.
  destruct (six_tx e) as [h|] eqn:Eh; [|by rewrite Eh].
  destruct (six_timer h) as [t|] eqn:Et.
  - destruct (bool_decide (timer_asn t = asn)); simpl.
    + by rewrite andb_false_r.
    + by rewrite Eh, Et, andb_true_r.
  - by rewrite Eh, Et.
Qed.

(** X13: a timeout fires once.  After [_sixtop_timer_fired] has returned, a
    second call at the same ASN fails the assertion, because every timer
    record of that ASN is deleted.  The callback neither adds nor removes a
    neighbour, leaves every rx half alone, and keeps the timers armed for
    other ASNs. *)
Theorem sixtop_timer_fired_once asn m m' :
  _sixtop_timer_fired asn m = Ok m' ->
  _sixtop_timer_fired asn m' = Raise AssertionError
  /\ (forall n, is_Some (sixtopStates m' !! n) <-> is_Some (sixtopStates m !! n))
  /\ (forall n, six_rx <$> sixtopStates m' !! n = six_rx <$> sixtopStates m !! n)
  /\ (forall n asn', asn' <> asn ->
        tx_timer_at m' n asn' <-> tx_timer_at m n asn').
Proof.
  intros Hrun. destruct (timer_fired_states _ _ _ Hrun) as [Hst _].
  assert (Hdue : forall n asn',
             tx_timer_at m' n asn'
             <-> exists e, sixtopStates m !! n = Some e
                           /\ timer_due asn' e && negb (timer_due asn e) = true).
  { intros n asn'. unfold tx_timer_at. rewrite Hst. split.
    - intros (e' & h & t & He' & Hh & Ht & Hasn).
      destruct (sixtopStates m !! n) as [e|]; [|done].
      injection He' as <-. exists e. split; [done|].
      rewrite <- timer_due_abort. apply timer_due_spec. by exists h, t.
    - intros (e & -> & Hd). rewrite <- timer_due_abort in Hd.
      apply timer_due_spec in Hd as (h & t & ?). eexists _, h, t. by split. }
  split; [|split; [|split]].
  - unfold _sixtop_timer_fired.
    destruct (timer_fired_fold asn (map_to_list (sixtopStates m')).*1
                (sixtopStates m') false (NoDup_fst_map_to_list _))
      as [_ Hfound].
    destruct (foldl _ _ _) as [st found]. simpl in *.
    destruct found; [|done]. exfalso.
    destruct Hfound as [Hfound _]. destruct (Hfound eq_refl) as [?|Hex]; [done|].
    destruct Hex as (n & e' & _ & He' & Hd).
    assert (Ht : tx_timer_at m' n asn).
    { apply timer_due_spec in Hd as (h & t & ?). by exists e', h, t. }
    apply Hdue in Ht as (e & _ & Hd'). by destruct (timer_due asn e).
  - intros n. rewrite Hst. by rewrite fmap_is_Some.
  - intros n. rewrite Hst. destruct (sixtopStates m !! n) as [e|]; [|done].
    simpl. f_equal. unfold abort_tx.
    destruct (timer_due asn e); [|done]. by destruct (six_tx e).
  - intros n asn' Hne. rewrite Hdue. unfold tx_timer_at. split.
    + intros (e & He & Hd). apply andb_true_iff in Hd as [Hd _].
      apply timer_due_spec in Hd as (h & t & ?). by exists e, h, t.
    + intros (e & h & t & He & Hh & Ht & Hasn). exists e. split; [done|].
      apply andb_true_iff. split.
      * apply timer_due_spec. by exists h, t.
      * apply negb_true_iff, not_true_iff_false.
        intros (h' & t' & Hh' & Ht' & Hasn')%timer_due_spec. congruence.
Qed.

Lemma sixtop_timer_fired_once_witness :
  exists m',
    _sixtop_timer_fired 500 mote_waiting = Ok m'
    /\ _sixtop_timer_fired 500 m' = Raise AssertionError
    /\ (tx_timer_at m' 2 700 <-> tx_timer_at mote_waiting 2 700).
Proof.
  assert (Hr : exists m', _sixtop_timer_fired 500 mote_waiting = Ok m')
    by (eexists; vm_compute; reflexivity).
  destruct Hr as [m' Hr]. exists m'. split; [exact Hr|].
  destruct (sixtop_timer_fired_once 500 mote_waiting m' Hr)
    as (Hagain & _ & _ & Hother).
  split; [exact Hagain|]. by apply Hother.
Defined.

(** ** Radio: an acknowledged 6P request arms the timeout *)


Lemma txDone_resetBackoff_sixtop d p m :
  sixtopStates (txDone_resetBackoff d p m) = sixtopStates m
  /\ txQueue (txDone_resetBackoff d p m) = txQueue m
  /\ motestats (txDone_resetBackoff d p m) = motestats m
  /\ id (txDone_resetBackoff d p m) = id m.
Proof. unfold txDone_resetBackoff. repeat case_match; done. Qed.




(** ** Radio: the retry budget *)

Lemma list_index_lookup p l i : list_index p l = Some i -> l !! i = Some p.
Proof.
  revert i. induction l as [|q l IH]; intros i H; [done|]. simpl in H.
  destruct (decide (q = p)) as [->|].
  - by injection H as <-.
  - destruct (list_index p l) as [j|]; [|done]. injection H as <-.
    simpl. by apply IH.
Qed.

Lemma list_remove_perm p l l' : list_remove p l = Some l' -> l ≡ₚ p :: l'.
Proof.
  revert l'. induction l as [|q l IH]; intros l' H; [done|]. simpl in H.
  destruct (decide (q = p)) as [->|].
  - by injection H as <-.
  - destruct (list_remove p l) as [l0|]; [|done]. injection H as <-.
    rewrite (IH l0 eq_refl). apply Permutation_swap.
Qed.

Lemma delete_insert_same {A} (l : list A) i x :
  delete i (<[i := x]> l) = delete i l.
Proof.
  revert i. induction l as [|y l IH]; intros [|i]; simpl; [done..|].
  f_equal. apply IH.
Qed.

Lemma dropped_stats (P : Prop) (d : {P} + {~ P}) m :
  motestats
    (_stats_incrementMoteStats "droppedMacRetries"
       (if d then _stats_incrementMoteStats "droppedDataMacRetries" m else m))
    "droppedMacRetries"
  = motestats m "droppedMacRetries" + 1
  /\ txQueue (if d then _stats_incrementMoteStats "droppedDataMacRetries" m
              else m)
     = txQueue m.
Proof. by destruct d. Qed.

Lemma txDone_retry_spec i0 pkt m m' :
  list_index pkt (txQueue m) = Some i0 ->
  1 <= pkt_retriesLeft pkt ->
  txDone_retry i0 pkt m = Ok m' ->
  (1 < pkt_retriesLeft pkt ->
   txQueue m' = <[i0 := set_retriesLeft (pkt_retriesLeft pkt - 1) pkt]> (txQueue m)
   /\ motestats m' = motestats m)
  /\ (pkt_retriesLeft pkt = 1 ->
      txQueue m' ≡ₚ delete i0 (txQueue m)
      /\ motestats m' "droppedMacRetries" = motestats m "droppedMacRetries" + 1).
Proof.
  intros Hidx Hr. pose proof (list_index_lookup _ _ _ Hidx) as Hlook.
  unfold txDone_retry. rewrite Hidx.
  unfold mbind at 1. unfold outcome_bind at 1. unfold or_raise at 1.
  cbv beta iota. rewrite Hlook.
  unfold mbind at 1. unfold outcome_bind at 1. unfold or_raise at 1.
  cbv beta iota zeta.
  assert (Hpos : (0 <? pkt_retriesLeft pkt) = true) by (apply Z.ltb_lt; lia).
  rewrite Hpos. rewrite (decide_True (P := i0 = i0)) by done.
  change (pkt_retriesLeft (set_retriesLeft (pkt_retriesLeft pkt - 1) pkt))
    with (pkt_retriesLeft pkt - 1).
  set (pkt' := set_retriesLeft (pkt_retriesLeft pkt - 1) pkt).
  destruct (decide (pkt_retriesLeft pkt - 1 = 0)) as [Hz|Hnz].
  - intros H. split; [lia|]. intros _.
    change (txQueue (_stats_incrementMoteStats "droppedMacRetries" ?x))
      with (txQueue x) in H.
    rewrite (proj2 (dropped_stats _ _ _)) in H. cbn [txQueue set_txQueue] in H.
    destruct (list_remove pkt' _) as [q|] eqn:Eq; [|done].
    unfold or_raise in H. unfold mbind at 1 in H. unfold outcome_bind at 1 in H.
    cbv beta iota in H.
    apply list_remove_perm in Eq.
    assert (Hperm : q ≡ₚ delete i0 (txQueue m)).
    { apply (Permutation_cons_inv (a := pkt')). rewrite <- Eq.
      rewrite <- (delete_insert_same (txQueue m) i0 pkt').
      apply delete_Permutation. apply list_lookup_insert_eq.
      by apply lookup_lt_Some in Hlook. }
    set (m1 := set_txQueue q _) in H.
    assert (Hm1 : txQueue m1 = q
                  /\ motestats m1 "droppedMacRetries"
                     = motestats m "droppedMacRetries" + 1).
    { subst m1. split; [done|]. cbn [motestats set_txQueue].
      by rewrite (proj1 (dropped_stats _ _ _)). }
    destruct Hm1 as [Hq1 Hs1].
    assert (Hout : txQueue m' = txQueue m1 /\ motestats m' = motestats m1).
    { clearbody m1. unfold update_rx, dst_id, tx_of in H.
      outcome_inv H; done. }
    destruct Hout as [-> ->]. by rewrite Hq1.
  - intros [= <-]. split; [|lia]. intros _. done.
Qed.

Lemma txDone_backoff_frame randint cell m m1 :
  txDone_backoff randint cell m = Ok m1 ->
  txQueue m1 = txQueue m /\ motestats m1 = motestats m.
Proof.
  unfold txDone_backoff. intros H.
  destruct (decide (cell_dir cell = DIR_TXRX_SHARED)); [|by injection H as <-].
  destruct (cell_neighbor cell).
  - unfold mbind, outcome_bind, getitem in H.
    destruct (backoffExponentPerNeigh m !! n); [|done]. by injection H as <-.
  - injection H as <-. by destruct (_ <? _).
Qed.

(** X15: the retry budget of a frame that was not acknowledged (a NACK, or
    silence after a unicast frame).  When the frame being sent is the first
    of its content in the queue and has retries left, [radio_txDone] either
    takes one retry from it and keeps it in its place, when more than one
    was left, or, when it was the last one, drops the frame from the queue
    and counts it in [droppedMacRetries].  No frame with a spent budget
    stays in the queue, and the mote no longer waits for the slot. *)
Theorem radio_txDone_retry_budget
    randint response_ack asn isNACKed m m' i0 pkt :
  pktToSend m = Some i0 ->
  list_index pkt (txQueue m) = Some i0 ->
  isNACKed = true \/ pkt_dstIp pkt <> BROADCAST_ADDRESS ->
  1 <= pkt_retriesLeft pkt ->
  radio_txDone randint response_ack asn false isNACKed m = Ok m' ->
  waitingFor m' = None
  /\ (1 < pkt_retriesLeft pkt ->
      txQueue m'
      = <[i0 := set_retriesLeft (pkt_retriesLeft pkt - 1) pkt]> (txQueue m)
      /\ motestats m' = motestats m)
  /\ (pkt_retriesLeft pkt = 1 ->
      txQueue m' ≡ₚ delete i0 (txQueue m)
      /\ motestats m' "droppedMacRetries"
         = motestats m "droppedMacRetries" + 1).
Proof.
  intros Hsend Hidx Hcase Hr.
  pose proof (list_index_lookup _ _ _ Hidx) as Hlook.
  unfold radio_txDone.
  destruct (decide (slotframeLength (settings m) = 0)); [done|].
  cbv zeta.
  destruct (lookup_cell _ (schedule m)) as [cell|]; [|done].
  unfold mbind at 1. unfold outcome_bind at 1. unfold or_raise at 1.
  cbv beta iota.
  destruct (negb (_ || _)); [done|].
  destruct (negb (bool_decide (waitingFor m = Some DIR_TX))); [done|].
  rewrite Hsend.
  unfold mbind at 1. unfold outcome_bind at 1. unfold or_raise at 1.
  cbv beta iota. rewrite Hlook.
  unfold mbind at 1. unfold outcome_bind at 1. unfold or_raise at 1.
  cbv beta iota.
  assert (Hgoal : forall mpre mpost : Mote,
             txQueue mpre = txQueue m -> motestats mpre = motestats m ->
             txDone_retry i0 pkt mpre = Ok mpost ->
             (1 < pkt_retriesLeft pkt ->
              txQueue mpost
              = <[i0 := set_retriesLeft (pkt_retriesLeft pkt - 1) pkt]> (txQueue m)
              /\ motestats mpost = motestats m)
             /\ (pkt_retriesLeft pkt = 1 ->
                 txQueue mpost ≡ₚ delete i0 (txQueue m)
                 /\ motestats mpost "droppedMacRetries"
                    = motestats m "droppedMacRetries" + 1)).
  { intros mpre mpost Hq Hs Hrun. rewrite <- Hq, <- Hs.
    apply txDone_retry_spec; [by rewrite Hq|done|done]. }
  destruct isNACKed.
  - set (mpre := if peer_is _ _ then _ else _).
    assert (Hpre : txQueue mpre = txQueue m /\ motestats mpre = motestats m)
      by (subst mpre; by destruct (peer_is _ _)).
    destruct Hpre as [Hq Hs].
    destruct (if _ || _ then _ else _) as [?|]; [|done].
    unfold mbind at 2. unfold outcome_bind at 2. cbv beta iota.
    destruct (txDone_retry i0 pkt mpre) as [mpost|] eqn:Erun; [|done].
    unfold mbind, outcome_bind. cbv beta iota. intros [= <-].
    split; [done|].
    destruct (txDone_resetBackoff_sixtop (cell_dir cell) (cell_neighbor cell)
                mpost) as (_ & Hq' & Hs' & _).
    cbn [txQueue motestats set_waitingFor]. rewrite Hq', Hs'.
    by apply (Hgoal mpre).
  - destruct Hcase as [?|Hdst]; [done|]. rewrite decide_False by done.
    destruct (txDone_backoff randint cell m) as [m1|] eqn:Eb; [|done].
    apply txDone_backoff_frame in Eb as [Hq Hs].
    unfold mbind at 2. unfold outcome_bind at 2. cbv beta iota.
    destruct (txDone_retry i0 pkt _) as [mpost|] eqn:Erun; [|done].
    unfold mbind, outcome_bind. cbv beta iota. intros [= <-].
    split; [done|]. cbn [txQueue motestats set_waitingFor].
    eapply Hgoal; [| |exact Erun]; [exact Hq|exact Hs].
Qed.

Lemma radio_txDone_retry_budget_witness :
  exists m',
    radio_txDone no_randint no_response_ack 510 false false mote_sending = Ok m'
    /\ txQueue m' = [set_retriesLeft 3 (queued data_packet)]
    /\ motestats m' = motestats mote_sending.
Proof.
  assert (Hr : exists m', radio_txDone no_randint no_response_ack 510 false false
                            mote_sending = Ok m')
    by (eexists; vm_compute; reflexivity).
  destruct Hr as [m' Hr]. exists m'. split; [exact Hr|].
  destruct (radio_txDone_retry_budget no_randint no_response_ack 510 false
              mote_sending m' 0 (queued data_packet) eq_refl eq_refl)
    as (_ & Hmore & _); [by right|done|exact Hr|].
  by apply Hmore.
Defined.

(** ** 6top: the cells named in a DELETE request *)

Lemma removal_candidates_spec m neighbor sched cands :
  removal_candidates m neighbor sched = Ok cands ->
  ts_of <$> cands
  = (filter (fun e : Z * Cell =>
               bool_decide (cell_parentTs e.2 = Some e.1)
               && is_tx_or_shared_to neighbor e.2) sched).*1.
Proof.
  revert cands. induction sched as [|[ts cell] rest IH]; intros cands H.
  - by injection H as <-.
  - cbn [removal_candidates] in H. rewrite filter_cons.
    destruct (bool_decide (cell_parentTs cell = Some ts)
              && is_tx_or_shared_to neighbor cell) eqn:E.
    + rewrite decide_True by (cbn [fst snd]; by rewrite E).
      unfold mbind, outcome_bind in H. cbv beta iota in H.
      destruct (getCellPDR m cell) as [pdr|]; [|done].
      destruct (removal_candidates m neighbor rest) as [l|]; [|done].
      injection H as <-. rewrite !fmap_cons. cbn [ts_of fst]. f_equal.
      by apply IH.
    + rewrite decide_False by (cbn [fst snd]; rewrite E; exact (fun F => F)). by apply IH.
Qed.

Lemma tsch_removeCells_runs neighbor tsList sched :
  NoDup sched.*1 -> NoDup tsList ->
  (forall ts, ts ∈ tsList ->
     exists c, lookup_cell ts sched = Some c /\ cell_neighbor c = neighbor) ->
  exists sched', _tsch_removeCells neighbor tsList sched = Ok sched'.
Proof.
  revert sched. induction tsList as [|ts rest IH]; intros sched Hnd Hts Hown.
  - by eexists.
  - simpl. destruct (Hown ts) as (c & -> & Hc); [by left|].
    rewrite decide_True by done. apply NoDup_cons in Hts as [Hts Hrest].
    apply IH; [by apply pop_cell_NoDup|done|].
    intros ts' Hin. rewrite lookup_cell_pop by done.
    rewrite decide_False; [apply Hown; by right|]. by intros ->.
Qed.

Lemma is_tx_or_shared_to_neighbor n cell :
  is_tx_or_shared_to n cell = true -> cell_neighbor cell = Unicast n.
Proof.
  unfold is_tx_or_shared_to.
  intros [[? _]%bool_decide_eq_true|[_ ?]%bool_decide_eq_true]%orb_true_iff;
    done.
Qed.

(** X16: the timeslots [_sixtop_removeCells] hands to a DELETE request.
    Whether the order is the worst-cell order or a random permutation, the
    list has exactly [numCellsToRemove] entries, names no timeslot twice,
    and every entry is the parent timeslot of a TX or SHARED cell scheduled
    with the neighbour; [_tsch_removeCells] for that neighbour accepts the
    list. *)
Theorem sixtop_removeCells_names_own_cells shuffle m neighbor n tsList :
  (forall l, shuffle l ≡ₚ l) ->
  NoDup (schedule m).*1 ->
  _sixtop_removeCells shuffle m neighbor n = Ok tsList ->
  Z.of_nat (length tsList) = n
  /\ NoDup tsList
  /\ (forall ts, ts ∈ tsList ->
        exists cell,
          lookup_cell ts (schedule m) = Some cell
          /\ cell_parentTs cell = Some ts
          /\ cell_neighbor cell = Unicast neighbor
          /\ (cell_dir cell = DIR_TX \/ cell_dir cell = DIR_TXRX_SHARED))
  /\ exists sched',
       _tsch_removeCells (Unicast neighbor) tsList (schedule m) = Ok sched'.
Proof.
  intros Hshuffle Hnd. unfold _sixtop_removeCells.
  destruct (removal_candidates m neighbor (schedule m)) as [cands|] eqn:Ec;
    [|done].
  unfold mbind at 1. unfold outcome_bind at 1. cbv beta iota.
  pose proof (removal_candidates_spec _ _ _ _ Ec) as Hts.
  assert (Horder : forall order : list tscell,
             order ≡ₚ cands ->
             (if n <? 0 then Raise AssertionError
              else if decide (Z.of_nat (length (ts_of <$> take (Z.to_nat n) order))
                              = n)
                   then Ok (ts_of <$> take (Z.to_nat n) order)
                   else Raise AssertionError) = Ok tsList ->
             Z.of_nat (length tsList) = n
             /\ NoDup tsList
             /\ (forall ts, ts ∈ tsList ->
                   exists cell,
                     lookup_cell ts (schedule m) = Some cell
                     /\ cell_parentTs cell = Some ts
                     /\ cell_neighbor cell = Unicast neighbor
                     /\ (cell_dir cell = DIR_TX
                         \/ cell_dir cell = DIR_TXRX_SHARED))).
  { intros order Hperm H. destruct (n <? 0); [done|].
    destruct (decide _) as [Hlen|]; [|done]. injection H as <-.
    split; [done|].
    assert (Hsub : ts_of <$> take (Z.to_nat n) order `sublist_of` ts_of <$> order).
    { apply fmap_sublist, sublist_take. }
    assert (Hndf : NoDup (ts_of <$> order)).
    { rewrite Hperm, Hts.
      apply (sublist_NoDup _ (schedule m).*1); [exact Hnd|].
      apply fmap_sublist, sublist_filter. }
    split; [by apply (sublist_NoDup _ _ Hndf)|].
    intros ts Hin.
    assert (Hin' : ts ∈ ts_of <$> cands).
    { rewrite <- Hperm.
      eapply elem_of_submseteq; [exact Hin|by apply sublist_submseteq]. }
    rewrite Hts in Hin'.
    apply list_elem_of_fmap in Hin'
      as ([ts' cell] & -> & [HP Hel]%list_elem_of_filter).
    exists cell. simpl. split; [by apply lookup_cell_elem|].
    apply Is_true_true in HP. cbn [fst snd] in HP.
    apply andb_true_iff in HP as [Hp%bool_decide_eq_true Hto].
    split; [done|]. split; [by apply is_tx_or_shared_to_neighbor|].
    unfold is_tx_or_shared_to in Hto.
    apply orb_true_iff in Hto
      as [[_ ?]%bool_decide_eq_true|[? _]%bool_decide_eq_true];
      [by left|by right]. }
  intros H.
  assert (Hres : Z.of_nat (length tsList) = n
                 /\ NoDup tsList
                 /\ (forall ts, ts ∈ tsList ->
                       exists cell,
                         lookup_cell ts (schedule m) = Some cell
                         /\ cell_parentTs cell = Some ts
                         /\ cell_neighbor cell = Unicast neighbor
                         /\ (cell_dir cell = DIR_TX
                             \/ cell_dir cell = DIR_TXRX_SHARED))).
  { destruct (sixtopRemoveRandomCell (settings m)).
    - unfold mbind, outcome_bind in H. cbv beta iota in H.
      by apply (Horder (shuffle cands)).
    - destruct (getPDR m (Unicast neighbor)) as [theoPDR|]; [|done].
      unfold mbind, outcome_bind in H. cbv beta iota in H.
      apply (Horder (worst_cell_order theoPDR cands)); [|done].
      apply worst_cell_order_perm. }
  destruct Hres as (Hlen & Hnd' & Hown). do 3 (split; [done|]).
  apply tsch_removeCells_runs; [done|done|].
  intros ts Hin. destruct (Hown ts Hin) as (cell & ? & _ & ? & _).
  by exists cell.
Qed.

Lemma sixtop_removeCells_names_own_cells_witness :
  NoDup (schedule mote_three_cells).*1
  /\ exists tsList sched',
       _sixtop_removeCells no_shuffle mote_three_cells 1 2 = Ok tsList
       /\ length tsList = 2%nat
       /\ _tsch_removeCells (Unicast 1) tsList (schedule mote_three_cells)
          = Ok sched'.
Proof.
  assert (Hnd : NoDup (schedule mote_three_cells).*1).
  { apply (bool_decide_unpack _). vm_compute. exact I. }
  split; [exact Hnd|].
  assert (Hr : exists tsList,
             _sixtop_removeCells no_shuffle mote_three_cells 1 2 = Ok tsList)
    by (eexists; vm_compute; reflexivity).
  destruct Hr as [tsList Hr].
  destruct (sixtop_removeCells_names_own_cells no_shuffle mote_three_cells 1 2
              tsList (fun l => reflexivity l) Hnd Hr)
    as (Hlen & _ & _ & sched' & Hrem).
  exists tsList, sched'. split; [exact Hr|]. split; [lia|exact Hrem].
Defined.

(** ** RPL: source routes *)

Lemma route_chain_snoc parents l a b :
  route_chain parents l -> last l = Some a -> first_parent parents a b ->
  route_chain parents (l ++ [b]).
Proof.
  intros Hl Hlast Hab l1 x y l2 Heq.
  destruct l2 as [|z l2 _] using rev_ind.
  - change (l1 ++ [x; y]) with (l1 ++ [x] ++ [y]) in Heq.
    rewrite (assoc_L (++)) in Heq. apply app_inj_tail in Heq as [-> ->].
    rewrite last_snoc in Hlast. by injection Hlast as <-.
  - change (l1 ++ x :: y :: l2 ++ [z]) with (l1 ++ (x :: y :: l2) ++ [z]) in Heq.
    rewrite (assoc_L (++)) in Heq. apply app_inj_tail in Heq as [-> _].
    by apply (Hl l1 x y l2).
Qed.

Lemma route_chain_lookup parents l i a b :
  route_chain parents l -> l !! i = Some a -> l !! S i = Some b ->
  first_parent parents a b.
Proof.
  intros Hl Ha Hb. apply (Hl (take i l) a b (drop (S (S i)) l)).
  rewrite <- (take_drop_middle l i a Ha) at 1. f_equal. f_equal.
  by apply drop_S.
Qed.

Lemma route_chain_prefix parents l k :
  route_chain parents (l ++ k) -> route_chain parents l.
Proof.
  intros H l1 a b l2 ->. apply (H l1 a b (l2 ++ k)).
  by rewrite <- !(assoc_L (++)).
Qed.

(** The recursion of [_rpl_getSourceRoute_internal] ends within the fuel:
    the motes with a parent list that are not yet on the route, the current
    one counted among them, get fewer with every call. *)
Lemma rpl_getSourceRoute_internal_total parents fuel destAddr sourceRoute :
  (size (dom parents ∖ (list_to_set sourceRoute ∖ {[destAddr]})) < fuel)%nat ->
  is_Some (_rpl_getSourceRoute_internal fuel parents destAddr sourceRoute).
Proof.
  revert destAddr sourceRoute.
  induction fuel as [|fuel IH]; intros dest sr Hfuel; [lia|].
  simpl. destruct (negb (truthy dest)); [done|].
  destruct (parents !! dest) as [[|parent ps]|] eqn:Ep; [done| |done].
  set (sr1 := if decide (dest ∈ sr) then sr else sr ++ [dest]).
  destruct (decide (parent ∈ sr1)) as [|Hp]; [done|].
  apply IH.
  assert (Hdest : dest ∈ sr1).
  { subst sr1. case_decide; [done|]. apply elem_of_app. right. by left. }
  assert (Hsr : forall x, x ∈ sr -> x ∈ sr1).
  { subst sr1. intros x Hx. case_decide; [done|]. apply elem_of_app. by left. }
  assert (Hdom : dest ∈ dom parents) by (apply elem_of_dom; by eexists).
  assert (Hlt : dom parents ∖ (list_to_set (sr1 ++ [parent]) ∖ {[parent]})
                ⊂ dom parents ∖ (list_to_set sr ∖ {[dest]})).
  { split.
    - intros x [Hx Hnx]%elem_of_difference. apply elem_of_difference.
      split; [done|]. intros [Hin Hne]%elem_of_difference. apply Hnx.
      apply elem_of_difference. split.
      + apply elem_of_list_to_set, elem_of_app. left.
        apply Hsr. by apply elem_of_list_to_set in Hin.
      + intros ->%elem_of_singleton. apply Hp, Hsr.
        by apply elem_of_list_to_set in Hin.
    - intros Hsub. assert (Hin : dest ∈ dom parents ∖ (list_to_set sr ∖ {[dest]})).
      { apply elem_of_difference. split; [done|].
        intros [_ Hne]%elem_of_difference. by apply Hne, elem_of_singleton. }
      apply Hsub in Hin. apply elem_of_difference in Hin as [_ Hn]. apply Hn.
      apply elem_of_difference. split.
      + apply elem_of_list_to_set, elem_of_app. by left.
      + intros ->%elem_of_singleton. by apply Hp. }
  apply subset_size in Hlt. lia.
Qed.

(** What a call leaves on the route. *)
Lemma rpl_getSourceRoute_internal_spec parents fuel destAddr sourceRoute route :
  _rpl_getSourceRoute_internal fuel parents destAddr sourceRoute = Some route ->
  sourceRoute = [] \/ last sourceRoute = Some destAddr ->
  NoDup sourceRoute -> route_chain parents sourceRoute ->
  NoDup route /\ route_chain parents route
  /\ (exists ext, route = sourceRoute ++ ext)
  /\ (sourceRoute = [] -> route = [] \/ head route = Some destAddr)
  /\ (sourceRoute = [] -> route = [] -> no_parents parents destAddr)
  /\ (route = []
      \/ exists top,
           last route = Some top
           /\ (no_parents parents top
               \/ exists p, first_parent parents top p /\ p ∈ route)).
Proof.
  revert destAddr sourceRoute.
  induction fuel as [|fuel IH]; intros dest sr Hrun Hlast Hnd Hchain; [done|].
  simpl in Hrun.
  assert (Hstay : no_parents parents dest ->
                  NoDup sr /\ route_chain parents sr
                  /\ (exists ext, sr = sr ++ ext)
                  /\ (sr = [] -> sr = [] \/ head sr = Some dest)
                  /\ (sr = [] -> sr = [] -> no_parents parents dest)
                  /\ (sr = []
                      \/ exists top,
                           last sr = Some top
                           /\ (no_parents parents top
                               \/ exists p, first_parent parents top p /\ p ∈ sr))).
  { intros Hno. split; [done|]. split; [done|].
    split; [exists []; by rewrite app_nil_r|].
    split; [by left|]. split; [done|].
    destruct Hlast as [->|Hl]; [by left|]. right. exists dest. split; [done|].
    by left. }
  destruct (negb (truthy dest)) eqn:Et.
  { injection Hrun as <-. apply Hstay. left. by destruct dest. }
  destruct (parents !! dest) as [[|parent ps]|] eqn:Ep.
  { injection Hrun as <-. apply Hstay. right. by right. }
  2:{ injection Hrun as <-. apply Hstay. right. by left. }
  clear Hstay.
  set (sr1 := if decide (dest ∈ sr) then sr else sr ++ [dest]) in *.
  assert (Hsr1 : NoDup sr1 /\ route_chain parents sr1 /\ last sr1 = Some dest
                 /\ (exists ext, sr1 = sr ++ ext)
                 /\ (sr = [] -> sr1 = [dest])).
  { subst sr1. destruct Hlast as [->|Hlast].
    - rewrite decide_False by apply not_elem_of_nil. simpl.
      split; [apply NoDup_singleton|]. split.
      + intros [|? [|? ?]] a b l2 Heq; simplify_eq.
      + split; [done|]. split; [by exists [dest]|done].
    - assert (Hin : dest ∈ sr).
      { destruct sr as [|x sr _] using rev_ind; [done|].
        rewrite last_snoc in Hlast. injection Hlast as ->.
        apply elem_of_app. right. by left. }
      rewrite decide_True by done. split; [done|]. split; [done|].
      split; [done|]. split; [exists []; by rewrite app_nil_r|].
      intros ->. by apply elem_of_nil in Hin. }
  destruct Hsr1 as (Hnd1 & Hchain1 & Hlast1 & [ext1 Hext1] & Hfirst1).
  assert (Hne1 : sr1 <> []) by (intros E; by rewrite E in Hlast1).
  destruct (decide (parent ∈ sr1)) as [Hp|Hp].
  - injection Hrun as <-. split; [done|]. split; [done|].
    split; [by exists ext1|]. split.
    { intros Hnil. right. by rewrite (Hfirst1 Hnil). }
    split; [done|].
    right. exists dest. split; [done|]. right. exists parent.
    split; [by exists ps|done].
  - destruct (IH parent (sr1 ++ [parent]) Hrun)
      as (Hndr & Hchr & [ext Hext] & _ & _ & Htop).
    + right. apply last_snoc.
    + apply NoDup_app. split; [done|]. split; [|apply NoDup_singleton].
      intros x Hx ->%list_elem_of_singleton. by apply Hp.
    + apply (route_chain_snoc parents sr1 dest parent); [done|done|by exists ps].
    + split; [done|]. split; [done|]. split.
      { exists (ext1 ++ [parent] ++ ext). rewrite Hext, Hext1.
        by rewrite <- !(assoc_L (++)). }
      split.
      { intros Hnil. right. by rewrite Hext, (Hfirst1 Hnil). }
      split; [|done].
      intros _ Hnil. rewrite Hnil in Hext. by destruct sr1.
Qed.

Lemma pop_last_snoc {A} (l : list A) x : pop_last (l ++ [x]) = l.
Proof.
  unfold pop_last. rewrite length_app. simpl.
  replace (length l + 1 - 1)%nat with (length l) by lia.
  by rewrite take_app_length.
Qed.

(** X17: [_rpl_getSourceRoute] always returns, also when the recorded
    parents form a loop.  The route names no mote twice; when it is not
    empty it starts at the destination, every entry is followed by the
    first parent recorded for it, and the mote that was popped from its end
    is the first parent of the last entry, is not on the route, and is where
    the climb ended: it has no recorded parent, or its first parent is
    itself or on the route already.  The route is empty only for a
    destination without recorded parent or recorded as its own parent. *)
Theorem rpl_getSourceRoute_route parents destAddr :
  exists route,
    _rpl_getSourceRoute parents destAddr = Some route
    /\ NoDup route
    /\ (route = [] \/ head route = Some destAddr)
    /\ (forall i a b,
          route !! i = Some a -> route !! S i = Some b ->
          first_parent parents a b)
    /\ (forall a, last route = Some a ->
          exists top,
            first_parent parents a top /\ (top ∉ route)
            /\ (no_parents parents top
                \/ exists p, first_parent parents top p
                             /\ (p ∈ route \/ p = top)))
    /\ (route = [] ->
        no_parents parents destAddr \/ first_parent parents destAddr destAddr).
Proof.
  destruct (rpl_getSourceRoute_internal_total parents (S (size parents))
              destAddr []) as [r Hr].
  { apply Nat.lt_succ_r. rewrite <- (size_dom (D := gset (list nat)) parents).
    apply subseteq_size. apply subseteq_difference_l. done. }
  destruct (rpl_getSourceRoute_internal_spec _ _ _ _ _ Hr)
    as (Hnd & Hchain & _ & Hhead & Hempty & Htop).
  { by left. } { constructor. } { by intros [|? [|? ?]] ? ? ? ?. }
  unfold _rpl_getSourceRoute. rewrite Hr. simpl.
  destruct r as [|top r _] using rev_ind.
  - exists []. split; [done|]. split; [constructor|]. split; [by left|].
    split; [done|]. split; [done|]. intros _. left. by apply Hempty.
  - rewrite pop_last_snoc. exists r. split; [done|].
    apply NoDup_app in Hnd as (Hndr & Hdisj & _).
    assert (Hfresh : top ∉ r).
    { intros Hin. apply (Hdisj top Hin). by left. }
    destruct Htop as [Hnil|(top' & Hlast & Hstop)]; [by destruct r|].
    rewrite last_snoc in Hlast. injection Hlast as <-.
    assert (Hstop' : no_parents parents top
                     \/ exists p, first_parent parents top p
                                  /\ (p ∈ r \/ p = top)).
    { destruct Hstop as [?|(p & Hp & Hin)]; [by left|]. right. exists p.
      split; [done|]. apply elem_of_app in Hin as [?|?%list_elem_of_singleton];
        [by left|by right]. }
    split; [done|]. split.
    { destruct r as [|x r]; [by left|]. right.
      destruct (Hhead eq_refl) as [?|Hh]; [done|]. done. }
    split.
    { intros i a b Ha Hb.
      apply (route_chain_lookup parents r i a b); [|done|done].
      by apply (route_chain_prefix parents r [top]). }
    split.
    { intros a Ha. exists top. split; [|done].
      destruct r as [|x r' _] using rev_ind; [done|].
      rewrite last_snoc in Ha. injection Ha as <-.
      apply (Hchain r' x top []). by rewrite <- (assoc_L (++)). }
    intros ->. destruct (Hhead eq_refl) as [?|Hh]; [done|].
    injection Hh as ->. destruct Hstop' as [?|(p & Hp & [Hin| ->])];
      [by left|by apply elem_of_nil in Hin|by right].
Qed.

(** Down the line 5 - 4 - 3 - 1 the route ends below mote 1; in the loop
    between 8 and 9 the climb stops when it meets 8 again. *)
Example rpl_getSourceRoute_line_and_loop :
  _rpl_getSourceRoute parents_line [5%nat] = Some [[5]; [4]; [3]]%nat
  /\ _rpl_getSourceRoute parents_line [8%nat] = Some [[8%nat]]
  /\ _rpl_getSourceRoute parents_line [1%nat] = Some [].
Proof. repeat split; vm_compute; reflexivity. Qed.

(** ** 6top: the cells offered in answer to an ADD request *)

Lemma select_cells_spec free numCells newDir cellList acc :
  exists sel,
    select_cells free numCells newDir cellList acc = acc ++ sel
    /\ sel `sublist_of`
         ((fun c : CellTuple => (c.1.1, c.1.2, newDir)) <$> cellList)
    /\ Forall (fun c : CellTuple => free c.1.1 = true) sel
    /\ (Z.of_nat (length acc) <= numCells ->
        Z.of_nat (length (acc ++ sel)) <= numCells)
    /\ (Z.of_nat (length (acc ++ sel)) <> numCells ->
        forall c, c ∈ cellList -> free c.1.1 = true ->
                  (c.1.1, c.1.2, newDir) ∈ sel).
Proof.
  revert acc. induction cellList as [|c rest IH]; intros acc.
  - exists []. simpl. rewrite app_nil_r. split; [done|]. split; [done|].
    split; [done|]. split; [done|]. intros _ c Hc. by apply elem_of_nil in Hc.
  - simpl. destruct (decide (Z.of_nat (length acc) = numCells)) as [Hfull|Hroom].
    + exists []. rewrite app_nil_r. split; [done|].
      split; [apply sublist_nil_l|]. split; [done|]. split; [done|]. done.
    + destruct (free c.1.1) eqn:Ef.
      * destruct (IH (acc ++ [(c.1.1, c.1.2, newDir)]))
          as (sel & Hrun & Hsub & Hfree & Hlen & Hmax).
        exists ((c.1.1, c.1.2, newDir) :: sel).
        rewrite Hrun, <- (assoc_L (++)). split; [done|].
        split; [by apply sublist_skip|]. split; [by constructor|].
        rewrite <- (assoc_L (++)) in Hlen, Hmax. simpl in Hlen, Hmax.
        split.
        { intros Hacc. apply Hlen. rewrite length_app. simpl. lia. }
        intros Hne c' [->|Hin]%elem_of_cons Hc'; [by left|].
        right. by apply Hmax.
      * destruct (IH acc) as (sel & Hrun & Hsub & Hfree & Hlen & Hmax).
        exists sel. split; [done|]. split; [by apply sublist_cons|].
        split; [done|]. split; [done|].
        intros Hne c' [->|Hin]%elem_of_cons Hc'; [congruence|].
        by apply Hmax.
Qed.

Lemma in_schedule_false ts sched : in_schedule ts sched = false <-> ts ∉ sched.*1.
Proof.
  rewrite <- not_true_iff_false. by rewrite in_schedule_spec.
Qed.

Lemma request_received_frame smac m :
  schedule (request_received smac m) = schedule m
  /\ settings (request_received smac m) = settings m
  /\ txQueue (request_received smac m) = txQueue m
  /\ (forall n, n <> smac ->
        sixtopStates (request_received smac m) !! n = sixtopStates m !! n).
Proof.
  split; [done|]. split; [done|]. split; [done|].
  intros n Hn. unfold request_received. simpl. by rewrite lookup_insert_ne.
Qed.

Lemma tsBlocked_for_spec neighbor states ts n e :
  ts ∉ tsBlocked_for neighbor states ->
  n <> neighbor -> states !! n = Some e ->
  ts ∉ (blocked_halves e).*1.*1.
Proof.
  intros Hts Hn He Hin. apply Hts. unfold tsBlocked_for.
  apply list_elem_of_fmap in Hin as (tc & -> & Hin).
  apply list_elem_of_fmap in Hin as (c & -> & Hin).
  apply list_elem_of_fmap. exists c.1. split; [done|].
  apply list_elem_of_fmap. exists c. split; [done|].
  apply list_elem_of_bind. exists (n, e). split.
  - simpl. by rewrite decide_False.
  - by apply elem_of_map_to_list.
Qed.


Lemma select_cells_ext f g numCells newDir cellList acc :
  (forall ts, f ts = g ts) ->
  select_cells f numCells newDir cellList acc
  = select_cells g numCells newDir cellList acc.
Proof.
  intros Hfg. revert acc. induction cellList as [|c rest IH]; intros acc; [done|].
  simpl. rewrite Hfg. destruct (decide _); [done|].
  destruct (g c.1.1); apply IH.
Qed.

Lemma allFree_ext f g slots ts :
  (forall ts, f ts = g ts) -> allFree f slots ts = allFree g slots ts.
Proof.
  intros Hfg. unfold allFree. induction (seq 0 slots) as [|i l IH]; [done|].
  simpl. by rewrite Hfg, IH.
Qed.

Lemma available_request_received smac m ts :
  available (request_received smac m)
            (tsBlocked_for smac (sixtopStates (request_received smac m))) ts
  = available m (tsBlocked_for smac (sixtopStates m)) ts.
Proof.
  unfold available.
  change (schedule (request_received smac m)) with (schedule m).
  change (settings (request_received smac m)) with (settings m).
  do 2 f_equal. apply bool_decide_ext. unfold tsBlocked_for.
  assert (Heq : map_to_list (sixtopStates (request_received smac m))
                ≫= (fun ne => if decide (ne.1 = smac) then []
                              else blocked_halves ne.2)
                ≡ₚ map_to_list (sixtopStates m)
                   ≫= (fun ne => if decide (ne.1 = smac) then []
                                 else blocked_halves ne.2)).
  { unfold request_received. cbn [sixtopStates set_sixtopStates].
    set (new := set_rx_state _ _).
    rewrite <- (insert_delete_eq (sixtopStates m) smac new).
    rewrite map_to_list_insert by apply lookup_delete_eq.
    rewrite bind_cons. simpl. rewrite decide_True by done. simpl.
    destruct (sixtopStates m !! smac) as [old|] eqn:Eold.
    - rewrite <- (insert_id (sixtopStates m) smac old Eold) at 2.
      rewrite <- (insert_delete_eq (sixtopStates m) smac old).
      rewrite map_to_list_insert by apply lookup_delete_eq.
      rewrite bind_cons. simpl. by rewrite decide_True.
    - by rewrite delete_id. }
  by rewrite Heq.
Qed.

(** The steps of the handler when no transaction with the requester is
    under way on the rx side. *)
Lemma receive_ADD_REQUEST_steps shuffle smac payload m call m' :
  rx_busy smac m = false ->
  _sixtop_receive_ADD_REQUEST shuffle smac payload m = Ok (call, m') ->
  let newDir := flipDir (payload_dir payload) in
  let bonded := bool_decide (individualModulations (settings m) = 1) in
  let slots := modulationSlots m smac in
  let avail := available m (tsBlocked_for smac (sixtopStates m)) in
  let free := if bonded then allFree avail slots else avail in
  exists proposed blocked,
    cellTuples (payload_cellList payload) = Ok proposed
    /\ (if bonded
        then bonded_blocked slots
               (select_cells free (payload_numCells payload) newDir
                  (shuffle proposed) []) ([], [])
        else Ok (select_cells free (payload_numCells payload) newDir
                   (shuffle proposed) [])) = Ok blocked
    /\ call = mkResponseCall smac
                (select_cells free (payload_numCells payload) newDir
                   (shuffle proposed) [])
                (if (length (select_cells free (payload_numCells payload) newDir
                               (shuffle proposed) []) <=? 0)%nat
                 then IANA_6TOP_RC_NORES else IANA_6TOP_RC_SUCCESS)
                newDir (payload_seq payload)
    /\ schedule m' = schedule m
    /\ exists rx e, sixtopStates m' !! smac = Some e
                    /\ six_rx e = Some rx
                    /\ six_state rx = SIX_STATE_REQUEST_ADD_RECEIVED
                    /\ six_blockedCells rx = blocked.
Proof.
  intros Hidle. unfold _sixtop_receive_ADD_REQUEST. cbv zeta.
  change (rx_busy smac (_stats_incrementMoteStats "6topRxAddReq" m))
    with (rx_busy smac m). rewrite Hidle.
  destruct (cellTuples (payload_cellList payload)) as [proposed|]; [|done].
  unfold mbind at 1. unfold outcome_bind at 1. cbv beta iota.
  set (m0 := _stats_incrementMoteStats "6topRxAddReq" m).
  change (settings (request_received smac m0)) with (settings m).
  change (modulationSlots (request_received smac m0) smac)
    with (modulationSlots m smac).
  set (avail1 := available (request_received smac m0)
                   (tsBlocked_for smac (sixtopStates (request_received smac m0)))).
  set (avail := available m (tsBlocked_for smac (sixtopStates m))).
  assert (Havail : forall ts, avail1 ts = avail ts).
  { intros ts. subst avail1. rewrite available_request_received. done. }
  set (free1 := if bool_decide (individualModulations (settings m) = 1)
                then allFree avail1 (modulationSlots m smac) else avail1).
  set (free := if bool_decide (individualModulations (settings m) = 1)
               then allFree avail (modulationSlots m smac) else avail).
  assert (Hfree : forall ts, free1 ts = free ts).
  { intros ts. subst free1 free.
    destruct (bool_decide _); [by apply allFree_ext|done]. }
  rewrite !(select_cells_ext free1 free _ _ _ _ Hfree).
  set (sel := select_cells free _ _ _ _).
  destruct (if bool_decide (individualModulations (settings m) = 1)
            then bonded_blocked (modulationSlots m smac) sel ([], [])
            else Ok sel) as [blocked|] eqn:Eb; [|done].
  unfold mbind at 1. unfold outcome_bind at 1. cbv beta iota.
  destruct (set_rx_blocked smac blocked (request_received smac m0))
    as [m2|] eqn:E2; [|done].
  unfold mbind at 1. unfold outcome_bind at 1. cbv beta iota.
  intros [= <- <-]. exists proposed, blocked.
  split; [done|]. split; [done|]. split; [done|].
  unfold set_rx_blocked, update_rx in E2.
  destruct (sixtopStates (request_received smac m0) !! smac) as [e1|] eqn:Ee1;
    [|done].
  unfold mbind at 1 in E2. unfold outcome_bind at 1 in E2. unfold getitem in E2.
  cbv beta iota in E2.
  assert (Hrx : exists h, six_rx e1 = Some h
                          /\ six_state h = SIX_STATE_REQUEST_ADD_RECEIVED).
  { unfold request_received in Ee1.
    cbn [sixtopStates set_sixtopStates] in Ee1.
    rewrite lookup_insert_eq in Ee1. injection Ee1 as <-.
    by eexists. }
  destruct Hrx as (h & Hh & Hstate). rewrite Hh in E2.
  unfold mbind, outcome_bind in E2. cbv beta iota in E2. injection E2 as <-.
  split; [done|].
  eexists _, _. cbn [sixtopStates set_sixtopStates].
  rewrite lookup_insert_eq. split; [done|]. split; [done|]. done.
Qed.

Lemma available_spec m tsBlocked ts :
  available m tsBlocked ts = true
  <-> 0 <= ts < slotframeLength (settings m)
      /\ (ts ∉ (schedule m).*1) /\ (ts ∉ tsBlocked).
Proof.
  unfold available. rewrite !andb_true_iff, !negb_true_iff.
  rewrite bool_decide_eq_true, bool_decide_eq_false, in_schedule_false. tauto.
Qed.

(** X18: the answer to an ADD request when no transaction with the
    requester is under way on the rx side and slots are not bonded.  The
    cells of the response are proposed cells, in the order of the shuffled
    proposal and with the direction flipped; each lies in the slotframe, is
    not scheduled and is not blocked by a transaction with another
    neighbour.  No more than [numCells] are chosen, and when fewer are
    chosen every proposed cell that could be used is among them.  The return
    code is SUCCESS when some cell is chosen and NORES otherwise; the chosen
    cells are blocked in the rx half, whose state is REQUEST_ADD_RECEIVED;
    the schedule is not changed yet. *)
Theorem sixtop_receive_ADD_REQUEST_selection shuffle smac payload m call m' :
  rx_busy smac m = false ->
  individualModulations (settings m) <> 1 ->
  0 <= payload_numCells payload ->
  _sixtop_receive_ADD_REQUEST shuffle smac payload m = Ok (call, m') ->
  let newDir := flipDir (payload_dir payload) in
  exists proposed,
    cellTuples (payload_cellList payload) = Ok proposed
    /\ rsp_cellList call
       `sublist_of` ((fun c : CellTuple => (c.1.1, c.1.2, newDir))
                     <$> shuffle proposed)
    /\ (forall ts ch d, (ts, ch, d) ∈ rsp_cellList call ->
          0 <= ts < slotframeLength (settings m)
          /\ (ts ∉ (schedule m).*1)
          /\ forall n e, n <> smac -> sixtopStates m !! n = Some e ->
                         ts ∉ (blocked_halves e).*1.*1)
    /\ Z.of_nat (length (rsp_cellList call)) <= payload_numCells payload
    /\ (Z.of_nat (length (rsp_cellList call)) < payload_numCells payload ->
        forall c, c ∈ shuffle proposed ->
          available m (tsBlocked_for smac (sixtopStates m)) c.1.1 = true ->
          (c.1.1, c.1.2, newDir) ∈ rsp_cellList call)
    /\ rsp_code call = (if decide (rsp_cellList call = [])
                        then IANA_6TOP_RC_NORES else IANA_6TOP_RC_SUCCESS)
    /\ rsp_neighbor call = smac /\ rsp_dir call = newDir
    /\ rsp_seq call = payload_seq payload
    /\ (exists rx e, sixtopStates m' !! smac = Some e
                     /\ six_rx e = Some rx
                     /\ six_state rx = SIX_STATE_REQUEST_ADD_RECEIVED
                     /\ six_blockedCells rx = rsp_cellList call)
    /\ schedule m' = schedule m.
Proof.
  intros Hidle Hmode Hnum Hrun newDir.
  destruct (receive_ADD_REQUEST_steps _ _ _ _ _ _ Hidle Hrun)
    as (proposed & blocked & Hprop & Hblocked & -> & Hsched & Hrx).
  fold newDir in Hblocked |- *.
  rewrite bool_decide_eq_false_2 in Hblocked |- * by done.
  injection Hblocked as <-.
  cbn [rsp_cellList rsp_code rsp_neighbor rsp_dir rsp_seq].
  set (avail := available m (tsBlocked_for smac (sixtopStates m))) in *.
  destruct (select_cells_spec avail (payload_numCells payload) newDir
              (shuffle proposed) [])
    as (sel & Hsel & Hsub & Hfree & Hlen & Hmax).
  rewrite Hsel in *. clear Hsel. change ([] ++ sel) with sel in *.
  change (Z.of_nat (length (@nil CellTuple))) with 0 in Hlen.
  exists proposed. split; [done|]. split; [done|]. split.
  { intros ts ch d Hin. rewrite Forall_forall in Hfree.
    specialize (Hfree _ Hin). simpl in Hfree.
    apply available_spec in Hfree as (Hrange & Hfresh & Hnb).
    split; [done|]. split; [done|]. intros n e Hn He.
    by apply (tsBlocked_for_spec smac (sixtopStates m) ts n e). }
  split; [by apply Hlen|]. split.
  { intros Hlt c Hc Hav. apply Hmax; [lia|done|done]. }
  split.
  { destruct sel; [by rewrite decide_True|by rewrite decide_False]. }
  do 3 (split; [done|]). split; [done|done].
Qed.

Lemma sixtop_receive_ADD_REQUEST_selection_witness :
  exists call m',
    _sixtop_receive_ADD_REQUEST keep_order 1 add_proposal mote_responder
    = Ok (call, m')
    /\ rsp_cellList call = [(30, 3, DIR_RX); (31, 4, DIR_RX)]
    /\ rsp_code call = IANA_6TOP_RC_SUCCESS
    /\ schedule m' = schedule mote_responder.
Proof.
  assert (Hr : exists call m',
             _sixtop_receive_ADD_REQUEST keep_order 1 add_proposal mote_responder
             = Ok (call, m')
             /\ rsp_cellList call = [(30, 3, DIR_RX); (31, 4, DIR_RX)])
    by (eexists _, _; split; vm_compute; reflexivity).
  destruct Hr as (call & m' & Hr & Hcells).
  assert (Hmode : individualModulations (settings mote_responder) <> 1)
    by (vm_compute; discriminate).
  assert (Hnum : 0 <= payload_numCells add_proposal) by (vm_compute; discriminate).
  destruct (sixtop_receive_ADD_REQUEST_selection keep_order 1 add_proposal
              mote_responder call m' eq_refl Hmode Hnum Hr)
    as (proposed & _ & _ & _ & _ & _ & Hcode & _ & _ & _ & _ & Hsched).
  exists call, m'. split; [exact Hr|]. split; [exact Hcells|].
  split; [|exact Hsched]. rewrite Hcode, Hcells. reflexivity.
Defined.

(** ** 6top: answering an ADD request with slot bonding *)

Lemma block_slots_spec c offs b a :
  NoDup offs ->
  block_slots c offs (b, a)
  = if decide (Forall (fun i : nat => c.1.1 + Z.of_nat i ∉ a) offs)
    then Ok (b ++ ((fun i : nat => (c.1.1 + Z.of_nat i, c.1.2, c.2)) <$> offs),
             a ++ ((fun i : nat => c.1.1 + Z.of_nat i) <$> offs))
    else Raise AssertionError.
Proof.
  revert b a. induction offs as [|i offs IH]; intros b a Hnd.
  - cbn [block_slots]. rewrite decide_True by constructor.
    by rewrite !fmap_nil, !app_nil_r.
  - apply NoDup_cons in Hnd as [Hi Hnd]. cbn [block_slots fst snd].
    destruct (decide (c.1.1 + Z.of_nat i ∈ a)) as [Hin|Hnin].
    + rewrite decide_False; [done|]. by intros [? _]%Forall_cons.
    + rewrite IH by done.
      destruct (decide (Forall (fun j : nat => c.1.1 + Z.of_nat j ∉ a) offs))
        as [Hall|Hnall].
      * rewrite decide_True.
        2:{ apply Forall_forall. intros j Hj [Hja|Heq%list_elem_of_singleton]%elem_of_app.
            - rewrite Forall_forall in Hall. by apply (Hall j).
            - assert (j = i) by lia. by subst. }
        rewrite decide_True by (by constructor).
        by rewrite !fmap_cons, <- !(assoc_L (++)).
      * rewrite decide_False.
        2:{ intros Hall. apply Hnall. apply Forall_forall. intros j Hj Hja.
            rewrite Forall_forall in Hall. apply (Hall j Hj).
            apply elem_of_app. by left. }
        rewrite decide_False; [done|]. by intros [_ ?]%Forall_cons.
Qed.

Lemma slot_range_NoDup ts slots :
  NoDup ((fun i : nat => ts + Z.of_nat i) <$> seq 0 slots).
Proof.
  apply NoDup_fmap_2; [|apply NoDup_seq]. intros i j Hij. lia.
Qed.

Lemma bonded_blocked_spec slots cells b a :
  NoDup a ->
  bonded_blocked slots cells (b, a)
  = if decide (NoDup (a ++ expand_timeslots slots cells.*1.*1))
    then Ok (b ++ (cells ≫= fun c : CellTuple =>
                     (fun i : nat => (c.1.1 + Z.of_nat i, c.1.2, c.2))
                     <$> seq 0 slots))
    else Raise AssertionError.
Proof.
  revert b a. induction cells as [|c cells IH]; intros b a Hnd.
  - cbn [bonded_blocked fst]. change (expand_timeslots slots []) with (@nil Z).
    rewrite decide_True by (by rewrite app_nil_r).
    change (@nil CellTuple ≫= _) with (@nil CellTuple). by rewrite app_nil_r.
  - cbn [bonded_blocked]. rewrite block_slots_spec by apply NoDup_seq.
    change (expand_timeslots slots (c :: cells).*1.*1)
      with (((fun i : nat => c.1.1 + Z.of_nat i) <$> seq 0 slots)
            ++ expand_timeslots slots cells.*1.*1).
    set (range := (fun i : nat => c.1.1 + Z.of_nat i) <$> seq 0 slots).
    destruct (decide (Forall (fun i : nat => c.1.1 + Z.of_nat i ∉ a)
                             (seq 0 slots))) as [Hfree|Hclash].
    + unfold mbind, outcome_bind. cbv beta iota.
      assert (Hnd' : NoDup (a ++ range)).
      { apply NoDup_app. split; [done|]. split; [|apply slot_range_NoDup].
        intros x Hx (i & -> & Hi)%list_elem_of_fmap.
        rewrite Forall_forall in Hfree. by apply (Hfree i). }
      rewrite IH by done. rewrite <- (assoc_L (++)).
      destruct (decide (NoDup (a ++ range ++ _))); [|done].
      by rewrite bind_cons, (assoc_L (++)).
    + unfold mbind, outcome_bind. cbv beta iota.
      rewrite decide_False; [done|]. intros Hnd'. apply Hclash.
      apply Forall_forall. intros i Hi Hin.
      apply NoDup_app in Hnd' as (_ & Hdisj & _). apply (Hdisj _ Hin).
      apply elem_of_app. left. apply list_elem_of_fmap. by exists i.
Qed.

Lemma allFree_spec avail slots ts :
  allFree avail slots ts = true
  <-> forall i : nat, (i < slots)%nat -> avail (ts + Z.of_nat i) = true.
Proof.
  unfold allFree. rewrite forallb_forall. split.
  - intros H i Hi. apply H. apply in_seq. lia.
  - intros H i Hi%in_seq. apply H. lia.
Qed.

(** X19: the answer to an ADD request with slot bonding
    ([individualModulations = 1]), when no transaction with the requester
    is under way on the rx side.  When the handler returns, every slot of
    every cell of the response lies in the slotframe, is not scheduled and
    is not blocked by a transaction with another neighbour; no two cells of
    the response share a timeslot, for then the assertion fails; the rx half
    blocks all slots of all chosen cells; and no more than [numCells] cells
    are chosen. *)
Theorem sixtop_receive_ADD_REQUEST_bonded shuffle smac payload m call m' :
  rx_busy smac m = false ->
  individualModulations (settings m) = 1 ->
  0 <= payload_numCells payload ->
  _sixtop_receive_ADD_REQUEST shuffle smac payload m = Ok (call, m') ->
  let newDir := flipDir (payload_dir payload) in
  let slots := modulationSlots m smac in
  (forall ts ch d (i : nat),
     (ts, ch, d) ∈ rsp_cellList call -> (i < slots)%nat ->
     d = newDir
     /\ 0 <= ts + Z.of_nat i < slotframeLength (settings m)
     /\ (ts + Z.of_nat i ∉ (schedule m).*1)
     /\ forall n e, n <> smac -> sixtopStates m !! n = Some e ->
                    ts + Z.of_nat i ∉ (blocked_halves e).*1.*1)
  /\ NoDup (expand_timeslots slots (rsp_cellList call).*1.*1)
  /\ Z.of_nat (length (rsp_cellList call)) <= payload_numCells payload
  /\ exists rx e, sixtopStates m' !! smac = Some e
                  /\ six_rx e = Some rx
                  /\ six_state rx = SIX_STATE_REQUEST_ADD_RECEIVED
                  /\ six_blockedCells rx
                     = expand_cells slots newDir (rsp_cellList call).
Proof.
  intros Hidle Hmode Hnum Hrun newDir slots.
  destruct (receive_ADD_REQUEST_steps _ _ _ _ _ _ Hidle Hrun)
    as (proposed & blocked & Hprop & Hblocked & -> & Hsched & Hrx).
  fold newDir slots in Hblocked, Hrx |- *.
  rewrite bool_decide_eq_true_2 in Hblocked |- * by done.
  cbn [rsp_cellList rsp_code rsp_neighbor rsp_dir rsp_seq].
  set (avail := available m (tsBlocked_for smac (sixtopStates m))) in *.
  destruct (select_cells_spec (allFree avail slots) (payload_numCells payload)
              newDir (shuffle proposed) [])
    as (sel & Hsel & Hsub & Hfree & Hlen & _).
  rewrite Hsel in *. clear Hsel. change ([] ++ sel) with sel in *.
  change (Z.of_nat (length (@nil CellTuple))) with 0 in Hlen.
  rewrite bonded_blocked_spec in Hblocked by constructor.
  change ([] ++ expand_timeslots slots sel.*1.*1)
    with (expand_timeslots slots sel.*1.*1) in Hblocked.
  destruct (decide (NoDup (expand_timeslots slots sel.*1.*1))) as [Hnd|];
    [|done].
  injection Hblocked as <-.
  assert (Hdir : forall c : CellTuple, c ∈ sel -> c.2 = newDir).
  { intros c Hc.
    pose proof (elem_of_submseteq _ _ _ Hc (sublist_submseteq _ _ Hsub)) as Hc'.
    by apply list_elem_of_fmap in Hc' as (c0 & -> & _). }
  split.
  { intros ts ch d i Hin Hi. split; [by apply (Hdir _ Hin)|].
    rewrite Forall_forall in Hfree. specialize (Hfree _ Hin). simpl in Hfree.
    rewrite allFree_spec in Hfree. specialize (Hfree i Hi).
    apply available_spec in Hfree as (Hrange & Hfresh & Hnb).
    split; [done|]. split; [done|]. intros n e Hn He.
    by apply (tsBlocked_for_spec smac (sixtopStates m) _ n e). }
  split; [done|]. split; [by apply Hlen|].
  destruct Hrx as (rx & e & He & Hrx & Hstate & Hb).
  exists rx, e. do 3 (split; [done|]). rewrite Hb. simpl.
  unfold expand_cells. clear -Hdir.
  induction sel as [|c sel IH]; [done|].
  rewrite !bind_cons. f_equal.
  - rewrite (Hdir c); [done|by left].
  - apply IH. intros c' Hc'. apply Hdir. by right.
Qed.

Lemma sixtop_receive_ADD_REQUEST_bonded_witness :
  exists call m',
    _sixtop_receive_ADD_REQUEST keep_order 1 add_proposal_apart
                                mote_responder_bonded
    = Ok (call, m')
    /\ rsp_cellList call = [(30, 3, DIR_RX); (40, 5, DIR_RX)]
    /\ exists rx e, sixtopStates m' !! 1%nat = Some e
                    /\ six_rx e = Some rx
                    /\ six_blockedCells rx
                       = [(30, 3, DIR_RX); (31, 3, DIR_RX);
                          (40, 5, DIR_RX); (41, 5, DIR_RX)].
Proof.
  assert (Hr : exists call m',
             _sixtop_receive_ADD_REQUEST keep_order 1 add_proposal_apart
                                         mote_responder_bonded
             = Ok (call, m')
             /\ rsp_cellList call = [(30, 3, DIR_RX); (40, 5, DIR_RX)])
    by (eexists _, _; split; vm_compute; reflexivity).
  destruct Hr as (call & m' & Hr & Hcells).
  assert (Hnum : 0 <= payload_numCells add_proposal_apart)
    by (vm_compute; discriminate).
  destruct (sixtop_receive_ADD_REQUEST_bonded keep_order 1 add_proposal_apart
              mote_responder_bonded call m' eq_refl eq_refl Hnum Hr)
    as (_ & _ & _ & rx & e & He & Hrx & _ & Hblocked).
  exists call, m'. split; [exact Hr|]. split; [exact Hcells|].
  exists rx, e. split; [exact He|]. split; [exact Hrx|].
  rewrite Hblocked, Hcells. reflexivity.
Defined.

(** Two proposed cells one timeslot apart both pass the test of their two
    slots, and the handler fails its assertion on the slot they share. *)
Example sixtop_receive_ADD_REQUEST_overlap :
  _sixtop_receive_ADD_REQUEST keep_order 1 add_proposal mote_responder_bonded
  = Raise AssertionError.
Proof. vm_compute. reflexivity. Qed.

(** ** 6top: an ADD request during a transaction *)

Lemma list_remove_sublist p l l' : list_remove p l = Some l' -> l' `sublist_of` l.
Proof.
  revert l'. induction l as [|q l IH]; intros l' H; [done|]. simpl in H.
  destruct (decide (q = p)) as [->|].
  - injection H as <-. by apply sublist_cons.
  - destruct (list_remove p l) as [l0|]; [|done]. injection H as <-.
    apply sublist_skip. by apply IH.
Qed.

Lemma list_remove_filter (P : Packet -> Prop) `{!forall p, Decision (P p)} p l l' :
  list_remove p l = Some l' -> ~ P p -> filter P l' = filter P l.
Proof.
  intros Hrem Hp. revert l' Hrem.
  induction l as [|q l IH]; intros l' Hrem; [done|].
  simpl in Hrem. destruct (decide (q = p)) as [->|].
  - injection Hrem as <-. rewrite filter_cons. by rewrite decide_False.
  - destruct (list_remove p l) as [l0|]; [|done]. injection Hrem as <-.
    rewrite !filter_cons. rewrite (IH l0 eq_refl). done.
Qed.

Lemma list_remove_snoc p l : exists l', list_remove p (l ++ [p]) = Some l'
                                        /\ length l' = length l.
Proof.
  induction l as [|q l (l' & IH & Hlen)]; simpl.
  - rewrite decide_True by done. by exists [].
  - destruct (decide (q = p)).
    + eexists. split; [done|]. rewrite length_app. simpl. lia.
    + rewrite IH. eexists. split; [done|]. simpl. by rewrite Hlen.
Qed.

Lemma is_response_to_spec smac pkt b :
  is_response_to smac pkt = Ok b ->
  b = true <-> pkt_type pkt = IANA_6TOP_TYPE_RESPONSE
               /\ pkt_dstIp pkt = AddrMote smac.
Proof.
  unfold is_response_to, dst_id. intros H.
  destruct (decide (pkt_type pkt = IANA_6TOP_TYPE_RESPONSE)) as [Ht|Ht].
  - destruct (pkt_dstIp pkt) as [dst|]; [|done].
    unfold mbind, outcome_bind in H. cbv beta iota in H. injection H as <-.
    rewrite bool_decide_eq_true. split; [by intros ->|]. by intros [_ [= ->]].
  - injection H as <-. split; [done|]. by intros [? _].
Qed.

(** The loop that clears the queue: packets other than responses to
    [smac] stay, in their order; the first response to [smac] that is still
    to be visited goes. *)
Lemma drop_responses_spec smac visited rest q :
  drop_responses smac visited rest = Ok q ->
  let other := fun p : Packet =>
                 ~ (pkt_type p = IANA_6TOP_TYPE_RESPONSE
                    /\ pkt_dstIp p = AddrMote smac) in
  q `sublist_of` visited ++ rest
  /\ filter other q = filter other (visited ++ rest)
  /\ ((exists p, p ∈ rest /\ ~ other p) ->
      (length q < length (visited ++ rest))%nat).
Proof.
  intros Hrun other. revert visited q Hrun.
  assert (Hgen : forall n rest, (length rest <= n)%nat ->
            forall visited q,
              drop_responses smac visited rest = Ok q ->
              q `sublist_of` visited ++ rest
              /\ filter other q = filter other (visited ++ rest)
              /\ ((exists p, p ∈ rest /\ ~ other p) ->
                  (length q < length (visited ++ rest))%nat));
    [|by apply (Hgen (length rest))].
  clear rest. intros n. induction n as [|n IHn]; intros rest Hn visited q Hrun.
  { destruct rest; [|simpl in Hn; lia]. injection Hrun as <-.
    rewrite app_nil_r. split; [done|]. split; [done|].
    intros (p & Hp & _). by apply elem_of_nil in Hp. }
  assert (IH : forall rest0, (length rest0 < length rest)%nat ->
            forall visited q,
              drop_responses smac visited rest0 = Ok q ->
              q `sublist_of` visited ++ rest0
              /\ filter other q = filter other (visited ++ rest0)
              /\ ((exists p, p ∈ rest0 /\ ~ other p) ->
                  (length q < length (visited ++ rest0))%nat)).
  { intros rest0 Hlt. apply IHn. lia. }
  clear IHn Hn. destruct rest as [|pkt rest'].
  - injection Hrun as <-. rewrite app_nil_r. split; [done|]. split; [done|].
    intros (p & Hp & _). by apply elem_of_nil in Hp.
  - cbn [drop_responses] in Hrun.
    destruct (is_response_to smac pkt) as [hit|] eqn:Ehit; [|done].
    pose proof (is_response_to_spec _ _ _ Ehit) as Hhit.
    unfold mbind, outcome_bind in Hrun. cbv beta iota in Hrun.
    destruct hit.
    + assert (Hresp : ~ other pkt) by (intros Ho; by apply Ho, Hhit).
      destruct (list_remove_snoc pkt visited) as (v' & Hv' & Hlen).
      rewrite Hv' in Hrun. cbn [default] in Hrun.
      pose proof (list_remove_sublist _ _ _ Hv') as Hsub.
      pose proof (list_remove_filter other _ _ _ Hv' Hresp) as Hfil.
      destruct rest' as [|skipped rest''].
      * injection Hrun as <-. split; [done|]. split; [done|].
        intros _. rewrite length_app. simpl. lia.
      * destruct (IH rest'') with (visited := v' ++ [skipped]) (q := q)
          as (Hs & Hf & _); [simpl; lia|done|].
        rewrite <- (assoc_L (++)) in Hs, Hf.
        change (visited ++ pkt :: skipped :: rest'')
          with (visited ++ [pkt] ++ skipped :: rest'').
        rewrite (assoc_L (++) visited).
        split; [|split].
        -- etrans; [exact Hs|]. by apply sublist_app.
        -- rewrite Hf, (filter_app _ v'), (filter_app _ (visited ++ [pkt])).
           by rewrite Hfil.
        -- intros _. apply sublist_length in Hs.
           rewrite !length_app in *. simpl in *. lia.
    + assert (Hother : other pkt).
      { intros Hr. apply Hhit in Hr. done. }
      destruct (IH rest') with (visited := visited ++ [pkt]) (q := q)
        as (Hs & Hf & Hl); [simpl; lia|done|].
      rewrite <- (assoc_L (++)) in Hs, Hf, Hl. split; [done|]. split; [done|].
      intros (p & [->|Hp]%elem_of_cons & Hnp); [done|].
      apply Hl. by exists p.
Qed.

(** X20: an ADD request that arrives while a transaction with the requester
    is under way on the rx side is refused: the response carries no cell,
    the return code RESET and the direction as received; the rx half goes
    to REQUEST_ADD_RECEIVED and keeps its blocked cells; the schedule is
    unchanged.  From the queue only pending responses to the requester are
    taken, the other packets stay in their order, and when such a response
    is queued at least one is taken. *)
Theorem sixtop_receive_ADD_REQUEST_busy shuffle smac payload m call m' :
  rx_busy smac m = true ->
  _sixtop_receive_ADD_REQUEST shuffle smac payload m = Ok (call, m') ->
  let other := fun p : Packet =>
                 ~ (pkt_type p = IANA_6TOP_TYPE_RESPONSE
                    /\ pkt_dstIp p = AddrMote smac) in
  call = mkResponseCall smac [] IANA_6TOP_RC_RESET (payload_dir payload)
                        (payload_seq payload)
  /\ schedule m' = schedule m
  /\ (exists e rx e' rx',
        sixtopStates m !! smac = Some e /\ six_rx e = Some rx
        /\ sixtopStates m' !! smac = Some e' /\ six_rx e' = Some rx'
        /\ six_tx e' = six_tx e
        /\ six_state rx' = SIX_STATE_REQUEST_ADD_RECEIVED
        /\ six_blockedCells rx' = six_blockedCells rx
        /\ six_seqNum rx' = six_seqNum rx)
  /\ txQueue m' `sublist_of` txQueue m
  /\ filter other (txQueue m') = filter other (txQueue m)
  /\ ((exists p, p ∈ txQueue m /\ ~ other p) ->
      (length (txQueue m') < length (txQueue m))%nat).
Proof.
  intros Hbusy. unfold _sixtop_receive_ADD_REQUEST. cbv zeta.
  change (rx_busy smac (_stats_incrementMoteStats "6topRxAddReq" m))
    with (rx_busy smac m). rewrite Hbusy.
  change (txQueue (_stats_incrementMoteStats "6topRxAddReq" m))
    with (txQueue m).
  destruct (drop_responses smac [] (txQueue m)) as [q|] eqn:Eq; [|done].
  unfold mbind, outcome_bind. cbv beta iota. intros [= <- <-].
  pose proof (drop_responses_spec _ _ _ _ Eq) as Hq. cbv zeta in Hq.
  destruct Hq as (Hsub & Hfil & Hlen).
  split; [done|]. split; [done|]. split.
  - unfold rx_busy in Hbusy.
    destruct (sixtopStates m !! smac) as [e|] eqn:Ee; [|done].
    destruct (six_rx e) as [rx|] eqn:Erx; [|done].
    exists e, rx, (set_rx_state SIX_STATE_REQUEST_ADD_RECEIVED e),
      (mkHalf SIX_STATE_REQUEST_ADD_RECEIVED (six_blockedCells rx)
              (six_seqNum rx) (six_timeout rx) (six_timer rx)).
    split; [done|]. split; [done|]. split.
    { unfold request_received. cbn [sixtopStates set_sixtopStates set_txQueue].
      change (sixtopStates (_stats_incrementMoteStats "6topRxAddReq" m))
        with (sixtopStates m).
      by rewrite lookup_insert_eq, Ee. }
    unfold set_rx_state. rewrite Erx. done.
  - done.
Qed.

(** Of the two queued responses the first is taken and the second, which
    the iterator skips, stays. *)
Lemma sixtop_receive_ADD_REQUEST_busy_witness :
  exists call m',
    _sixtop_receive_ADD_REQUEST keep_order 1 add_proposal mote_answering
    = Ok (call, m')
    /\ txQueue m' = [response_packet IANA_6TOP_RC_NORES; queued data_packet]
    /\ rsp_code call = IANA_6TOP_RC_RESET
    /\ rsp_cellList call = [].
Proof.
  assert (Hr : exists call m',
             _sixtop_receive_ADD_REQUEST keep_order 1 add_proposal mote_answering
             = Ok (call, m')
             /\ txQueue m'
                = [response_packet IANA_6TOP_RC_NORES; queued data_packet])
    by (eexists _, _; split; vm_compute; reflexivity).
  destruct Hr as (call & m' & Hr & Hq).
  destruct (sixtop_receive_ADD_REQUEST_busy keep_order 1 add_proposal
              mote_answering call m' eq_refl Hr) as (-> & _).
  eexists _, m'. split; [exact Hr|]. split; [exact Hq|]. split; reflexivity.
Defined.

(** ** 6top: the acknowledged response *)

Lemma update_rx_spec f n m m' :
  update_rx f n m = Ok m' ->
  exists e rx, sixtopStates m !! n = Some e /\ six_rx e = Some rx
               /\ m' = set_sixtopStates
                         (<[n := mkEntry (six_tx e) (Some (f rx))]> (sixtopStates m)) m.
Proof.
  unfold update_rx. intros H.
  destruct (sixtopStates m !! n) as [e|]; [|done].
  unfold mbind, outcome_bind, getitem in H. cbv beta iota in H.
  destruct (six_rx e) as [rx|] eqn:Erx; [|done]. injection H as <-.
  by exists e, rx.
Qed.

(** The handler up to its last step: the schedule and the counters it
    leaves, and the 6top state and the queue untouched so far. *)
Lemma receive_RESPONSE_ACK_steps dst code payload m m' :
  _sixtop_receive_RESPONSE_ACK dst code payload m = Ok m' ->
  exists rx m1,
    rx_of m dst = Ok rx
    /\ (six_state rx = SIX_STATE_WAIT_ADD_RESPONSE_SENDDONE
        \/ six_state rx = SIX_STATE_WAIT_DELETE_RESPONSE_SENDDONE)
    /\ sixtopStates m1 = sixtopStates m /\ txQueue m1 = txQueue m
    /\ update_rx rx_done dst m1 = Ok m'
    /\ (code <> IANA_6TOP_RC_SUCCESS -> m1 = m)
    /\ (code = IANA_6TOP_RC_SUCCESS ->
        six_state rx = SIX_STATE_WAIT_ADD_RESPONSE_SENDDONE ->
        exists cells sched,
          cellTuples (payload_cellList payload) = Ok cells
          /\ (if decide (individualModulations (settings m) = 1)
              then length cells = 1%nat
                   /\ _tsch_addCells (Unicast dst)
                        (cells ≫= (fun c : CellTuple =>
                           (fun i : nat => (c.1.1 + Z.of_nat i, c.1.2, c.2))
                           <$> seq 0 (modulationSlots m dst)))
                        (head cells.*1.*1) (schedule m) = Ok sched
              else _tsch_addCells (Unicast dst) cells None (schedule m)
                   = Ok sched)
          /\ m1 = update_counters_add (payload_dir payload) dst
                    (Z.of_nat (length cells)) (set_schedule sched m)).
Proof.
  unfold _sixtop_receive_RESPONSE_ACK. intros H.
  destruct (rx_of m dst) as [rx|] eqn:Erx; [|done].
  unfold mbind at 1 in H. unfold outcome_bind at 1 in H. cbv beta iota zeta in H.
  destruct (decide (six_state rx = SIX_STATE_WAIT_ADD_RESPONSE_SENDDONE))
    as [Hadd|Hnadd].
  - destruct (decide (code = IANA_6TOP_RC_SUCCESS)) as [Hc|Hc].
    + match type of H with
      | mbind _ (mbind _ ?s) = _ => destruct s as [sched|] eqn:Es; [|done]
      end.
      unfold mbind at 2 in H. unfold outcome_bind at 2 in H. cbv beta iota in H.
      unfold mbind at 1 in H. unfold outcome_bind at 1 in H. cbv beta iota in H.
      eexists rx, _. split; [done|]. split; [by left|].
      split; [|split; [|split; [exact H|split; [done|]]]].
      * by destruct (payload_dir payload).
      * by destruct (payload_dir payload).
      * intros _ _.
        destruct (decide (individualModulations (settings m) = 1)).
        -- destruct (negb _) eqn:Elen; [done|].
           apply negb_false_iff, Nat.eqb_eq in Elen.
           destruct (cellTuples (payload_cellList payload)) as [cells|] eqn:Ec;
             [|done].
           unfold mbind, outcome_bind in Es. cbv beta iota in Es.
           assert (Hl : cellList_length (payload_cellList payload) = length cells).
           { destruct (payload_cellList payload) as [l|[|? ?]]; simpl in Ec;
               by simplify_eq. }
           exists cells, sched. split; [done|]. rewrite Hl in *.
           split; [done|done].
        -- destruct (cellTuples (payload_cellList payload)) as [cells|] eqn:Ec;
             [|done].
           unfold mbind, outcome_bind in Es. cbv beta iota in Es.
           assert (Hl : cellList_length (payload_cellList payload) = length cells).
           { destruct (payload_cellList payload) as [l|[|? ?]]; simpl in Ec;
               by simplify_eq. }
           exists cells, sched. split; [done|]. rewrite Hl. split; [done|done].
    + unfold mbind at 1 in H. unfold outcome_bind at 1 in H. cbv beta iota in H.
      exists rx, m. split; [done|]. split; [by left|]. do 2 (split; [done|]).
      split; [done|]. split; [done|]. done.
  - destruct (decide (six_state rx = SIX_STATE_WAIT_DELETE_RESPONSE_SENDDONE))
      as [Hdel|]; [|done].
    destruct (decide (code = IANA_6TOP_RC_SUCCESS)) as [Hc|Hc].
    + match type of H with
      | mbind _ (mbind _ ?s) = _ => destruct s as [tsList|]; [|done]
      end.
      unfold mbind at 2 in H. unfold outcome_bind at 2 in H. cbv beta iota in H.
      destruct (_tsch_removeCells _ _ _) as [sched|]; [|done].
      unfold mbind at 2 in H. unfold outcome_bind at 2 in H. cbv beta iota in H.
      destruct (update_counters_sub _ _ _ _) as [m1|] eqn:E1; [|done].
      unfold mbind at 1 in H. unfold outcome_bind at 1 in H. cbv beta iota in H.
      apply update_counters_sub_frame in E1 as (Hs & Hq & _).
      exists rx, m1. split; [done|]. split; [by right|].
      split; [done|]. split; [done|]. split; [done|]. split; [done|].
      intros _ Hs'. congruence.
    + unfold mbind at 1 in H. unfold outcome_bind at 1 in H. cbv beta iota in H.
      exists rx, m. split; [done|]. split; [by right|]. do 2 (split; [done|]).
      split; [done|]. split; [done|]. done.
Qed.

Lemma rx_of_ext m1 m2 n :
  sixtopStates m1 = sixtopStates m2 -> rx_of m1 n = rx_of m2 n.
Proof. unfold rx_of. by intros ->. Qed.

Lemma tsch_addCells_appended neighbor cells parentTs sched sched' :
  _tsch_addCells neighbor cells parentTs sched = Ok sched' ->
  NoDup cells.*1.*1
  /\ Forall (fun ts => ts ∉ sched.*1) cells.*1.*1
  /\ sched' = sched ++ (new_cell neighbor parentTs <$> cells).
Proof.
  intros Hadd.
  destruct (tsch_addCells_cases neighbor cells parentTs sched) as [Hok Hfail].
  destruct (decide (NoDup cells.*1.*1
                    /\ Forall (fun ts => ts ∉ sched.*1) cells.*1.*1))
    as [Hfresh|Hno]; [|rewrite (Hfail Hno) in Hadd; discriminate].
  destruct (Hok Hfresh) as [Hrun _]. rewrite Hrun in Hadd.
  injection Hadd as <-. by destruct Hfresh.
Qed.

(** X21: when [_sixtop_receive_RESPONSE_ACK] returns, the transaction on
    the rx side is over: state IDLE, no blocked cells, sequence number
    advanced by one; the tx half, the other neighbours and the queue are
    untouched.  With a return code other than SUCCESS nothing else changes.
    After an ADD response with SUCCESS, without slot bonding, the confirmed
    cells, whose timeslots were pairwise distinct and free, stand at the end
    of the schedule as they are in the response, and the cell counters of
    the direction named in the response have grown by their number. *)
Theorem sixtop_receive_RESPONSE_ACK_completes dst code payload m rx m' :
  rx_of m dst = Ok rx ->
  _sixtop_receive_RESPONSE_ACK dst code payload m = Ok m' ->
  rx_of m' dst = Ok (rx_done rx)
  /\ six_tx <$> sixtopStates m' !! dst = six_tx <$> sixtopStates m !! dst
  /\ (forall n, n <> dst -> sixtopStates m' !! n = sixtopStates m !! n)
  /\ txQueue m' = txQueue m
  /\ (code <> IANA_6TOP_RC_SUCCESS ->
      schedule m' = schedule m
      /\ numCellsToNeighbors m' = numCellsToNeighbors m
      /\ numCellsFromNeighbors m' = numCellsFromNeighbors m)
  /\ (code = IANA_6TOP_RC_SUCCESS ->
      six_state rx = SIX_STATE_WAIT_ADD_RESPONSE_SENDDONE ->
      individualModulations (settings m) <> 1 ->
      exists cells,
        cellTuples (payload_cellList payload) = Ok cells
        /\ NoDup cells.*1.*1
        /\ Forall (fun ts => ts ∉ (schedule m).*1) cells.*1.*1
        /\ schedule m'
           = schedule m ++ (new_cell (Unicast dst) None <$> cells)
        /\ default 0 (numCellsToNeighbors m' !! dst)
           = default 0 (numCellsToNeighbors m !! dst)
             + (if decide (payload_dir payload = DIR_RX) then 0
                else Z.of_nat (length cells))
        /\ default 0 (numCellsFromNeighbors m' !! dst)
           = default 0 (numCellsFromNeighbors m !! dst)
             + (if decide (payload_dir payload = DIR_TX) then 0
                else Z.of_nat (length cells))).
Proof.
  intros Hrx Hrun.
  destruct (receive_RESPONSE_ACK_steps _ _ _ _ _ Hrun)
    as (rx0 & m1 & Hrx0 & Hstate & Hs1 & Hq1 & Hup & Hother & Hadd).
  rewrite Hrx in Hrx0. injection Hrx0 as <-.
  apply update_rx_spec in Hup as (e & rx1 & He & Hrx1 & ->).
  rewrite Hs1 in *.
  assert (rx1 = rx) as ->.
  { unfold rx_of in Hrx. rewrite He in Hrx.
    unfold mbind, outcome_bind, getitem in Hrx. rewrite Hrx1 in Hrx.
    by injection Hrx as <-. }
  cbn [sixtopStates set_sixtopStates txQueue schedule numCellsToNeighbors
       numCellsFromNeighbors].
  split.
  { unfold rx_of. cbn [sixtopStates set_sixtopStates].
    by rewrite lookup_insert_eq. }
  split; [by rewrite lookup_insert_eq, He|].
  split; [intros n Hn; by rewrite lookup_insert_ne|].
  split; [done|]. split.
  { intros Hc. by rewrite (Hother Hc). }
  intros Hc Hst Hmode. destruct (Hadd Hc Hst) as (cells & sched & Hcells & Hsched & ->).
  rewrite decide_False in Hsched by done.
  apply tsch_addCells_appended in Hsched as (Hnd & Hfresh & ->).
  exists cells. do 3 (split; [done|]). split.
  { by destruct (payload_dir payload). }
  clear Hadd Hother Hrun.
  destruct (payload_dir payload); cbn; rewrite ?counter_add_lookup;
    split; case_decide; first [done|lia].
Qed.

Lemma sixtop_receive_RESPONSE_ACK_completes_witness :
  exists m',
    _sixtop_receive_RESPONSE_ACK 1 IANA_6TOP_RC_SUCCESS
                                 (response_payload response_call) mote_responded
    = Ok m'
    /\ rx_of m' 1 = Ok (mkHalf SIX_STATE_IDLE [] 7 None None)
    /\ (schedule m').*1 = [5; 9; 11; 30; 31]
    /\ default 0 (numCellsFromNeighbors m' !! 1%nat) = 2.
Proof.
  assert (Hr : exists m',
             _sixtop_receive_RESPONSE_ACK 1 IANA_6TOP_RC_SUCCESS
               (response_payload response_call) mote_responded = Ok m')
    by (eexists; vm_compute; reflexivity).
  destruct Hr as [m' Hr].
  assert (Hmode : individualModulations (settings mote_responded) <> 1)
    by (vm_compute; discriminate).
  destruct (sixtop_receive_RESPONSE_ACK_completes 1 IANA_6TOP_RC_SUCCESS
              (response_payload response_call) mote_responded _ m' eq_refl Hr)
    as (Hrx & _ & _ & _ & _ & Hadd).
  destruct (Hadd eq_refl eq_refl Hmode)
    as (cells & Hcells & _ & _ & Hsched & _ & Hfrom).
  injection Hcells as <-.
  exists m'. split; [exact Hr|]. split; [exact Hrx|].
  split; [by rewrite Hsched|exact Hfrom].
Defined.

(** ** 6top: the two ends of an ADD transaction *)

(** X22: with slot bonding the responder cannot complete a response that
    offers more than one cell.  When [_sixtop_receive_ADD_REQUEST] has chosen
    two cells or more, the return code is SUCCESS, and
    [_sixtop_receive_RESPONSE_ACK] for that response, in the state that
    waits for the end of the ADD response, fails the assertion on the
    length of the confirmed list. *)
Theorem sixtop_bonded_response_not_completed
    shuffle smac payload m call m1 m2 rx :
  rx_busy smac m = false ->
  individualModulations (settings m) = 1 ->
  _sixtop_receive_ADD_REQUEST shuffle smac payload m = Ok (call, m1) ->
  (2 <= length (rsp_cellList call))%nat ->
  settings m2 = settings m ->
  rx_of m2 smac = Ok rx ->
  six_state rx = SIX_STATE_WAIT_ADD_RESPONSE_SENDDONE ->
  rsp_code call = IANA_6TOP_RC_SUCCESS
  /\ _sixtop_receive_RESPONSE_ACK smac (rsp_code call) (response_payload call) m2
     = Raise AssertionError.
Proof.
  intros Hidle Hmode Hrun Hlen Hset Hrx Hstate.
  destruct (receive_ADD_REQUEST_steps _ _ _ _ _ _ Hidle Hrun)
    as (proposed & blocked & _ & _ & -> & _).
  cbn [rsp_cellList rsp_code] in *.
  set (sel := select_cells _ _ _ _ _) in *.
  assert (Hcode : (if (length sel <=? 0)%nat then IANA_6TOP_RC_NORES
                   else IANA_6TOP_RC_SUCCESS) = IANA_6TOP_RC_SUCCESS).
  { destruct (length sel <=? 0)%nat eqn:E; [|done].
    apply Nat.leb_le in E. lia. }
  rewrite Hcode. split; [done|].
  unfold _sixtop_receive_RESPONSE_ACK. rewrite Hrx.
  unfold mbind at 1. unfold outcome_bind at 1. cbv beta iota zeta.
  rewrite decide_True by done. rewrite decide_True by done.
  rewrite Hset. rewrite decide_True by done.
  cbn [response_payload payload_cellList cellList_length rsp_cellList].
  destruct (length sel =? 1)%nat eqn:E; [apply Nat.eqb_eq in E; lia|].
  done.
Qed.

Lemma sixtop_bonded_response_not_completed_witness :
  exists call m1,
    _sixtop_receive_ADD_REQUEST keep_order 1 add_proposal_apart
                                mote_responder_bonded
    = Ok (call, m1)
    /\ length (rsp_cellList call) = 2%nat
    /\ _sixtop_receive_RESPONSE_ACK 1 (rsp_code call) (response_payload call)
                                    mote_responded_bonded
       = Raise AssertionError.
Proof.
  assert (Hr : exists call m1,
             _sixtop_receive_ADD_REQUEST keep_order 1 add_proposal_apart
                                         mote_responder_bonded
             = Ok (call, m1)
             /\ length (rsp_cellList call) = 2%nat)
    by (eexists _, _; split; vm_compute; reflexivity).
  destruct Hr as (call & m1 & Hr & Hlen).
  assert (Hlen' : (2 <= length (rsp_cellList call))%nat) by lia.
  destruct (sixtop_bonded_response_not_completed keep_order 1 add_proposal_apart
              mote_responder_bonded call m1 mote_responded_bonded _
              eq_refl eq_refl Hr Hlen' eq_refl eq_refl eq_refl)
    as [_ Hfail].
  exists call, m1. split; [exact Hr|]. split; [exact Hlen|exact Hfail].
Defined.

Lemma flipDir_involutive d : flipDir (flipDir d) = d.
Proof. by destruct d. Qed.

(** X23: the two ends of an ADD transaction agree, without slot bonding.
    When the responder has answered the request of mote [q], the requester
    accepts that response, and the responder handles its acknowledgement
    with the schedule it had when it chose the cells, then every cell of the
    response is scheduled on both sides at the same timeslot and channel:
    at the requester towards the responder with the direction it asked for,
    at the responder towards the requester with the opposite direction; and
    both schedules have grown by the number of cells of the response. *)
Theorem sixtop_add_transaction_agrees
    shuffle q r request m_r call m_r1 m_r2 m_r' asn m_q tx m_q' :
  rx_busy q m_r = false ->
  individualModulations (settings m_r) <> 1 ->
  0 <= payload_numCells request ->
  _sixtop_receive_ADD_REQUEST shuffle q request m_r = Ok (call, m_r1) ->
  tx_of m_q r = Ok tx ->
  six_state tx = SIX_STATE_WAIT_ADDRESPONSE ->
  individualModulations (settings m_q) <> 1 ->
  _sixtop_receive_RESPONSE asn (rsp_code call) r (response_payload call) m_q
  = Ok (Some true, m_q') ->
  schedule m_r2 = schedule m_r ->
  settings m_r2 = settings m_r ->
  _sixtop_receive_RESPONSE_ACK q (rsp_code call) (response_payload call) m_r2
  = Ok m_r' ->
  (forall ts ch d, (ts, ch, d) ∈ rsp_cellList call ->
     lookup_cell ts (schedule m_q')
     = Some (mkCell ch (payload_dir request) (Unicast r) 0 0 [] None)
     /\ lookup_cell ts (schedule m_r')
        = Some (mkCell ch (flipDir (payload_dir request)) (Unicast q) 0 0 []
                       None))
  /\ length (schedule m_q')
     = (length (schedule m_q) + length (rsp_cellList call))%nat
  /\ length (schedule m_r')
     = (length (schedule m_r) + length (rsp_cellList call))%nat.
Proof.
  intros Hidle Hmode_r Hnum Hreq Htx Hstate Hmode_q Hresp Hsched2 Hset2 Hack.
  destruct (receive_ADD_REQUEST_steps _ _ _ _ _ _ Hidle Hreq)
    as (proposed & blocked & _ & _ & Hcall & _).
  rewrite bool_decide_eq_false_2 in Hcall by done.
  set (avail := available m_r (tsBlocked_for q (sixtopStates m_r))) in *.
  destruct (select_cells_spec avail (payload_numCells request)
              (flipDir (payload_dir request)) (shuffle proposed) [])
    as (sel & Hsel & Hsub & _).
  rewrite Hsel in Hcall. change ([] ++ sel) with sel in *. subst call.
  cbn [rsp_cellList rsp_code] in *.
  assert (Hdir : forall c : CellTuple,
             c ∈ sel -> c.2 = flipDir (payload_dir request)).
  { intros c Hc.
    pose proof (elem_of_submseteq _ _ _ Hc (sublist_submseteq _ _ Hsub)) as Hc'.
    by apply list_elem_of_fmap in Hc' as (c0 & -> & _). }
  destruct (decide (sel = [])) as [->|Hne].
  { (* no cell offered: return code NORES *)
    split; [intros ts ch d Hin; by apply elem_of_nil in Hin|].
    change ((0 <=? 0)%nat) with true in Hresp, Hack. cbv iota in Hresp, Hack.
    destruct (receive_RESPONSE_shape _ _ _ _ _ _ _ _ Htx (or_introl Hstate) Hresp)
      as [_ _].
    assert (Hq : schedule m_q' = schedule m_q).
    { revert Hresp. unfold _sixtop_receive_RESPONSE. rewrite Htx.
      unfold mbind at 1. unfold outcome_bind at 1. cbv beta iota.
      rewrite Hstate. rewrite decide_True by done.
      change (is_response_code IANA_6TOP_RC_NORES) with true.
      cbn [negb]. cbv zeta.
      destruct (bool_decide _); cbn [negb]; [|by intros [= <-]].
      destruct (six_timer tx) as [t|]; [|done].
      unfold mbind at 1. unfold outcome_bind at 1. unfold getitem.
      cbv beta iota.
      destruct (decide (timer_asn t = asn)); [by intros [= <-]|].
      rewrite decide_False by done. unfold response_without_cells.
      rewrite decide_True by done. by intros [= <-]. }
    assert (Hr : schedule m_r' = schedule m_r).
    { destruct (receive_RESPONSE_ACK_steps _ _ _ _ _ Hack)
        as (rx & m1 & _ & _ & _ & _ & Hup & Hother & _).
      rewrite (Hother ltac:(done)) in Hup.
      apply update_rx_spec in Hup as (? & ? & _ & _ & ->). done. }
    rewrite Hq, Hr. simpl. lia. }
  assert (Hcode : (if (length sel <=? 0)%nat then IANA_6TOP_RC_NORES
                   else IANA_6TOP_RC_SUCCESS) = IANA_6TOP_RC_SUCCESS).
  { destruct (length sel <=? 0)%nat eqn:E; [|done].
    apply Nat.leb_le in E. destruct sel; [done|simpl in E; lia]. }
  rewrite Hcode in Hresp, Hack. clear Hcode.
  (* the requester *)
  destruct (receive_RESPONSE_add_run _ _ _ _ _ _ Htx Hstate Hresp)
    as (mq1 & received & schedq & Hchurn & Hrec & Haddq & Hmq').
  cbn [response_payload payload_cellList payload_dir rsp_cellList rsp_dir
       cellTuples] in Hrec, Haddq, Hmq'.
  injection Hrec as <-. rewrite flipDir_involutive in Haddq, Hmq'.
  rewrite decide_False in Haddq by done.
  apply tsch_addCells_appended in Haddq as (Hndq & Hfreshq & ->).
  assert (Hsq : schedule m_q'
                = schedule m_q
                  ++ (new_cell (Unicast r) None
                      <$> ((fun c : CellTuple => (c.1.1, c.1.2, payload_dir request))
                           <$> sel))).
  { rewrite Hmq'.
    change (schedule (update_tx half_idle r ?x)) with (schedule x).
    by destruct (payload_dir request). }
  (* the responder *)
  destruct (receive_RESPONSE_ACK_steps _ _ _ _ _ Hack)
    as (rx & m1 & Hrx & Hst & _ & _ & Hup & _ & Hadd).
  assert (Hsr : schedule m_r'
                = schedule m_r ++ (new_cell (Unicast q) None <$> sel)).
  { destruct Hst as [Hst|Hst].
    - destruct (Hadd eq_refl Hst) as (cells & sched & Hcells & Hsched & ->).
      cbn [response_payload payload_cellList rsp_cellList cellTuples] in Hcells.
      injection Hcells as <-. rewrite Hset2 in Hsched.
      rewrite decide_False in Hsched by done.
      apply tsch_addCells_appended in Hsched as (_ & _ & ->).
      apply update_rx_spec in Hup as (? & ? & _ & _ & ->).
      cbn [schedule set_sixtopStates]. rewrite <- Hsched2.
      by destruct (payload_dir (response_payload _)).
    - exfalso. revert Hack. unfold _sixtop_receive_RESPONSE_ACK. rewrite Hrx.
      unfold mbind at 1. unfold outcome_bind at 1. cbv beta iota zeta.
      rewrite decide_False by (rewrite Hst; done).
      rewrite decide_True by done. rewrite decide_True by done.
      rewrite Hset2. rewrite decide_False by done.
      cbn [response_payload payload_cellList rsp_cellList delete_timeslots].
      by destruct sel. }
  assert (Hndr : NoDup sel.*1.*1 /\ Forall (fun ts => ts ∉ (schedule m_r).*1) sel.*1.*1).
  { destruct Hst as [Hst|Hst].
    - destruct (Hadd eq_refl Hst) as (cells & sched & Hcells & Hsched & _).
      cbn [response_payload payload_cellList rsp_cellList cellTuples] in Hcells.
      injection Hcells as <-. rewrite Hset2 in Hsched.
      rewrite decide_False in Hsched by done.
      apply tsch_addCells_appended in Hsched as (? & ? & _).
      by rewrite <- Hsched2.
    - exfalso. revert Hack. unfold _sixtop_receive_RESPONSE_ACK. rewrite Hrx.
      unfold mbind at 1. unfold outcome_bind at 1. cbv beta iota zeta.
      rewrite decide_False by (rewrite Hst; done).
      rewrite decide_True by done. rewrite decide_True by done.
      rewrite Hset2. rewrite decide_False by done.
      cbn [response_payload payload_cellList rsp_cellList delete_timeslots].
      by destruct sel. }
  destruct Hndr as [Hndr Hfreshr].
  assert (Hkeys : ((fun c : CellTuple => (c.1.1, c.1.2, payload_dir request))
                   <$> sel).*1.*1 = sel.*1.*1).
  { rewrite <- !list_fmap_compose. done. }
  rewrite Hkeys in Hndq, Hfreshq.
  split; [|split].
  - intros ts ch d Hin.
    assert (Hts : ts ∈ sel.*1.*1).
    { apply list_elem_of_fmap. exists (ts, ch). split; [done|].
      apply list_elem_of_fmap. by exists (ts, ch, d). }
    split.
    + rewrite Hsq, lookup_cell_app.
      rewrite (proj2 (lookup_cell_None ts (schedule m_q))).
      2:{ rewrite Forall_forall in Hfreshq. by apply Hfreshq. }
      apply lookup_cell_elem.
      { by rewrite new_cell_keys, Hkeys. }
      apply list_elem_of_fmap.
      exists (ts, ch, payload_dir request). split; [done|].
      apply list_elem_of_fmap. by exists (ts, ch, d).
    + rewrite Hsr, lookup_cell_app.
      rewrite (proj2 (lookup_cell_None ts (schedule m_r))).
      2:{ rewrite Forall_forall in Hfreshr. by apply Hfreshr. }
      apply lookup_cell_elem; [by rewrite new_cell_keys|].
      apply list_elem_of_fmap. exists (ts, ch, d). split; [|done].
      unfold new_cell. simpl. by rewrite <- (Hdir (ts, ch, d) Hin).
  - by rewrite Hsq, length_app, !length_fmap.
  - by rewrite Hsr, length_app, length_fmap.
Qed.

Lemma sixtop_add_transaction_agrees_witness :
  exists call m_r1 m_q' m_r',
    _sixtop_receive_ADD_REQUEST keep_order 1 add_proposal mote_responder
    = Ok (call, m_r1)
    /\ _sixtop_receive_RESPONSE 499 (rsp_code call) 7 (response_payload call)
                                mote_requester
       = Ok (Some true, m_q')
    /\ _sixtop_receive_RESPONSE_ACK 1 (rsp_code call) (response_payload call)
                                    mote_responded
       = Ok m_r'
    /\ lookup_cell 31 (schedule m_q')
       = Some (mkCell 4 DIR_TX (Unicast 7) 0 0 [] None)
    /\ lookup_cell 31 (schedule m_r')
       = Some (mkCell 4 DIR_RX (Unicast 1) 0 0 [] None).
Proof.
  assert (Hr : exists call m_r1,
             _sixtop_receive_ADD_REQUEST keep_order 1 add_proposal mote_responder
             = Ok (call, m_r1)
             /\ call = response_call)
    by (eexists _, _; split; vm_compute; reflexivity).
  destruct Hr as (call & m_r1 & Hr & Hcall).
  assert (Hq : exists m_q',
             _sixtop_receive_RESPONSE 499 (rsp_code call) 7
               (response_payload call) mote_requester = Ok (Some true, m_q'))
    by (rewrite Hcall; eexists; vm_compute; reflexivity).
  destruct Hq as [m_q' Hq].
  assert (Ha : exists m_r',
             _sixtop_receive_RESPONSE_ACK 1 (rsp_code call)
               (response_payload call) mote_responded = Ok m_r')
    by (rewrite Hcall; eexists; vm_compute; reflexivity).
  destruct Ha as [m_r' Ha].
  assert (Hmode_r : individualModulations (settings mote_responder) <> 1)
    by (vm_compute; discriminate).
  assert (Hmode_q : individualModulations (settings mote_requester) <> 1)
    by (vm_compute; discriminate).
  assert (Hnum : 0 <= payload_numCells add_proposal) by (vm_compute; discriminate).
  destruct (sixtop_add_transaction_agrees keep_order 1 7 add_proposal
              mote_responder call m_r1 mote_responded m_r' 499 mote_requester
              _ m_q' eq_refl Hmode_r Hnum Hr eq_refl eq_refl Hmode_q Hq
              eq_refl eq_refl Ha) as (Hcells & _ & _).
  destruct (Hcells 31 4 DIR_RX) as [Hcq Hcr].
  { rewrite Hcall. apply list_elem_of_In. right. by left. }
  exists call, m_r1, m_q', m_r'.
  split; [exact Hr|]. split; [exact Hq|]. split; [exact Ha|].
  split; [exact Hcq|exact Hcr].
Defined.

(** ** MSF: the timeout is always defined *)

Lemma getCellPDR_range m cell n pdr :
  cell_neighbor cell = Unicast n -> PDR m !! n = Some pdr ->
  (0 <= pdr)%Q -> (pdr <= 1)%Q ->
  0 <= cell_numTxAck cell <= cell_numTx cell ->
  exists p, getCellPDR m cell = Ok p /\ (0 <= p)%Q /\ (p <= 1)%Q.
Proof.
  intros Hn Hpdr H0 H1 Hc. unfold getCellPDR, getPDR. rewrite Hn, Hpdr.
  destruct (cell_numTx cell <? NUM_SUFFICIENT_TX) eqn:E.
  - by exists pdr.
  - apply Z.ltb_ge in E. unfold NUM_SUFFICIENT_TX in E. eexists. split; [done|].
    assert (Hpos : (0 < inject_Z (cell_numTx cell))%Q).
    { unfold Qlt. simpl. lia. }
    split.
    + apply Qle_shift_div_l; [done|]. rewrite Qmult_0_l.
      unfold Qle. simpl. lia.
    + apply Qle_shift_div_r; [done|]. rewrite Qmult_1_l.
      unfold Qle. simpl. lia.
Qed.

Lemma Qsum_range_from (l : list Q) (a : Q) :
  Forall (fun p => (0 <= p)%Q /\ (p <= 1)%Q) l ->
  (a <= foldl Qplus a l)%Q
  /\ (foldl Qplus a l <= a + inject_Z (Z.of_nat (length l)))%Q.
Proof.
  intros Hl. revert a. induction Hl as [|p l [Hp0 Hp1] _ IH]; intros a.
  - simpl. split; [apply Qle_refl|]. rewrite Qplus_0_r. apply Qle_refl.
  - cbn [foldl length]. destruct (IH (a + p)%Q) as [IH1 IH2]. split.
    + apply (Qle_trans _ (a + p)); [|done].
      rewrite <- (Qplus_0_r a) at 1. by apply Qplus_le_r.
    + apply (Qle_trans _ _ _ IH2).
      rewrite Nat2Z.inj_succ, <- Z.add_1_l, inject_Z_plus.
      rewrite <- Qplus_assoc. apply Qplus_le_r.
      apply Qplus_le_l. done.
Qed.

Lemma Qceiling_pos q : (0 < q)%Q -> 1 <= Qceiling q.
Proof.
  intros Hq. pose proof (Qle_ceiling q) as Hc.
  assert (Hlt : (0 < inject_Z (Qceiling q))%Q) by (by apply (Qlt_le_trans _ q)).
  unfold Qlt in Hlt. simpl in Hlt. lia.
Qed.

Lemma timeout_cellPDR_range m neighbor sched pdr :
  PDR m !! neighbor = Some pdr -> (0 <= pdr)%Q -> (pdr <= 1)%Q ->
  Forall (fun c => 0 <= cell_numTxAck c <= cell_numTx c) sched.*2 ->
  exists l, timeout_cellPDR m neighbor sched = Ok l
            /\ Forall (fun p => (0 <= p)%Q /\ (p <= 1)%Q) l.
Proof.
  intros Hpdr H0 H1. induction sched as [|[ts cell] rest IH]; intros Hc.
  - by exists [].
  - rewrite fmap_cons in Hc. apply Forall_cons in Hc as [Hcell Hrest].
    destruct (IH Hrest) as (l & Hl & Hrange). cbn [timeout_cellPDR].
    destruct (is_tx_or_shared_to neighbor cell) eqn:Eto; [|by exists l].
    apply is_tx_or_shared_to_neighbor in Eto.
    destruct (getCellPDR_range m cell neighbor pdr Eto Hpdr H0 H1 Hcell)
      as (p & -> & Hp0 & Hp1).
    rewrite Hl. exists (p :: l). split; [done|]. by constructor.
Qed.

(** X24: with a link PDR in [0, 1] and cell counters that satisfy
    [0 <= numTxAck <= numTx], [_msf_get_sixtop_timeout] always returns: no
    cell PDR is missing and the assertion on the mean PDR holds.  With a
    slotframe of positive duration the timeout is at least one second. *)
Theorem msf_get_sixtop_timeout_defined m neighbor pdr :
  PDR m !! neighbor = Some pdr ->
  (0 <= pdr)%Q -> (pdr <= 1)%Q ->
  Forall (fun c => 0 <= cell_numTxAck c <= cell_numTx c) (schedule m).*2 ->
  exists timeout,
    _msf_get_sixtop_timeout m neighbor = Ok timeout
    /\ ((0 < inject_Z (slotframeLength (settings m)) * slotDuration (settings m))%Q ->
        1 <= timeout).
Proof.
  intros Hpdr H0 H1 Hcells.
  destruct (timeout_cellPDR_range m neighbor (schedule m) pdr Hpdr H0 H1 Hcells)
    as (l & Hl & Hrange).
  unfold _msf_get_sixtop_timeout. rewrite Hl.
  unfold mbind, outcome_bind. cbv beta iota zeta.
  destruct (0 <? length l)%nat eqn:Elen; [|by exists MSF_DEFAULT_SIXTOP_TIMEOUT].
  apply Nat.ltb_lt in Elen.
  set (n := inject_Z (Z.of_nat (length l))).
  assert (Hn : (0 < n)%Q) by (unfold n, Qlt; simpl; lia).
  destruct (Qsum_range_from l 0 Hrange) as [Hs0 Hs1]. fold (Qsum l) in Hs0, Hs1.
  rewrite Qplus_0_l in Hs1. fold n in Hs1.
  set (mean := (Qsum l / n)%Q).
  destruct (Qlt_le_dec mean (1 # 100000)) as [Hsmall|Hbig];
    [by exists MSF_DEFAULT_SIXTOP_TIMEOUT|].
  assert (Hle : Qle_bool mean 1 = true).
  { apply Qle_bool_iff. apply Qle_shift_div_r; [done|]. by rewrite Qmult_1_l. }
  rewrite Hle. eexists. split; [done|]. intros Hframe.
  apply Qceiling_pos.
  assert (Hmean : (0 < mean)%Q) by (by apply (Qlt_le_trans _ (1 # 100000))).
  apply Qmult_lt_0_compat; [apply Qmult_lt_0_compat|done].
  - apply Qlt_shift_div_l; [done|]. by rewrite Qmult_0_l.
  - apply Qlt_shift_div_l; [done|]. by rewrite Qmult_0_l.
Qed.

Lemma msf_get_sixtop_timeout_defined_witness :
  exists timeout,
    _msf_get_sixtop_timeout mote_two_cells 1 = Ok timeout /\ 1 <= timeout.
Proof.
  destruct (msf_get_sixtop_timeout_defined mote_two_cells 1 (1 # 2)%Q)
    as (timeout & Hrun & Hpos); [reflexivity|done|done| |].
  - repeat constructor; vm_compute; discriminate.
  - exists timeout. split; [exact Hrun|]. apply Hpos. reflexivity.
Defined.

(** ** MSF: giving up the old parent *)

Lemma sixtop_removeCells_length shuffle m neighbor n tsList :
  _sixtop_removeCells shuffle m neighbor n = Ok tsList ->
  Z.of_nat (length tsList) = n.
Proof.
  unfold _sixtop_removeCells. intros H.
  destruct (removal_candidates m neighbor (schedule m)) as [cands|]; [|done].
  unfold mbind at 1 in H. unfold outcome_bind at 1 in H. cbv beta iota in H.
  match type of H with
  | mbind _ ?o = _ => destruct o as [order|]; [|done]
  end.
  unfold mbind, outcome_bind in H. cbv beta iota zeta in H.
  destruct (n <? 0); [done|]. destruct (decide _) as [Hlen|]; [|done].
  by injection H as <-.
Qed.

(** X25: the parent-change action asks at most once for the removal of the
    cells to the old parent.  When the removal counter is 0 or 1 before a
    run, it is 0 after it.  A run that asks 6top to delete cells does so for
    the old parent and for as many timeslots as cells are counted to it; it
    asks for nothing else, schedules its next run and removes that event
    again, forgets the old parent and counts one more removal. *)
Theorem msf_parent_change_removal_once shuffle m acts m' :
  0 <= currentOldPrefParentRemoval m <= MSF_MAX_OLD_PARENT_REMOVAL ->
  _msf_action_parent_change shuffle m = Ok (acts, m') ->
  currentOldPrefParentRemoval m' = 0
  /\ (forall old tsList dir timeout,
        sixtop_cell_deletion_sender old tsList dir timeout ∈ acts ->
        oldPreferredParent m = Some old
        /\ 0 < numCellsTo m (Some old) 0
        /\ Z.of_nat (length tsList) = numCellsTo m (Some old) 0
        /\ _msf_get_sixtop_timeout m old = Ok timeout
        /\ acts = [sixtop_cell_deletion_sender old tsList DIR_TXRX_SHARED timeout;
                   scheduleIn 300; removeEvent]
        /\ oldPreferredParent m' = None
        /\ oldPrefParentRemoval m' = oldPrefParentRemoval m + 1).
Proof.
  unfold MSF_MAX_OLD_PARENT_REMOVAL. intros Hcur.
  unfold _msf_action_parent_change.
  destruct (preferredParent m) as [parent|]; [|done]. cbv zeta.
  destruct (decide (numCellsTo m (Some parent) 0 = 0)) as [Hzero|Hnz].
  - (* no cell to the new parent: an ADD request *)
    destruct (_msf_get_sixtop_timeout m parent) as [timeout|]; [|done].
    unfold mbind, outcome_bind. cbv beta iota.
    change (numCellsTo (set_currentOldPrefParentRemoval 0 m))
      with (numCellsTo m).
    change (oldPreferredParent (set_currentOldPrefParentRemoval 0 m))
      with (oldPreferredParent m).
    change (currentOldPrefParentRemoval (set_currentOldPrefParentRemoval 0 m))
      with 0.
    destruct (_ || _); intros [= <- <-]; (split; [done|]);
      intros old tsList dir t Hin;
      repeat (apply elem_of_cons in Hin as [Hin|Hin]; [done|]);
      repeat (apply elem_of_app in Hin as [Hin|Hin]);
      repeat (apply elem_of_cons in Hin as [Hin|Hin]; [done|]);
      by apply elem_of_nil in Hin.
  - destruct (oldPreferredParent m) as [old|] eqn:Eold.
    + destruct (bool_decide (currentOldPrefParentRemoval m < 1)
                && bool_decide (0 < numCellsTo m (Some old) 0)
                && bool_decide (0 < numCellsTo m (Some parent) 0)) eqn:Econd.
      * (* a DELETE request for the cells to the old parent *)
        apply andb_true_iff in Econd as [Econd Hnew].
        apply andb_true_iff in Econd as [Hlt Hold].
        apply bool_decide_eq_true in Hlt, Hold, Hnew.
        unfold MSF_MAX_OLD_PARENT_REMOVAL.
        rewrite (bool_decide_eq_true_2 _ Hlt), (bool_decide_eq_true_2 _ Hold),
          (bool_decide_eq_true_2 _ Hnew). cbn [andb].
        destruct (_msf_get_sixtop_timeout m old) as [timeout|] eqn:Et; [|done].
        unfold mbind at 2. unfold outcome_bind at 2. cbv beta iota.
        match goal with
        | |- context [_sixtop_removeCells shuffle ?mm old ?n] =>
          destruct (_sixtop_removeCells shuffle mm old n) as [tsList|] eqn:Er;
            [|done]
        end.
        apply sixtop_removeCells_length in Er.
        unfold mbind, outcome_bind. cbv beta iota.
        cbn [currentOldPrefParentRemoval set_currentOldPrefParentRemoval
             set_oldPrefParentRemoval oldPreferredParent].
        assert (Hone : currentOldPrefParentRemoval m = 0) by lia.
        rewrite Hone.
        rewrite (bool_decide_eq_true_2 (0 + 1 = 1)) by done.
        rewrite orb_true_r. rewrite decide_False by (by rewrite Eold).
        intros [= <- <-]. split; [done|].
        intros old' tsList' dir t Hin.
        apply elem_of_cons in Hin as [[= -> -> -> ->]|Hin].
        2:{ repeat (apply elem_of_cons in Hin as [Hin|Hin]; [done|]).
            by apply elem_of_nil in Hin. }
        split; [done|]. split; [done|]. split; [exact Er|].
        split; [done|]. split; [done|]. done.
      * (* nothing is asked *)
        unfold MSF_MAX_OLD_PARENT_REMOVAL. rewrite Econd.
        unfold mbind, outcome_bind. cbv beta iota.
        rewrite decide_False by (by rewrite Eold).
        destruct (_ || _) eqn:Efin; intros [= <- <-].
        -- split; [done|]. intros ? ? ? ? Hin.
           repeat (apply elem_of_cons in Hin as [Hin|Hin]; [done|]).
           by apply elem_of_nil in Hin.
        -- split.
           { apply orb_false_iff in Efin as [_ Hmax].
             apply bool_decide_eq_false in Hmax.
             apply andb_false_iff in Econd as [Econd|Hnew].
             - apply andb_false_iff in Econd as [Hlt|Hold].
               + apply bool_decide_eq_false in Hlt. lia.
               + lia.
             - lia. }
           intros ? ? ? ? Hin.
           repeat (apply elem_of_cons in Hin as [Hin|Hin]; [done|]).
           by apply elem_of_nil in Hin.
    + unfold mbind, outcome_bind. cbv beta iota.
      rewrite decide_True by done.
      destruct (_ || _) eqn:Efin; intros [= <- <-].
      * split; [done|]. intros ? ? ? ? Hin.
        repeat (apply elem_of_cons in Hin as [Hin|Hin]; [done|]).
        by apply elem_of_nil in Hin.
      * split.
        { apply orb_false_iff in Efin as [Hfirst Hmax].
          apply bool_decide_eq_false in Hmax.
          unfold MSF_MAX_OLD_PARENT_REMOVAL in Hmax. lia. }
        intros ? ? ? ? Hin.
        repeat (apply elem_of_cons in Hin as [Hin|Hin]; [done|]).
        by apply elem_of_nil in Hin.
Qed.

Lemma msf_parent_change_removal_once_witness :
  exists tsList timeout m',
    _msf_action_parent_change no_shuffle mote_leaving_parent
    = Ok ([sixtop_cell_deletion_sender 1 tsList DIR_TXRX_SHARED timeout;
           scheduleIn 300; removeEvent], m')
    /\ length tsList = 2%nat
    /\ oldPreferredParent m' = None
    /\ currentOldPrefParentRemoval m' = 0.
Proof.
  assert (Hr : exists tsList timeout m',
             _msf_action_parent_change no_shuffle mote_leaving_parent
             = Ok ([sixtop_cell_deletion_sender 1 tsList DIR_TXRX_SHARED timeout;
                    scheduleIn 300; removeEvent], m'))
    by (eexists _, _, _; vm_compute; reflexivity).
  destruct Hr as (tsList & timeout & m' & Hr).
  assert (Hcur : 0 <= currentOldPrefParentRemoval mote_leaving_parent
                 <= MSF_MAX_OLD_PARENT_REMOVAL) by (vm_compute; split; discriminate).
  destruct (msf_parent_change_removal_once no_shuffle mote_leaving_parent _ m'
              Hcur Hr) as (Hzero & Hdel).
  destruct (Hdel 1%nat tsList DIR_TXRX_SHARED timeout)
    as (_ & _ & Hlen & _ & _ & Hold & _); [by left|].
  exists tsList, timeout, m'. split; [exact Hr|].
  split; [|split; [exact Hold|exact Hzero]].
  change (numCellsTo mote_leaving_parent (Some 1%nat) 0) with 2 in Hlen. lia.
Defined.

(** ** The transmit queue: from enqueue to acknowledgement *)

Lemma list_remove_fresh_snoc p l : p ∉ l -> list_remove p (l ++ [p]) = Some l.
Proof.
  induction l as [|q l IH]; intros Hp; simpl.
  - by rewrite decide_True.
  - apply not_elem_of_cons in Hp as [Hne Hp].
    rewrite decide_False by done. by rewrite IH.
Qed.

(** X26: what [_tsch_enqueue] has put into the queue, an acknowledgement
    takes out again.  When a packet that is not a 6P message has been
    enqueued, no packet of the same content was queued before, and the mote
    later sends this packet (the queue still as the enqueue left it) and
    [radio_txDone] returns from its ACK, then the queue is as it was before
    the enqueue. *)
Theorem tsch_enqueue_then_acked
    randint response_ack asn isNACKed m packet m1 m2 m' :
  _tsch_enqueue m packet = Ok (true, m1) ->
  pkt_type packet <> IANA_6TOP_TYPE_REQUEST ->
  pkt_type packet <> IANA_6TOP_TYPE_RESPONSE ->
  (forall p, last (txQueue m1) = Some p -> p ∉ txQueue m) ->
  txQueue m2 = txQueue m1 ->
  pktToSend m2 = Some (length (txQueue m)) ->
  radio_txDone randint response_ack asn true isNACKed m2 = Ok m' ->
  txQueue m' = txQueue m.
Proof.
  intros Henq Hreq Hresp Hfresh Hq2 Hsend.
  destruct (tsch_enqueue_cases _ _ _ _ Henq)
    as [[? _]|(_ & p' & Hq1 & Htype & _)]; [done|].
  rewrite Hq1 in Hfresh, Hq2. specialize (Hfresh p' (last_snoc _ _)).
  assert (Hlook : txQueue m2 !! length (txQueue m) = Some p').
  { rewrite Hq2. by rewrite list_lookup_middle. }
  unfold radio_txDone.
  destruct (decide (slotframeLength (settings m2) = 0)); [done|].
  cbv zeta.
  destruct (lookup_cell _ (schedule m2)) as [cell|]; [|done].
  unfold mbind at 1. unfold outcome_bind at 1. unfold or_raise at 1.
  cbv beta iota.
  destruct (negb (_ || _)); [done|].
  destruct (negb (bool_decide (waitingFor m2 = Some DIR_TX))); [done|].
  rewrite Hsend.
  unfold mbind at 1. unfold outcome_bind at 1. unfold or_raise at 1.
  cbv beta iota. rewrite Hlook.
  unfold mbind at 1. unfold outcome_bind at 1. unfold or_raise at 1.
  cbv beta iota.
  rewrite Htype. rewrite decide_False by done.
  unfold mbind, outcome_bind, or_raise. cbv beta iota.
  rewrite decide_False by done.
  set (mq := if peer_is _ _ then _ else _).
  assert (Hmq : txQueue mq = txQueue m2) by (subst mq; by destruct (peer_is _ _)).
  rewrite Hmq, Hq2, (list_remove_fresh_snoc _ _ Hfresh).
  intros [= <-]. cbn [txQueue set_waitingFor].
  destruct (txDone_resetBackoff_sixtop (cell_dir cell) (cell_neighbor cell)
              (set_txQueue (txQueue m) mq)) as (_ & -> & _).
  done.
Qed.


Lemma tsch_enqueue_then_acked_witness :
  exists m1 m',
    _tsch_enqueue mote_sending data_packet = Ok (true, m1)
    /\ radio_txDone no_randint no_response_ack 510 true false
                    (set_pktToSend (Some 1%nat) m1)
       = Ok m'
    /\ txQueue m' = txQueue mote_sending.
Proof.
  pose (m1 := match _tsch_enqueue mote_sending data_packet with
              | Ok (_, x) => x
              | Raise _ => mote_sending
              end).
  pose (m2 := set_pktToSend (Some 1%nat) m1).
  pose (m' := match radio_txDone no_randint no_response_ack 510 true false m2
              with Ok x => x | Raise _ => m2 end).
  assert (He : _tsch_enqueue mote_sending data_packet = Ok (true, m1))
    by (vm_compute; reflexivity).
  assert (Hr : radio_txDone no_randint no_response_ack 510 true false m2
               = Ok m') by (vm_compute; reflexivity).
  exists m1, m'. split; [exact He|]. split; [exact Hr|].
  apply (tsch_enqueue_then_acked no_randint no_response_ack 510 false
           mote_sending data_packet m1 m2 m' He).
  - discriminate.
  - discriminate.
  - intros p Hp. vm_compute in Hp. injection Hp as <-.
    intros Hin. apply (bool_decide_pack _) in Hin. vm_compute in Hin. exact Hin.
  - vm_compute; reflexivity.
  - vm_compute; reflexivity.
  - exact Hr.
Defined.

(** ** 6top: the two ends of a DELETE transaction *)

(** The requester's side of an accepted DELETE response without slot
    bonding: the one timeslot it names and what happens to the schedule. *)
Lemma receive_RESPONSE_delete_run asn smac payload m tx m' :
  tx_of m smac = Ok tx ->
  six_state tx = SIX_STATE_WAIT_DELETERESPONSE ->
  individualModulations (settings m) <> 1 ->
  _sixtop_receive_RESPONSE asn IANA_6TOP_RC_SUCCESS smac payload m
  = Ok (Some true, m') ->
  exists ts c,
    payload_cellList payload = Timeslots [ts]
    /\ lookup_cell ts (schedule m) = Some c
    /\ cell_neighbor c = Unicast smac
    /\ schedule m' = pop_cell ts (schedule m).
Proof.
  intros Htx Hs Hmode. unfold _sixtop_receive_RESPONSE. rewrite Htx.
  unfold mbind at 1. unfold outcome_bind at 1. cbv beta iota.
  rewrite Hs. rewrite decide_False by done. rewrite decide_True by done.
  change (is_response_code IANA_6TOP_RC_SUCCESS) with true.
  cbn [negb]. cbv zeta.
  destruct (bool_decide (payload_seq payload = six_seqNum tx)); cbn [negb];
    [|done].
  destruct (six_timer tx) as [t|]; [|done].
  unfold mbind at 1. unfold outcome_bind at 1. unfold getitem. cbv beta iota.
  destruct (decide (timer_asn t = asn)); [done|].
  rewrite decide_True by done.
  change (settings (update_tx half_advance smac
                      (_stats_incrementMoteStats "6topRxDelResp" m)))
    with (settings m).
  change (schedule (update_tx half_advance smac
                      (_stats_incrementMoteStats "6topRxDelResp" m)))
    with (schedule m).
  rewrite bool_decide_eq_false_2 by done.
  destruct (payload_cellList payload) as [l|l] eqn:El.
  { destruct l as [|c0 [|c1 l]]; done. }
  destruct l as [|ts [|ts1 l]]; [done| |done].
  cbn [cellList_length length Nat.eqb negb delete_timeslots].
  unfold mbind at 1. unfold outcome_bind at 1. cbv beta iota.
  cbn [_tsch_removeCells].
  destruct (lookup_cell ts (schedule m)) as [c|] eqn:Ec; [|done].
  destruct (decide (cell_neighbor c = Unicast smac)) as [Hc|]; [|done].
  unfold mbind at 1. unfold outcome_bind at 1. cbv beta iota.
  intros H.
  destruct (update_counters_sub _ _ _ _) as [m2|] eqn:E2; [|done].
  unfold mbind at 1 in H. unfold outcome_bind at 1 in H. cbv beta iota in H.
  injection H as <-.
  apply update_counters_sub_frame in E2 as (_ & _ & Hsched & _).
  exists ts, c. do 3 (split; [done|]).
  change (schedule (update_tx half_idle smac m2)) with (schedule m2).
  by rewrite Hsched.
Qed.

(** A DELETE response with another return code leaves the schedule of the
    requester alone. *)
Lemma receive_RESPONSE_delete_refused asn code smac payload m tx r m' :
  tx_of m smac = Ok tx ->
  six_state tx = SIX_STATE_WAIT_DELETERESPONSE ->
  code <> IANA_6TOP_RC_SUCCESS ->
  _sixtop_receive_RESPONSE asn code smac payload m = Ok (r, m') ->
  schedule m' = schedule m.
Proof.
  intros Htx Hs Hcode. unfold _sixtop_receive_RESPONSE. rewrite Htx.
  unfold mbind at 1. unfold outcome_bind at 1. cbv beta iota.
  rewrite Hs. rewrite decide_False by done. rewrite decide_True by done.
  destruct (is_response_code code); cbn [negb]; [|done]. cbv zeta.
  destruct (bool_decide (payload_seq payload = six_seqNum tx)); cbn [negb];
    [|by intros [= <- <-]].
  destruct (six_timer tx) as [t|]; [|done].
  unfold mbind at 1. unfold outcome_bind at 1. unfold getitem. cbv beta iota.
  destruct (decide (timer_asn t = asn)); [by intros [= <- <-]|].
  rewrite decide_False by done. unfold response_without_cells.
  repeat case_decide; try done; by intros [= <- <-].
Qed.

(** The responder's side, when the acknowledged response was the answer to
    a DELETE request and the mote does not bond slots. *)
Lemma receive_RESPONSE_ACK_delete dst code payload m rx m' :
  rx_of m dst = Ok rx ->
  six_state rx = SIX_STATE_WAIT_DELETE_RESPONSE_SENDDONE ->
  individualModulations (settings m) <> 1 ->
  _sixtop_receive_RESPONSE_ACK dst code payload m = Ok m' ->
  if decide (code = IANA_6TOP_RC_SUCCESS) then
    exists tsList,
      delete_timeslots false (modulationSlots m dst) (payload_cellList payload)
      = Ok tsList
      /\ _tsch_removeCells (Unicast dst) tsList (schedule m)
         = Ok (schedule m')
  else schedule m' = schedule m.
Proof.
  intros Hrx Hs Hmode. unfold _sixtop_receive_RESPONSE_ACK. rewrite Hrx.
  unfold mbind at 1. unfold outcome_bind at 1. cbv beta iota zeta.
  rewrite decide_False by (rewrite Hs; done).
  rewrite decide_True by done.
  destruct (decide (code = IANA_6TOP_RC_SUCCESS)) as [Hc|Hc].
  - rewrite decide_False by done.
    destruct (delete_timeslots false _ _) as [tsList|] eqn:Et.
    2:{ unfold mbind, outcome_bind. done. }
    unfold mbind, outcome_bind. cbv beta iota.
    destruct (_tsch_removeCells (Unicast dst) tsList (schedule m))
      as [sched|] eqn:Er; [|done].
    destruct (update_counters_sub _ _ _ _) as [m1|] eqn:E1; [|done].
    intros H.
    apply update_counters_sub_frame in E1 as (_ & _ & Hsched & _).
    apply update_rx_spec in H as (? & ? & _ & _ & ->).
    exists tsList. split; [done|]. cbn [schedule set_sixtopStates].
    by rewrite Hsched.
  - unfold mbind at 1. unfold outcome_bind at 1. cbv beta iota.
    intros H. by apply update_rx_spec in H as (? & ? & _ & _ & ->).
Qed.

(** The request handler: the response it asks for and the schedule it
    leaves. *)
Lemma receive_DELETE_REQUEST_steps smac payload m call m1 :
  _sixtop_receive_DELETE_REQUEST smac payload m = Ok (call, m1) ->
  schedule m1 = schedule m
  /\ drsp_neighbor call = smac
  /\ drsp_seq call = payload_seq payload
  /\ (if rx_busy smac m then
        drsp_code call = IANA_6TOP_RC_RESET
        /\ drsp_cellList call = Timeslots []
        /\ drsp_dir call = payload_dir payload
      else
        drsp_cellList call = payload_cellList payload
        /\ drsp_dir call = flipDir (payload_dir payload)
        /\ drsp_code call
           = if all_scheduled (schedule m) (payload_cellList payload)
             then IANA_6TOP_RC_SUCCESS else IANA_6TOP_RC_NORES).
Proof.
  unfold _sixtop_receive_DELETE_REQUEST. cbv zeta.
  change (rx_busy smac (_stats_incrementMoteStats "6topRxDelReq" m))
    with (rx_busy smac m).
  destruct (rx_busy smac m).
  - destruct (drop_responses _ _ _) as [q|]; [|done].
    unfold mbind, outcome_bind. cbv beta iota. by intros [= <- <-].
  - destruct (_ ≫= six_rx); [|done].
    destruct (update_rx _ _ _) as [m2|] eqn:E2; [|done].
    unfold mbind, outcome_bind. cbv beta iota. intros [= <- <-].
    apply update_rx_spec in E2 as (? & ? & _ & _ & ->). done.
Qed.

(** X27: the two ends of a DELETE transaction agree, without slot bonding.
    When the responder has answered the DELETE request of mote [q], the
    requester has handled that response as the one it waited for, and the
    responder, its schedule still the one it had when it answered, handles
    the acknowledgement of the response, then: if the return code is
    SUCCESS, the request named exactly one timeslot, each side had a cell
    with the other at that timeslot, and each side has removed just that
    cell; with any other return code both schedules are as they were. *)
Theorem sixtop_delete_transaction_agrees
    q r request m_r call m_r1 m_r2 rx m_r' asn m_q tx m_q' :
  _sixtop_receive_DELETE_REQUEST q request m_r = Ok (call, m_r1) ->
  tx_of m_q r = Ok tx ->
  six_state tx = SIX_STATE_WAIT_DELETERESPONSE ->
  individualModulations (settings m_q) <> 1 ->
  _sixtop_receive_RESPONSE asn (drsp_code call) r (delete_response_payload call)
                           m_q
  = Ok (Some true, m_q') ->
  rx_of m_r2 q = Ok rx ->
  six_state rx = SIX_STATE_WAIT_DELETE_RESPONSE_SENDDONE ->
  schedule m_r2 = schedule m_r ->
  individualModulations (settings m_r2) <> 1 ->
  _sixtop_receive_RESPONSE_ACK q (drsp_code call) (delete_response_payload call)
                               m_r2
  = Ok m_r' ->
  if decide (drsp_code call = IANA_6TOP_RC_SUCCESS) then
    exists ts c_q c_r,
      payload_cellList request = Timeslots [ts]
      /\ lookup_cell ts (schedule m_q) = Some c_q
      /\ cell_neighbor c_q = Unicast r
      /\ lookup_cell ts (schedule m_r) = Some c_r
      /\ cell_neighbor c_r = Unicast q
      /\ schedule m_q' = pop_cell ts (schedule m_q)
      /\ schedule m_r' = pop_cell ts (schedule m_r)
  else schedule m_q' = schedule m_q /\ schedule m_r' = schedule m_r.
Proof.
  intros Hreq Htx Hstate Hmode_q Hresp Hrx Hrxs Hsched2 Hmode_r Hack.
  apply receive_DELETE_REQUEST_steps in Hreq as (_ & _ & _ & Hcall).
  pose proof (receive_RESPONSE_ACK_delete _ _ _ _ _ _ Hrx Hrxs Hmode_r Hack)
    as Hr.
  destruct (decide (drsp_code call = IANA_6TOP_RC_SUCCESS)) as [Hc|Hc].
  - rewrite Hc in Hresp.
    destruct (receive_RESPONSE_delete_run _ _ _ _ _ _ Htx Hstate Hmode_q Hresp)
      as (ts & c_q & Hl & Hcq & Hnq & Hq').
    destruct Hr as (tsList & Hts & Hrem).
    cbn [delete_response_payload payload_cellList] in Hl, Hts.
    destruct (rx_busy q m_r).
    { destruct Hcall as (Hcode & _). by rewrite Hcode in Hc. }
    destruct Hcall as (Hlist & _ & _). rewrite Hlist in Hl.
    rewrite Hlist, Hl in Hts. cbn [delete_timeslots] in Hts.
    injection Hts as <-. rewrite Hsched2 in Hrem.
    cbn [_tsch_removeCells] in Hrem.
    destruct (lookup_cell ts (schedule m_r)) as [c_r|] eqn:Ecr; [|done].
    destruct (decide (cell_neighbor c_r = Unicast q)) as [Hnr|]; [|done].
    injection Hrem as Hrem.
    exists ts, c_q, c_r. by repeat split.
  - split; [|by rewrite Hr].
    by apply (receive_RESPONSE_delete_refused _ _ _ _ _ _ _ _ Htx Hstate Hc Hresp).
Qed.

Lemma sixtop_delete_transaction_agrees_witness :
  exists m_q' m_r',
    _sixtop_receive_RESPONSE 499 IANA_6TOP_RC_SUCCESS 7
      (delete_response_payload
         (mkDeleteResponseCall 1 (Timeslots [9]) IANA_6TOP_RC_SUCCESS DIR_RX 3))
      mote_delete_requester = Ok (Some true, m_q')
    /\ _sixtop_receive_RESPONSE_ACK 1 IANA_6TOP_RC_SUCCESS
         (delete_response_payload
            (mkDeleteResponseCall 1 (Timeslots [9]) IANA_6TOP_RC_SUCCESS DIR_RX
                                  3))
         mote_delete_responded = Ok m_r'
    /\ schedule m_q' = []
    /\ schedule m_r' = [cell_to 2 DIR_TX 11 40 40].
Proof.
  pose (call := mkDeleteResponseCall 1 (Timeslots [9]) IANA_6TOP_RC_SUCCESS
                                     DIR_RX 3).
  assert (Hreq : exists m_r1,
             _sixtop_receive_DELETE_REQUEST 1 delete_request
                                            mote_delete_responder
             = Ok (call, m_r1)) by (eexists; vm_compute; reflexivity).
  destruct Hreq as [m_r1 Hreq].
  assert (Htx : exists tx, tx_of mote_delete_requester 7 = Ok tx
                           /\ six_state tx = SIX_STATE_WAIT_DELETERESPONSE)
    by (eexists; split; vm_compute; reflexivity).
  destruct Htx as (tx & Htx & Hstate).
  assert (Hrx : exists rx, rx_of mote_delete_responded 1 = Ok rx
                           /\ six_state rx
                              = SIX_STATE_WAIT_DELETE_RESPONSE_SENDDONE)
    by (eexists; split; vm_compute; reflexivity).
  destruct Hrx as (rx & Hrx & Hrxs).
  assert (Hresp : exists m_q',
             _sixtop_receive_RESPONSE 499 (drsp_code call) 7
               (delete_response_payload call) mote_delete_requester
             = Ok (Some true, m_q')) by (eexists; vm_compute; reflexivity).
  destruct Hresp as [m_q' Hresp].
  assert (Hack : exists m_r',
             _sixtop_receive_RESPONSE_ACK 1 (drsp_code call)
               (delete_response_payload call) mote_delete_responded
             = Ok m_r') by (eexists; vm_compute; reflexivity).
  destruct Hack as [m_r' Hack].
  exists m_q', m_r'. split; [exact Hresp|]. split; [exact Hack|].
  pose proof (sixtop_delete_transaction_agrees 1 7 delete_request
                mote_delete_responder call m_r1 mote_delete_responded rx m_r'
                499 mote_delete_requester tx m_q' Hreq Htx Hstate) as H.
  assert (Hmq : individualModulations (settings mote_delete_requester) <> 1)
    by (vm_compute; discriminate).
  assert (Hmr : individualModulations (settings mote_delete_responded) <> 1)
    by (vm_compute; discriminate).
  specialize (H Hmq Hresp Hrx Hrxs eq_refl Hmr Hack).
  rewrite decide_True in H by reflexivity.
  destruct H as (ts & c_q & c_r & Hl & _ & _ & _ & _ & Hq & Hr).
  injection Hl as <-. rewrite Hq, Hr. split; vm_compute; reflexivity.
Defined.
